(** * Research pipeline: shallow embedding and verified properties

    The Python sources embedded here are
    - [icis_researcher/skills/researcher.py]  (URL deduplication, sub-queries,
      the search path, context from URLs)
    - [icis_researcher/skills/browser.py]     (image selection, browsing)
    - [icis_researcher/skills/curator.py]     (source curation)
    - [icis_researcher/actions/report_generation.py] (report generation and
      the section writers)
    - [icis_researcher/actions/retriever.py], [llm_provider/generic/base.py]
    - [icis_researcher/utils/llm.py]          (subtopic construction)
    - [icis_researcher/actions/utils.py]      (state loggers, token counts)
    - [icis_researcher/agent.py]              (cost ledger)
    - [multi_agents/agents/reviewer.py], [multi_agents/agents/editor.py]
      (review loop, draft editing)
    - [backend/server/server_utils.py]        (configuration and environment)

    Stateful methods are written in a state-and-exception monad over the
    fields of the objects they mutate.  Collaborators that live outside the
    repository (the language model, [json.loads], prompt templates, the
    image hash) are parameters of the sections that use them. *)

From Stdlib Require Import ZArith Lia Ascii.
From Stdlib Require Import Floats.PrimFloat Floats.SpecFloat Floats.FloatOps
  Floats.FloatAxioms.
From Stdlib Require Uint63.
From stdpp Require Import base option list gmap sets strings pretty.

Set Warnings "-clear-no-such-hyp,-register-all".

(** ** Python runtime: exceptions, effects, log events *)

Module Py.

(** Exception classes raised or caught by the embedded code.  All of them
    derive from [Exception]; cancellation and interpreter-exit signals are
    outside the model, so [except:] and [except Exception:] agree. *)
Inductive exn_class :=
| ValueError | KeyError | TypeError | ImportError | OverflowError
| JSONDecodeError | RuntimeError | OtherError (name : string).

Record exn := Exn { exn_class_of : exn_class; exn_msg : string }.

(** [str(e)] *)
Definition str_exn (e : exn) : string := exn_msg e.

Inductive outcome (A : Type) :=
| Return (a : A)
| Raise (e : exn).
Arguments Return {A} a.
Arguments Raise {A} e.

(** A computation over a mutable store [S]: the store survives a raise,
    as a Python object mutated before the exception does. *)
Definition M (S A : Type) : Type := S → outcome A * S.

Definition ret {S A} (a : A) : M S A := λ s, (Return a, s).
Definition raise {S A} (e : exn) : M S A := λ s, (Raise e, s).
Definition bind {S A B} (m : M S A) (k : A → M S B) : M S B :=
  λ s, match m s with
       | (Return a, s') => k a s'
       | (Raise e, s') => (Raise e, s')
       end.
Definition get {S} : M S S := λ s, (Return s, s).
Definition modify {S} (f : S → S) : M S unit := λ s, (Return tt, f s).
(** [try: m  except Exception as e: h e] *)
Definition try_except {S A} (m : M S A) (h : exn → M S A) : M S A :=
  λ s, match m s with
       | (Return a, s') => (Return a, s')
       | (Raise e, s') => h e s'
       end.
Definition when {S} (b : bool) (m : M S unit) : M S unit :=
  if b then m else ret tt.

(** An entry of one of the [*_logs] lists.  A dict written without an
    ["error"] key is an entry with [error = false]; the wall-clock
    ["timestamp"] string is not represented. *)
Record log_event := LogEvent { message : string; done : bool; error : bool }.

(** A chat message [{"role": r, "content": c}] *)
Record chat_message := ChatMessage { role : string; content : string }.

(** The line feed character, as a string *)
Definition LF : string := String "010"%char "".

(** [needle in haystack] on [str] *)
Fixpoint str_contains (needle haystack : string) : bool :=
  String.prefix needle haystack ||
  match haystack with
  | EmptyString => false
  | String _ rest => str_contains needle rest
  end.

(** [len(s)]: a [string] holds the UTF-8 bytes of the Python [str]; its
    length in characters is the number of bytes that do not continue a
    multi-byte sequence (bit pattern [10xxxxxx]). *)
Definition is_utf8_continuation (c : Ascii.ascii) : bool :=
  match c with
  | Ascii.Ascii _ _ _ _ _ _ false true => true
  | _ => false
  end.
Fixpoint str_len (s : string) : nat :=
  match s with
  | EmptyString => 0
  | String c rest =>
      if is_utf8_continuation c then str_len rest else S (str_len rest)
  end.

(** [sep.join(parts)] *)
Fixpoint str_join (sep : string) (parts : list string) : string :=
  match parts with
  | [] => ""
  | [p] => p
  | p :: ps => p +:+ sep +:+ str_join sep ps
  end.

(** [s.split(",")]: split at every occurrence of a one-character separator *)
Fixpoint str_split_char (sep : Ascii.ascii) (s : string) : list string :=
  match s with
  | EmptyString => [""]
  | String c rest =>
      if Ascii.eqb c sep then "" :: str_split_char sep rest
      else match str_split_char sep rest with
           | [] => [String c ""]
           | w :: ws => String c w :: ws
           end
  end.

End Py.

Export Py.

Declare Scope py_scope.
Delimit Scope py_scope with py.
Notation "'let!' x ':=' m 'in' k" := (Py.bind m (λ x, k))
  (at level 10, x name, m at level 100, k at level 200) : py_scope.
Notation "m >> k" := (Py.bind m (λ _, k))
  (at level 100, k at level 200, right associativity) : py_scope.
Open Scope py_scope.

(** Unfold the monad operations in a goal, leaving the methods folded. *)
Ltac unfold_py :=
  cbv [Py.bind Py.get Py.modify Py.ret Py.raise Py.try_except Py.when].

(** ** [ResearchSkill] (skills/researcher.py) *)

Module ResearchSkill.

(** One call of [stream_output(type, content, output, websocket, True, metadata)] *)
Record stream_record := Stream { s_type : string; s_content : string; s_output : string }.

(** The fields of [self.researcher] and [self.state] that the methods touch. *)
Record state := State {
  visited_urls : gset string;          (* self.researcher.visited_urls *)
  verbose : bool;                      (* self.researcher.verbose *)
  report_type : string;                (* self.researcher.report_type *)
  researcher_logs : list log_event;    (* self.state["researcher_logs"] *)
  emitted : nat;                       (* calls of copilotkit_emit_state *)
  streamed : list stream_record        (* calls of stream_output *)
}.

Definition set_visited (f : gset string → gset string) (st : state) : state :=
  State (f (visited_urls st)) (verbose st) (report_type st)
        (researcher_logs st) (emitted st) (streamed st).
Definition append_log (ev : log_event) (st : state) : state :=
  State (visited_urls st) (verbose st) (report_type st)
        (researcher_logs st ++ [ev]) (emitted st) (streamed st).
Definition emit_state (st : state) : state :=
  State (visited_urls st) (verbose st) (report_type st)
        (researcher_logs st) (S (emitted st)) (streamed st).
Definition append_stream (r : stream_record) (st : state) : state :=
  State (visited_urls st) (verbose st) (report_type st)
        (researcher_logs st) (emitted st) (streamed st ++ [r]).

Definition _log_event (msg : string) (done error : bool) : M state unit :=
  modify (append_log (LogEvent msg done error)) >>
  modify emit_state.

Definition stream_output (type content output : string) : M state unit :=
  modify (append_stream (Stream type content output)).

Section Methods.
(** [str(list)]: the built-in formatting of a list of strings *)
Variable py_str_list : list string → string.
(** [self.plan_research(query)]: the planner's model call; its code
    ([plan_research_outline]) is outside the repository. *)
Variable plan_research : string → M state (list string).

(** The [for url in url_set_input] loop of [_get_new_urls] *)
Fixpoint _get_new_urls_loop (urls new_urls : list string) : M state (list string) :=
  match urls with
  | [] => ret new_urls
  | url :: rest =>
      let! st := get in
      if decide (url ∉ visited_urls st) then
        modify (set_visited (λ v, v ∪ {[url]})) >>
        let new_urls := new_urls ++ [url] in
        when (verbose st)
          (stream_output "logs" "added_source_url"
             ("✅ Added source url to research: " +:+ url +:+ LF)) >>
        _get_new_urls_loop rest new_urls
      else _get_new_urls_loop rest new_urls
  end.

Definition _get_new_urls (url_set_input : list string) : M state (list string) :=
  _log_event ("Getting new URLs from: " +:+ py_str_list url_set_input) false false >>
  try_except
    (let! new_urls := _get_new_urls_loop url_set_input [] in
     _log_event ("New URLs: " +:+ py_str_list new_urls) true false >>
     ret new_urls)
    (λ e, _log_event ("Error getting new URLs: " +:+ str_exn e) true true >>
          raise e).

(** Lines 264-269 of [_get_context_by_web_search] and 228-231 of
    [_get_context_by_vectorstore]: the list handed to [asyncio.gather]. *)
Definition sub_queries_for (query : string) : M state (list string) :=
  let! sub_queries := plan_research query in
  let! st := get in
  if decide (report_type st ≠ "subtopic_report")
  then ret (sub_queries ++ [query])
  else ret sub_queries.

End Methods.

End ResearchSkill.

(** ** [BrowserSkill] (skills/browser.py) *)

Module BrowserSkill.

(** An image candidate [{"url": u, "score": s}] *)
Record image := Image { url : string; score : Z }.

(** [self.state]: the key ["research_images"] may be absent. *)
Record state := State {
  research_images : option (list string);
  research_logs : list log_event
}.

Section Methods.
(** [scraper.utils.get_image_hash]: a hash string, or [None] on failure *)
Variable get_image_hash : string → option string.

(** The body of the [for img in high_score_images + images] loop; the
    test [if img_hash and ...] rejects [None] and the empty string. *)
Fixpoint select_loop (current_research_images : list string) (k : Z)
    (imgs : list image) (unique_images : list string)
    (seen_hashes : gset string) : list string :=
  match imgs with
  | [] => unique_images
  | img :: rest =>
      match get_image_hash (url img) with
      | Some img_hash =>
          if bool_decide (img_hash ≠ "")
             && bool_decide (img_hash ∉ seen_hashes)
             && bool_decide (url img ∉ current_research_images)
          then
            let seen_hashes := seen_hashes ∪ {[img_hash]} in
            let unique_images := unique_images ++ [url img] in
            if bool_decide (Z.of_nat (length unique_images) = k)
            then unique_images
            else select_loop current_research_images k rest unique_images seen_hashes
          else select_loop current_research_images k rest unique_images seen_hashes
      | None => select_loop current_research_images k rest unique_images seen_hashes
      end
  end.

Definition select_top_images (st : state) (images : list image) (k : Z) : list string :=
  let current_research_images := default [] (research_images st) in
  let high_score_images := filter (λ img, 2 ≤ score img)%Z images in
  select_loop current_research_images k (high_score_images ++ images) [] ∅.

End Methods.

End BrowserSkill.

(** ** [SourceCurator] (skills/curator.py) *)

Module SourceCurator.

(** Values produced by [json.loads] and the source dictionaries handed to
    the curator. *)
Inductive json :=
| JNull
| JBool (b : bool)
| JInt (n : Z)
| JFloat (f : float)
| JStr (s : string)
| JArr (items : list json)
| JObj (fields : list (string * json)).

(** [len(v)]: defined on strings, lists and dicts *)
Definition py_len (v : json) : outcome nat :=
  match v with
  | JStr s => Return (str_len s)
  | JArr items => Return (length items)
  | JObj fields => Return (length fields)
  | JNull => Raise (Exn TypeError "object of type 'NoneType' has no len()")
  | JBool _ => Raise (Exn TypeError "object of type 'bool' has no len()")
  | JInt _ => Raise (Exn TypeError "object of type 'int' has no len()")
  | JFloat _ => Raise (Exn TypeError "object of type 'float' has no len()")
  end.

(** [self.researcher]: the fields read by the curator *)
Record researcher := Researcher { r_role : string; r_query : string }.

(** [self.state], the curator's own [AgentState], and the process output *)
Record state := State {
  research_logs : list log_event;
  curated_sources : option json;       (* self.state["curated_sources"] *)
  emitted : nat;                       (* calls of copilotkit_emit_state *)
  stdout : list string                 (* lines written by print *)
}.

Definition append_log (ev : log_event) (st : state) : state :=
  State (research_logs st ++ [ev]) (curated_sources st) (emitted st) (stdout st).
Definition emit_state (st : state) : state :=
  State (research_logs st) (curated_sources st) (S (emitted st)) (stdout st).
Definition set_curated (v : json) (st : state) : state :=
  State (research_logs st) (Some v) (emitted st) (stdout st).
Definition print (line : string) : M state unit :=
  modify (λ st, State (research_logs st) (curated_sources st) (emitted st)
                      (stdout st ++ [line])).

Definition _log_event (msg : string) (done error : bool) : M state unit :=
  modify (append_log (LogEvent msg done error)) >>
  modify emit_state.

(** Lift a value-or-exception into the monad. *)
Definition lift {A} (o : outcome A) : M state A := λ st, (o, st).

Section Methods.
(** [create_chat_completion(messages=...)]: the model's text, or the
    exception the call ends with.  Its cost callback acts on the
    researcher's ledger, not on the curator's state. *)
Variable create_chat_completion : list chat_message → outcome string.
(** [json.loads] *)
Variable json_loads : string → outcome json.
(** [prompts.curate_sources(query, source_data, max_results)] *)
Variable rank_sources_prompt : string → list json → Z → string.
(** [str(v)] as used by the f-strings *)
Variable py_str : json → string.

(** [curate_sources].  The handler prints [response], which is still [""]
    when the model call itself raised and is the model's text when a later
    statement of the [try] block raised: the two places where the handler
    can start are written out. *)
Definition curate_sources (self : researcher) (source_data : list json)
    (max_results : Z) : M state json :=
  print (LF +:+ LF +:+ "Curating " +:+ pretty (length source_data) +:+ " sources: "
         +:+ py_str (JArr source_data)) >>
  _log_event "Evaluating and curating sources by credibility and relevance..."
             false false >>
  let response := "" in
  match create_chat_completion
          [ChatMessage "system" (r_role self);
           ChatMessage "user"
             (rank_sources_prompt (r_query self) source_data max_results)] with
  | Return response =>
      try_except
        (let! curated_sources := lift (json_loads response) in
         print (LF +:+ LF +:+ "Final Curated sources " +:+ pretty (length source_data) +:+ " sources: "
                  +:+ py_str curated_sources) >>
         let! n := lift (py_len curated_sources) in
         _log_event ("Curated " +:+ pretty n +:+ " sources") true false >>
         modify (set_curated curated_sources) >>
         let! n := lift (py_len curated_sources) in
         _log_event ("Verified and ranked top " +:+ pretty n
                     +:+ " most reliable sources") false false >>
         ret curated_sources)
        (λ e,
           print ("Error in curate_sources from LLM response: " +:+ response) >>
           _log_event ("Error curating sources: " +:+ str_exn e) true true >>
           ret (JArr source_data))
  | Raise e =>
      print ("Error in curate_sources from LLM response: " +:+ response) >>
      _log_event ("Error curating sources: " +:+ str_exn e) true true >>
      ret (JArr source_data)
  end.

End Methods.

End SourceCurator.

(** ** [BrowserSkill.browse_urls] (skills/browser.py) *)

Module BrowseUrls.

(** [self.state] as [browse_urls] uses it: the keys of [BrowserSkill.state],
    the key ["research_sources"] (absent until it is first set) and the
    calls of [copilotkit_emit_state].  A scraped page is a dictionary. *)
Record state := State {
  skill : BrowserSkill.state;
  research_sources : option (list SourceCurator.json);
  emitted : nat
}.

(** [self.state["research_logs"].append(ev); await copilotkit_emit_state(...)] *)
Definition log (ev : log_event) : M state unit :=
  modify (λ st,
    State (BrowserSkill.State (BrowserSkill.research_images (skill st))
                              (BrowserSkill.research_logs (skill st) ++ [ev]))
          (research_sources st) (S (emitted st))).

Definition set_research_sources (pages : list SourceCurator.json) (st : state) : state :=
  State (skill st) (Some pages) (emitted st).

Definition set_research_images (urls : list string) (st : state) : state :=
  State (BrowserSkill.State (Some urls) (BrowserSkill.research_logs (skill st)))
        (research_sources st) (emitted st).

Definition lift {A} (o : outcome A) : M state A := λ st, (o, st).

Section Methods.
(** [scraper.utils.get_image_hash] *)
Variable get_image_hash : string → option string.
(** [actions.web_scraping.scrape_urls(urls, config)]: the scraped pages and
    the images found, or the exception the scraper ends with *)
Variable scrape_urls :
  list string → outcome (list SourceCurator.json * list BrowserSkill.image).

Definition _scrape_urls (urls : list string)
    : M state (list SourceCurator.json * list BrowserSkill.image) :=
  try_except
    (lift (scrape_urls urls))
    (λ e,
       log (LogEvent ("Error scraping URLs: " +:+ str_exn e) true true) >>
       raise e).

Definition browse_urls (urls : list string) : M state (list SourceCurator.json) :=
  try_except
    (log (LogEvent ("Browsing " +:+ pretty (length urls) +:+ " URLs") false false) >>
     let! scraped := _scrape_urls urls in
     let scraped_content := scraped.1 in
     let images := scraped.2 in
     log (LogEvent ("Successfully extracted content from " +:+ pretty (length urls)
                    +:+ " URLs") true false) >>
     modify (set_research_sources scraped_content) >>
     let! st := get in
     modify (set_research_images
               (BrowserSkill.select_top_images get_image_hash (skill st) images 4)) >>
     ret scraped_content)
    (λ e,
       log (LogEvent ("Error browsing URLs: " +:+ str_exn e) true true) >>
       raise e).

End Methods.

End BrowseUrls.

(** ** [generate_report] (actions/report_generation.py) *)

Module ReportGeneration.

(** The configuration fields read by [generate_report] *)
Record config := Config {
  report_format : string;
  total_words : Z;
  language : string;
  smart_llm_model : string;
  smart_llm_provider : string;
  smart_token_limit : Z
}.

(** The two ways [generate_prompt] is called *)
Inductive prompt_args :=
| SubtopicArgs (query context : string) (cfg : config) (tone : string)
| ReportArgs (query context report_source : string) (cfg : config) (tone : string).

(** The optional [state] argument *)
Record agent_state := AgentState {
  writer_logs : list log_event;
  emitted : nat                        (* calls of copilotkit_emit_state *)
}.

Record world := World {
  state : option agent_state;
  stdout : list string;                      (* lines written by print *)
  llm_calls : list (list chat_message)       (* messages of each model call *)
}.

(** [if state: state["writer_logs"].append(ev); await copilotkit_emit_state(...)] *)
Definition log_if_state (ev : log_event) : M world unit :=
  modify (λ w,
    match state w with
    | Some s => World (Some (AgentState (writer_logs s ++ [ev]) (S (emitted s))))
                      (stdout w) (llm_calls w)
    | None => w
    end).

Definition print (line : string) : M world unit :=
  modify (λ w, World (state w) (stdout w ++ [line]) (llm_calls w)).

Section Methods.
(** [create_chat_completion]: the outcome of the [n]-th model call of the
    run, given its messages *)
Variable create_chat_completion : nat → list chat_message → outcome string.
(** [get_prompt_by_report_type(report_type)] applied to its arguments *)
Variable generate_prompt : string → prompt_args → string.

Definition call_model (messages : list chat_message) : M world string :=
  λ w, (create_chat_completion (length (llm_calls w)) messages,
        World (state w) (stdout w) (llm_calls w ++ [messages])).

Definition generate_report (query context agent_role_prompt report_type
    tone report_source : string) (cfg : config) : M world string :=
  let report := "" in
  let content :=
    if decide (report_type = "subtopic_report")
    then generate_prompt report_type (SubtopicArgs query context cfg tone)
    else generate_prompt report_type (ReportArgs query context report_source cfg tone) in
  try_except
    (log_if_state (LogEvent "Generating report..." false false) >>
     let! report := call_model [ChatMessage "system" agent_role_prompt;
                                ChatMessage "user" content] in
     log_if_state (LogEvent "Report generated" true false) >>
     ret report)
    (λ _,
       try_except
         (call_model [ChatMessage "user" (agent_role_prompt +:+ LF +:+ LF +:+ content)])
         (λ e,
            log_if_state (LogEvent ("Error generating report: " +:+ str_exn e)
                                   true true) >>
            print ("Error in generate_report: " +:+ str_exn e) >>
            ret report)).

(** The prompt builders of [icis_researcher.prompts] used by the section
    writers *)
Variable generate_report_introduction : string → string → string → string.
Variable generate_report_conclusion : string → string → string → string.
Variable generate_draft_titles_prompt : string → string → string → string.

(** [write_report_introduction].  The handler falls through to the final
    [return ""]; the record written with [logger.error] is not
    represented. *)
Definition write_report_introduction (query context agent_role_prompt : string)
    (cfg : config) : M world string :=
  try_except
    (log_if_state (LogEvent "Generating report introduction..." false false) >>
     let! introduction :=
       call_model [ChatMessage "system" agent_role_prompt;
                   ChatMessage "user"
                     (generate_report_introduction query context (language cfg))] in
     log_if_state (LogEvent "Report introduction generated" true false) >>
     ret introduction)
    (λ e,
       log_if_state (LogEvent ("Error generating report introduction: " +:+ str_exn e)
                              true true) >>
       ret "").

(** [write_conclusion] *)
Definition write_conclusion (query context agent_role_prompt : string)
    (cfg : config) : M world string :=
  try_except
    (log_if_state (LogEvent "Generating report conclusion..." false false) >>
     let! conclusion :=
       call_model [ChatMessage "system" agent_role_prompt;
                   ChatMessage "user"
                     (generate_report_conclusion query context (language cfg))] in
     log_if_state (LogEvent "Report conclusion generated" true false) >>
     ret conclusion)
    (λ e,
       log_if_state (LogEvent ("Error generating report conclusion: " +:+ str_exn e)
                              true true) >>
       ret "").

(** [summarize_url] *)
Definition summarize_url (url content role : string) (cfg : config)
    : M world string :=
  try_except
    (log_if_state (LogEvent "Summarizing URL content..." false false) >>
     let! summary :=
       call_model [ChatMessage "system" role;
                   ChatMessage "user"
                     ("Summarize the following content from " +:+ url +:+ ":"
                      +:+ LF +:+ LF +:+ content)] in
     log_if_state (LogEvent "URL content summarized" true false) >>
     ret summary)
    (λ e,
       log_if_state (LogEvent ("Error summarizing URL: " +:+ str_exn e) true true) >>
       ret "").

(** [generate_draft_section_titles]: the model's text, split at every line
    feed; the empty list after a failure. *)
Definition generate_draft_section_titles (query current_subtopic context role : string)
    (cfg : config) : M world (list string) :=
  try_except
    (log_if_state (LogEvent "Generating draft section titles..." false false) >>
     let! section_titles :=
       call_model [ChatMessage "system" role;
                   ChatMessage "user"
                     (generate_draft_titles_prompt current_subtopic query context)] in
     log_if_state (LogEvent "Draft section titles generated" true false) >>
     ret (str_split_char "010"%char section_titles))
    (λ e,
       log_if_state (LogEvent ("Error generating draft section titles: " +:+ str_exn e)
                              true true) >>
       ret []).

End Methods.

End ReportGeneration.

(** ** [get_retriever], [get_retrievers] (actions/retriever.py) *)

Module Retriever.

(** The retriever classes of [icis_researcher.retrievers] *)
Inductive retriever_class :=
| GoogleSearch | SearxSearch | SearchApiSearch | SerpApiSearch | SerperSearch
| Duckduckgo | BingSearch | ArxivSearch | TavilySearch | ExaSearch
| SemanticScholarSearch | PubMedCentralSearch | CustomRetriever.

(** [cls.__name__] *)
Definition __name__ (c : retriever_class) : string :=
  match c with
  | GoogleSearch => "GoogleSearch" | SearxSearch => "SearxSearch"
  | SearchApiSearch => "SearchApiSearch" | SerpApiSearch => "SerpApiSearch"
  | SerperSearch => "SerperSearch" | Duckduckgo => "Duckduckgo"
  | BingSearch => "BingSearch" | ArxivSearch => "ArxivSearch"
  | TavilySearch => "TavilySearch" | ExaSearch => "ExaSearch"
  | SemanticScholarSearch => "SemanticScholarSearch"
  | PubMedCentralSearch => "PubMedCentralSearch"
  | CustomRetriever => "CustomRetriever"
  end.

(** The [match retriever:] statement; [case _] yields [None]. *)
Definition get_retriever (retriever : string) : option retriever_class :=
  if decide (retriever = "google") then Some GoogleSearch
  else if decide (retriever = "searx") then Some SearxSearch
  else if decide (retriever = "searchapi") then Some SearchApiSearch
  else if decide (retriever = "serpapi") then Some SerpApiSearch
  else if decide (retriever = "serper") then Some SerperSearch
  else if decide (retriever = "duckduckgo") then Some Duckduckgo
  else if decide (retriever = "bing") then Some BingSearch
  else if decide (retriever = "arxiv") then Some ArxivSearch
  else if decide (retriever = "tavily") then Some TavilySearch
  else if decide (retriever = "exa") then Some ExaSearch
  else if decide (retriever = "semantic_scholar") then Some SemanticScholarSearch
  else if decide (retriever = "pubmed_central") then Some PubMedCentralSearch
  else if decide (retriever = "custom") then Some CustomRetriever
  else None.

Definition get_default_retriever : retriever_class := TavilySearch.

(** The configuration object: [cfg.retrievers] is a list of names (empty
    when unset), [cfg.retriever] a name (empty when unset). *)
Record config := Config { retrievers : list string; retriever : string }.

(** Truth value of [headers.get(key)]: a present, non-empty string *)
Definition header (headers : gmap string string) (key : string) : option string :=
  match headers !! key with
  | Some v => if decide (v = "") then None else Some v
  | None => None
  end.

(** The names [get_retrievers] resolves, by the precedence of its
    [if]/[elif] chain *)
Definition requested_retrievers (headers : gmap string string) (cfg : config)
    : list string :=
  match header headers "retrievers" with
  | Some v => str_split_char ","%char v
  | None =>
      match header headers "retriever" with
      | Some v => [v]
      | None =>
          match retrievers cfg with
          | _ :: _ => retrievers cfg
          | [] =>
              if decide (retriever cfg ≠ "") then [retriever cfg]
              else [__name__ get_default_retriever]
          end
      end
  end.

(** [[get_retriever(r) or get_default_retriever() for r in retrievers]] *)
Definition get_retrievers (headers : gmap string string) (cfg : config)
    : list retriever_class :=
  (λ r, default get_default_retriever (get_retriever r))
    <$> requested_retrievers headers cfg.

End Retriever.

(** ** [GenericLLMProvider.from_provider] (llm_provider/generic/base.py) *)

Module GenericLLMProvider.

Definition _SUPPORTED_PROVIDERS : gset string :=
  list_to_set
    ["openai"; "anthropic"; "azure_openai"; "cohere"; "google_vertexai";
     "google_genai"; "fireworks"; "ollama"; "together"; "mistralai";
     "huggingface"; "groq"; "bedrock"; "dashscope"; "xai"; "deepseek";
     "litellm"; "gigachat"].

(** The chat-model class a branch instantiates.  The rewriting of the
    keyword arguments inside a branch is not represented: it does not
    influence which branch runs. *)
Inductive chat_model :=
| ChatOpenAI | ChatAnthropic | AzureChatOpenAI | ChatCohere | ChatVertexAI
| ChatGoogleGenerativeAI | ChatFireworks | ChatOllama (base_url : string)
| ChatTogether | ChatMistralAI | ChatHuggingFace | ChatGroq | ChatBedrock
| ChatDashScope | ChatXAI
| ChatOpenAI_deepseek (openai_api_key : string)
| ChatLiteLLM | GigaChat.

Section Methods.
(** [importlib.util.find_spec(pkg)] finds the package *)
Variable find_spec : string → bool.
(** [os.environ] *)
Variable environ : gmap string string.
(** [from module import name]: the statement binds the class or ends with an
    exception, as [ModuleNotFoundError] when the module is not installed *)
Variable import_from : string → string → outcome unit.
(** The call of a chat-model class on its arguments: the class builds the
    model or its constructor raises (a missing API key, a rejected keyword) *)
Variable construct : chat_model → outcome unit.

(** [pkg.replace("_", "-")] *)
Fixpoint kebab (pkg : string) : string :=
  match pkg with
  | EmptyString => EmptyString
  | String c rest =>
      String (if Ascii.eqb c "_"%char then "-"%char else c) (kebab rest)
  end.

(** [colorama.Fore.RED], the escape sequence [ESC [31m] *)
Definition Fore_RED : string := String "027"%char "[31m".

Definition _check_pkg (pkg : string) : outcome unit :=
  if find_spec pkg then Return tt
  else Raise (Exn ImportError
                (Fore_RED +:+ "Unable to import " +:+ kebab pkg
                 +:+ ". Please install with "
                 +:+ "`pip install -U " +:+ kebab pkg +:+ "`")).

(** [os.environ[key]]; the message of the [KeyError] is the [repr] of the
    key, the key between single quotes *)
Definition environ_get (key : string) : outcome string :=
  match environ !! key with
  | Some v => Return v
  | None => Raise (Exn KeyError ("'" +:+ key +:+ "'"))
  end.

(** One branch of [from_provider]: the package check, the import of the
    class, the evaluation of the constructor's arguments and the call of the
    constructor, each of which ends the branch when it raises *)
Definition branch (pkg module name : string) (args : outcome chat_model)
    : outcome chat_model :=
  match _check_pkg pkg with
  | Raise e => Raise e
  | Return _ =>
      match import_from module name with
      | Raise e => Raise e
      | Return _ =>
          match args with
          | Raise e => Raise e
          | Return llm =>
              match construct llm with
              | Raise e => Raise e
              | Return _ => Return llm
              end
          end
      end
  end.

(** The [if]/[elif] chain of [from_provider]; the result is the [llm] of the
    provider object built by [cls(state, config, llm)].  The order in which
    the names are joined in the error message is the enumeration order of
    the set. *)
Definition from_provider (provider : string) : outcome chat_model :=
  if decide (provider = "openai") then
    branch "langchain_openai" "langchain_openai" "ChatOpenAI" (Return ChatOpenAI)
  else if decide (provider = "anthropic") then
    branch "langchain_anthropic" "langchain_anthropic" "ChatAnthropic"
      (Return ChatAnthropic)
  else if decide (provider = "azure_openai") then
    branch "langchain_openai" "langchain_openai" "AzureChatOpenAI"
      (Return AzureChatOpenAI)
  else if decide (provider = "cohere") then
    branch "langchain_cohere" "langchain_cohere" "ChatCohere" (Return ChatCohere)
  else if decide (provider = "google_vertexai") then
    branch "langchain_google_vertexai" "langchain_google_vertexai" "ChatVertexAI"
      (Return ChatVertexAI)
  else if decide (provider = "google_genai") then
    branch "langchain_google_genai" "langchain_google_genai"
      "ChatGoogleGenerativeAI" (Return ChatGoogleGenerativeAI)
  else if decide (provider = "fireworks") then
    branch "langchain_fireworks" "langchain_fireworks" "ChatFireworks"
      (Return ChatFireworks)
  else if decide (provider = "ollama") then
    branch "langchain_community" "langchain_ollama" "ChatOllama"
      match environ_get "OLLAMA_BASE_URL" with
      | Return base_url => Return (ChatOllama base_url)
      | Raise e => Raise e
      end
  else if decide (provider = "together") then
    branch "langchain_together" "langchain_together" "ChatTogether"
      (Return ChatTogether)
  else if decide (provider = "mistralai") then
    branch "langchain_mistralai" "langchain_mistralai" "ChatMistralAI"
      (Return ChatMistralAI)
  else if decide (provider = "huggingface") then
    branch "langchain_huggingface" "langchain_huggingface" "ChatHuggingFace"
      (Return ChatHuggingFace)
  else if decide (provider = "groq") then
    branch "langchain_groq" "langchain_groq" "ChatGroq" (Return ChatGroq)
  else if decide (provider = "bedrock") then
    branch "langchain_aws" "langchain_aws" "ChatBedrock" (Return ChatBedrock)
  else if decide (provider = "dashscope") then
    branch "langchain_dashscope" "langchain_dashscope" "ChatDashScope"
      (Return ChatDashScope)
  else if decide (provider = "xai") then
    branch "langchain_xai" "langchain_xai" "ChatXAI" (Return ChatXAI)
  else if decide (provider = "deepseek") then
    branch "langchain_openai" "langchain_openai" "ChatOpenAI"
      match environ_get "DEEPSEEK_API_KEY" with
      | Return key => Return (ChatOpenAI_deepseek key)
      | Raise e => Raise e
      end
  else if decide (provider = "litellm") then
    branch "langchain_community" "langchain_community.chat_models.litellm"
      "ChatLiteLLM" (Return ChatLiteLLM)
  else if decide (provider = "gigachat") then
    branch "langchain_gigachat" "langchain_gigachat.chat_models" "GigaChat"
      (Return GigaChat)
  else
    let supported := str_join ", " (elements _SUPPORTED_PROVIDERS) in
    Raise (Exn ValueError
             ("Unsupported " +:+ provider +:+ "." +:+ LF +:+ LF
              +:+ "Supported model providers are: " +:+ supported)).

End Methods.

End GenericLLMProvider.

(** ** [GPTResearcher.add_costs] (agent.py): the cost ledger *)

Module GPTResearcher.

(** The Python values a caller can pass as [cost] *)
Inductive pyval :=
| PyNone
| PyBool (b : bool)
| PyInt (n : Z)
| PyFloat (f : float)
| PyStr (s : string).

(** [isinstance(cost, (float, int))]; [bool] is a subclass of [int]. *)
Definition isinstance_float_int (v : pyval) : bool :=
  match v with
  | PyBool _ | PyInt _ | PyFloat _ => true
  | PyNone | PyStr _ => false
  end.

(** [float(a)] for an integer [a ≥ 0], rounded to nearest-even: up to 62
    bits the primitive conversion is used; above, the 62 leading bits and a
    sticky bit for the rest are converted and scaled by the power of two
    that was shifted out (infinite when the result exceeds the format). *)
Definition float_of_nonneg (a : Z) : float :=
  let d := (Z.log2 a + 1)%Z in
  if (d <=? 62)%Z then of_uint63 (Uint63Axioms.of_Z a)
  else
    let s := (d - 62)%Z in
    let hi := Z.shiftr a s in
    let sticky := if (Z.land a (Z.ones s) =? 0)%Z then 0%Z else 1%Z in
    Z.ldexp (of_uint63 (Uint63Axioms.of_Z (2 * hi + sticky))) (s - 1).

(** The conversion of an [int] operand of a float addition; [None] stands
    for [OverflowError]. *)
Definition float_of_int (n : Z) : option float :=
  let f := float_of_nonneg (Z.abs n) in
  let f := if (n <? 0)%Z then (- f)%float else f in
  if is_infinity f then None else Some f.

(** [total + cost] for a float [total] and an operand accepted by the
    [isinstance] test *)
Definition float_add (total : float) (cost : pyval) : outcome float :=
  match cost with
  | PyFloat c => Return (total + c)%float
  | PyInt n =>
      match float_of_int n with
      | Some c => Return (total + c)%float
      | None => Raise (Exn OverflowError "int too large to convert to float")
      end
  | PyBool b => Return (total + (if b then one else zero))%float
  | PyNone => Raise (Exn TypeError
      "unsupported operand type(s) for +=: 'float' and 'NoneType'")
  | PyStr _ => Raise (Exn TypeError
      "unsupported operand type(s) for +=: 'float' and 'str'")
  end.

(** [self.state]: ["costs"] is created as the float [0.0] by [setdefault]
    and stays a float under [+=] with a float, an int or a bool; the key
    ["log_handler"] may be absent. *)
Record state := State {
  costs : float;
  log_handler : option bool;           (* truth value of the handler, if set *)
  emitted : list float                 (* totals sent by copilotkit_emit_state *)
}.

Definition lift {A} (o : outcome A) : M state A := λ st, (o, st).

(** [add_costs], lines 235-242: the type test, the addition and the lookup
    of the handler.  The call [self._log_event(...)] builds a coroutine that
    is never awaited, so it has no effect.  The statement that follows it in
    the source, [await copilotkit_emit_state(...)] on line 243, stands in a
    plain [def] and is no statement of such a function; no emission is
    taken from it, and [emitted] is left as it is. *)
Definition add_costs (cost : pyval) : M state unit :=
  if negb (isinstance_float_int cost)
  then raise (Exn ValueError "Cost must be an integer or float")
  else
    let! st := get in
    let! total := lift (float_add (costs st) cost) in
    modify (λ st, State total (log_handler st) (emitted st)) >>
    let! handler :=
      match log_handler st with
      | Some h => ret h
      | None => raise (Exn KeyError "'log_handler'")
      end in
    when handler (ret tt).

(** [get_costs] *)
Definition get_costs (st : state) : float := costs st.

(** A caller making the calls [add_costs(c)] for [c] in [cs], going on after
    a call that raised *)
Definition add_costs_each (cs : list pyval) (st : state) : state :=
  fold_left (λ st c, (add_costs c st).2) cs st.

End GPTResearcher.

(** ** [ReviewerAgent] (multi_agents/agents/reviewer.py) *)

Module ReviewerAgent.

(** [TEMPLATE]; the backslash at the end of each source line continues it. *)
Definition TEMPLATE : string :=
  "You are an expert research article reviewer. " +:+
  "Your goal is to review research drafts and provide feedback to the reviser only based on specific guidelines. ".

(** The task dictionary: the keys the reviewer reads *)
Record task := Task {
  model : string;
  guidelines : list string;
  follow_guidelines : bool;
  verbose : bool
}.

(** The [DraftState] of the workflow; [review] and [revision_notes] are
    [None] until a node sets them. *)
Record draft_state := DraftState {
  d_task : task;
  topic : string;
  draft : string;
  review : option string;
  revision_notes : option string
}.

(** [self.state] and the effects of the agent *)
Record world := World {
  research_logs : list log_event;
  emitted : nat;                             (* calls of copilotkit_emit_state *)
  stdout : list string;                      (* lines of print_agent_output *)
  llm_calls : list (list chat_message)       (* prompts of the model calls *)
}.

Definition log (ev : log_event) : M world unit :=
  modify (λ w, World (research_logs w ++ [ev]) (S (emitted w)) (stdout w) (llm_calls w)).

(** [utils.views.print_agent_output]: a line on the console naming the agent *)
Definition print_agent_output (output agent : string) : M world unit :=
  modify (λ w, World (research_logs w) (emitted w)
                     (stdout w ++ [agent +:+ ": " +:+ output]) (llm_calls w)).

Section Methods.
(** [call_model(prompt, model=...)]: the outcome of the [n]-th model call *)
Variable call_model_impl : nat → list chat_message → outcome string.
(** [str(list)] as used by an f-string *)
Variable py_str_list : list string → string.

Definition call_model (prompt : list chat_message) : M world string :=
  λ w, (call_model_impl (length (llm_calls w)) prompt,
        World (research_logs w) (emitted w) (stdout w) (llm_calls w ++ [prompt])).

(** Truth value of [revision_notes] *)
Definition has_notes (notes : option string) : bool :=
  match notes with
  | Some s => negb (String.eqb s "")
  | None => false
  end.

Definition revise_prompt (notes : option string) : string :=
  "The reviser has already revised the draft based on your previous review notes with the following feedback:" +:+ LF +:+
  default "None" notes +:+ LF +:+ LF +:+
  "Please provide additional feedback ONLY if critical since the reviser has already made changes based on your previous feedback." +:+ LF +:+
  "If you think the article is sufficient or that non critical revisions are required, please aim to return None." +:+ LF.

Definition review_prompt (d : draft_state) : string :=
  "You have been tasked with reviewing the draft which was written by a non-expert based on specific guidelines." +:+ LF +:+
  "Please accept the draft if it is good enough to publish, or send it for revision, along with your notes to guide the revision." +:+ LF +:+
  "If not all of the guideline criteria are met, you should send appropriate revision notes." +:+ LF +:+
  "If the draft meets all the guidelines, please return None." +:+ LF +:+
  (if has_notes (revision_notes d) then revise_prompt (revision_notes d) else "") +:+ LF +:+
  LF +:+
  "Guidelines: " +:+ str_join "- " (guidelines (d_task d)) +:+ LF +:+
  "Draft: " +:+ draft d +:+ LF +:+
  LF.

Definition review_draft (d : draft_state) : M world (option string) :=
  try_except
    (log (LogEvent "Starting draft review..." false false) >>
     let prompt := [ChatMessage "system" TEMPLATE;
                    ChatMessage "user" (review_prompt d)] in
     let! response := call_model prompt in
     log (LogEvent "Draft review completed." true false) >>
     when (verbose (d_task d))
       (print_agent_output ("Review feedback is: " +:+ response +:+ "...") "REVIEWER") >>
     if str_contains "None" response then ret None
     else ret (Some response))
    (λ e,
       log (LogEvent ("Error during draft review: " +:+ str_exn e) true true) >>
       raise e).

(** [run]: the value of the key ["review"] in the returned dictionary *)
Definition run (d : draft_state) : M world (option string) :=
  let review := None in
  if follow_guidelines (d_task d) then
    print_agent_output "Reviewing draft..." "REVIEWER" >>
    when (verbose (d_task d))
      (print_agent_output
         ("Following guidelines " +:+ py_str_list (guidelines (d_task d)) +:+ "...")
         "REVIEWER") >>
    review_draft d
  else
    print_agent_output "Ignoring guidelines..." "REVIEWER" >>
    ret review.

End Methods.

End ReviewerAgent.

(** ** [EditorAgent._create_workflow] (multi_agents/agents/editor.py) *)

Module EditorAgent.
Import ReviewerAgent.

(** The nodes of the graph, and [END] *)
Inductive node := Researcher | Reviewer | Reviser | END.

(** The dictionary a node returns; a key that is absent leaves the state's
    value as it is. *)
Record update := Update {
  u_draft : option string;
  u_review : option (option string);
  u_revision_notes : option (option string)
}.

Definition merge (d : draft_state) (u : update) : draft_state :=
  DraftState (d_task d) (topic d)
    (default (draft d) (u_draft u))
    (default (review d) (u_review u))
    (default (revision_notes d) (u_revision_notes u)).

#[global] Instance node_eq_dec : EqDecision node.
Proof. solve_decision. Defined.

(** [set_entry_point("researcher")] *)
Definition entry_point : node := Researcher.

(** [lambda draft: "accept" if draft["review"] is None else "revise"] *)
Definition condition (d : draft_state) : string :=
  match review d with
  | None => "accept"
  | Some _ => "revise"
  end.

(** [{"accept": END, "revise": "reviser"}] *)
Definition path_map (key : string) : node :=
  if decide (key = "accept") then END else Reviser.

(** The edges: [researcher → reviewer], [reviser → reviewer], and the
    conditional edges out of [reviewer] *)
Definition next_node (n : node) (d : draft_state) : node :=
  match n with
  | Researcher => Reviewer
  | Reviser => Reviewer
  | Reviewer => path_map (condition d)
  | END => END
  end.

Section Workflow.
(** The callables registered by [add_node] *)
Variable researcher_node : draft_state → M world update.
Variable reviewer_node : draft_state → M world update.
Variable reviser_node : draft_state → M world update.

Definition node_action (n : node) (d : draft_state) : M world update :=
  match n with
  | Researcher => researcher_node d
  | Reviewer => reviewer_node d
  | Reviser => reviser_node d
  | END => ret (Update None None None)
  end.

(** Running the compiled graph from node [n]: each step runs the node,
    merges its dictionary into the state and follows the outgoing edge.
    [steps] is the engine's [recursion_limit]: the engine tests it at the
    start of every step, also of the one that would only find [END], so a
    run of [k] nodes ends at [END] only under a limit of [k + 1] or more.
    The result is the final state with the list of nodes that ran, or [None]
    when the limit is reached (the engine's [GraphRecursionError]). *)
Fixpoint invoke_from (steps : nat) (n : node) (d : draft_state) (ran : list node)
    : M world (option (draft_state * list node)) :=
  match steps with
  | 0 => ret None
  | S steps' =>
      match n with
      | END => ret (Some (d, ran))
      | _ =>
          let! u := node_action n d in
          let d' := merge d u in
          invoke_from steps' (next_node n d') d' (ran ++ [n])
      end
  end.

Definition invoke (steps : nat) (d : draft_state)
    : M world (option (draft_state * list node)) :=
  invoke_from steps entry_point d [].

End Workflow.

(** The reviewer node of [_create_workflow]: [ReviewerAgent.run], whose
    result is the dictionary [{"review": review}] *)
Definition reviewer_run (call_model_impl : nat → list chat_message → outcome string)
    (py_str_list : list string → string) (d : draft_state) : M world update :=
  let! review := ReviewerAgent.run call_model_impl py_str_list d in
  ret (Update None (Some review) None).

End EditorAgent.

(** ** [ResearchSkill.conduct_research] (skills/researcher.py) *)

Module ConductResearch.

(** A search result is a dictionary of strings; an analysis is any JSON
    value, [{}] when there is no model. *)
Definition search_result := gmap string string.

(** An entry of the list [conduct_research] returns *)
Record processed_result := Processed {
  p_url : string;
  p_content : string;
  p_analysis : SourceCurator.json
}.

(** The dictionary [self.state["research_state"]]: each key may be absent,
    as in the empty dictionary the constructor stores. *)
Record research_state_dict := ResearchState {
  rs_query : option string;
  rs_visited_urls : option (gset string);
  rs_research_summary : option (list processed_result);
  rs_research_depth : option Z;
  rs_max_depth : option Z
}.

(** [self.state]: the keys the search path reads or writes *)
Record state := State {
  researcher_logs : list log_event;
  emitted : nat;                            (* calls of copilotkit_emit_state *)
  research_state : option research_state_dict;
  max_research_depth : option Z
}.

(** [self.state.setdefault("research_state", {})] in [__init__] *)
Definition __init__ (st : state) : state :=
  State (researcher_logs st) (emitted st)
        (Some (default (ResearchState None None None None None) (research_state st)))
        (max_research_depth st).

Definition _log_event (msg : string) (done error : bool) : M state unit :=
  modify (λ st, State (researcher_logs st ++ [LogEvent msg done error])
                      (S (emitted st)) (research_state st) (max_research_depth st)).

Definition set_research_state (rs : research_state_dict) (st : state) : state :=
  State (researcher_logs st) (emitted st) (Some rs) (max_research_depth st).

Definition lift {A} (o : outcome A) : M state A := λ st, (o, st).

(** [d[key]] on a dictionary whose key may be absent *)
Definition subscript {A} (key : string) (v : option A) : M state A :=
  match v with
  | Some a => ret a
  | None => raise (Exn KeyError ("'" +:+ key +:+ "'"))
  end.

Section Methods.
(** [self.state.get("retrievers", [])]: the [search] method of each
    retriever object *)
Variable retrievers : list (string → outcome (list search_result)).
(** [self.state.get("skills", {}).get("browser")]: its [browse] method, if
    there is a browser *)
Variable browser : option (string → outcome string).
(** [self.state.get("llm")]: its [analyze] method, if there is a model *)
Variable llm : option (string → outcome SourceCurator.json).

(** The [for retriever in ...] loop of [_perform_search] *)
Fixpoint _perform_search_loop (rs : list (string → outcome (list search_result)))
    (query : string) (search_results : list search_result)
    : M state (list search_result) :=
  match rs with
  | [] => ret search_results
  | search :: rest =>
      let! results := lift (search query) in
      _perform_search_loop rest query (search_results ++ results)
  end.

Definition _perform_search (query : string) : M state (list search_result) :=
  try_except
    (_log_event "Searching for relevant sources..." false false >>
     let! search_results := _perform_search_loop retrievers query [] in
     _log_event "Source search completed" true false >>
     ret search_results)
    (λ e,
       _log_event ("Error searching sources: " +:+ str_exn e) true true >>
       raise e).

Definition _extract_content (url : string) : M state string :=
  try_except
    match browser with
    | Some browse => lift (browse url)
    | None => ret ""
    end
    (λ e,
       _log_event ("Error extracting content from " +:+ url +:+ ": " +:+ str_exn e)
                  true true >>
       raise e).

Definition _analyze_content (content : string) : M state SourceCurator.json :=
  try_except
    match llm with
    | Some analyze => lift (analyze content)
    | None => ret (SourceCurator.JObj [])
    end
    (λ e,
       _log_event ("Error analyzing content: " +:+ str_exn e) true true >>
       raise e).

(** [self.state["research_state"]["visited_urls"]] *)
Definition visited_urls : M state (gset string) :=
  let! st := get in
  let! rs := subscript "research_state" (research_state st) in
  subscript "visited_urls" (rs_visited_urls rs).

(** The [for result in search_results] loop of [_process_search_results] *)
Fixpoint _process_search_results_loop (search_results : list search_result)
    (processed_results : list processed_result) : M state (list processed_result) :=
  match search_results with
  | [] => ret processed_results
  | result :: rest =>
      let! url := subscript "url" (result !! "url") in
      let! visited := visited_urls in
      if decide (url ∈ visited) then
        _process_search_results_loop rest processed_results
      else
        let! content := _extract_content url in
        let! analysis := _analyze_content content in
        let processed_results := processed_results ++ [Processed url content analysis] in
        let! st := get in
        let! rs := subscript "research_state" (research_state st) in
        let! visited := subscript "visited_urls" (rs_visited_urls rs) in
        modify (set_research_state
                  (ResearchState (rs_query rs) (Some (visited ∪ {[url]}))
                     (rs_research_summary rs) (rs_research_depth rs)
                     (rs_max_depth rs))) >>
        _process_search_results_loop rest processed_results
  end.

Definition _process_search_results (search_results : list search_result)
    : M state (list processed_result) :=
  try_except
    (_log_event "Processing sources..." false false >>
     let! processed_results := _process_search_results_loop search_results [] in
     _log_event "Source processing completed" true false >>
     ret processed_results)
    (λ e,
       _log_event ("Error processing sources: " +:+ str_exn e) true true >>
       raise e).

Definition conduct_research (query : string) : M state (list processed_result) :=
  try_except
    (_log_event ("Starting research for query: " +:+ query) false false >>
     let! st := get in
     when (bool_decide (research_state st = None))
       (modify (set_research_state
                  (ResearchState (Some query) (Some ∅) (Some []) (Some 0%Z)
                     (Some (default 3%Z (max_research_depth st)))))) >>
     let! search_results := _perform_search query in
     let! research_data := _process_search_results search_results in
     let! st := get in
     let! rs := subscript "research_state" (research_state st) in
     let! summary := subscript "research_summary" (rs_research_summary rs) in
     modify (set_research_state
               (ResearchState (rs_query rs) (rs_visited_urls rs)
                  (Some (summary ++ research_data)) (rs_research_depth rs)
                  (rs_max_depth rs))) >>
     _log_event ("Research completed for query: " +:+ query) true false >>
     ret research_data)
    (λ e,
       _log_event ("Error during research: " +:+ str_exn e) true true >>
       raise e).

End Methods.

End ConductResearch.

(** ** [ResearchSkill._get_context_by_urls] (skills/researcher.py) *)

Module ContextByUrls.
Import ResearchSkill.

Definition lift {A} (o : outcome A) : M state A := λ st, (o, st).

Section Methods.
Variable py_str_list : list string → string.
(** The scraped pages and the compressed context, with their [len] *)
Variable scraped context : Type.
Variable len_scraped : scraped → outcome nat.
Variable len_context : context → outcome nat.
(** [self.researcher.scraper_manager.browse_urls] *)
Variable browse_urls : list string → outcome scraped.
(** [self.researcher.vector_store], if there is one, with its [load] *)
Variable vector_store : option (scraped → outcome unit).
(** [self.researcher.context_manager.get_similar_content_by_query] *)
Variable get_similar_content_by_query : string → scraped → outcome context.
(** [self.researcher.query] *)
Variable query : string.

(** [_get_context_by_urls].  The records written with [self.logger.info]
    are not represented, but the [len] calls of their messages are. *)
Definition _get_context_by_urls (urls : list string) : M state context :=
  _log_event ("Getting context from URLs: " +:+ py_str_list urls) false false >>
  try_except
    (let! new_search_urls := _get_new_urls py_str_list urls in
     let! scraped_content := lift (browse_urls new_search_urls) in
     let! _ := lift (len_scraped scraped_content) in
     match vector_store with
     | Some load => lift (load scraped_content)
     | None => ret tt
     end >>
     let! context := lift (get_similar_content_by_query query scraped_content) in
     let! n := lift (len_context context) in
     _log_event ("Generated context length: " +:+ pretty n) true false >>
     ret context)
    (λ e,
       _log_event ("Error getting context from URLs: " +:+ str_exn e) true true >>
       raise e).

End Methods.

End ContextByUrls.

(** ** [EditorAgent.edit_draft] (multi_agents/agents/editor.py) *)

Module EditDraft.

(** [self.state]: the list ["editor_logs"] and the calls of
    [copilotkit_emit_state]; the key ["llm"] holds the editing model. *)
Record state := State { editor_logs : list log_event; emitted : nat }.

Definition log (ev : log_event) : M state unit :=
  modify (λ st, State (editor_logs st ++ [ev]) (S (emitted st))).

Definition lift {A} (o : outcome A) : M state A := λ st, (o, st).

Section Methods.
(** The methods of [self.state["llm"]], with the type of an analysis *)
Variable analysis : Type.
Variable analyze_draft : string → outcome analysis.
Variable improve_draft : string → analysis → outcome string.
Variable final_review : string → outcome string.

Definition _analyze_draft (draft : string) : M state analysis :=
  try_except
    (log (LogEvent "Analyzing draft..." false false) >>
     let! analysis := lift (analyze_draft draft) in
     log (LogEvent "Draft analysis completed" true false) >>
     ret analysis)
    (λ e,
       log (LogEvent ("Error analyzing draft: " +:+ str_exn e) true true) >>
       raise e).

Definition _improve_draft (draft : string) (analysis : analysis) : M state string :=
  try_except
    (log (LogEvent "Improving draft..." false false) >>
     let! improved_draft := lift (improve_draft draft analysis) in
     log (LogEvent "Draft improvements completed" true false) >>
     ret improved_draft)
    (λ e,
       log (LogEvent ("Error improving draft: " +:+ str_exn e) true true) >>
       raise e).

Definition _final_review (draft : string) : M state string :=
  try_except
    (log (LogEvent "Performing final review..." false false) >>
     let! final_draft := lift (final_review draft) in
     log (LogEvent "Final review completed" true false) >>
     ret final_draft)
    (λ e,
       log (LogEvent ("Error in final review: " +:+ str_exn e) true true) >>
       raise e).

Definition edit_draft (draft : string) : M state string :=
  try_except
    (log (LogEvent "Starting to edit draft..." false false) >>
     let! analysis := _analyze_draft draft in
     let! improved_draft := _improve_draft draft analysis in
     let! final_draft := _final_review improved_draft in
     log (LogEvent "Draft editing completed" true false) >>
     ret final_draft)
    (λ e,
       log (LogEvent ("Error editing draft: " +:+ str_exn e) true true) >>
       raise e).

End Methods.

End EditDraft.

(** ** The state loggers (actions/utils.py) *)

Module ActionsUtils.

(** A logged entry is a dictionary of Python values. *)
Definition entry := gmap string GPTResearcher.pyval.

(** The [state] argument: its lists of entries, by key (a key may be
    absent), and the calls of [copilotkit_emit_state]. *)
Record state := State { logs : gmap string (list entry); emitted : nat }.

(** [if key not in state: state[key] = []], [state[key].append(item)] and
    the emission that follows *)
Definition append_to (key : string) (item : entry) (st : state) : state :=
  State (<[key := default [] (logs st !! key) ++ [item]]> (logs st))
        (S (emitted st)).

Section Functions.
(** [datetime.datetime.now().isoformat()] *)
Variable now : string.

(** [log_event]: [event.update(metadata)] lets the metadata override the
    fields written before it.  None of the statements of the [try] block
    raises on a dictionary, so the handler is not represented. *)
Definition log_event (event_type message : string) (metadata : option entry)
    (st : state) : state :=
  let event : entry :=
    {[ "type" := GPTResearcher.PyStr event_type;
       "message" := GPTResearcher.PyStr message;
       "done" := GPTResearcher.PyBool false;
       "timestamp" := GPTResearcher.PyStr now ]} in
  let event :=
    match metadata with
    | Some metadata => metadata ∪ event
    | None => event
    end in
  append_to "event_logs" event st.

(** [log_error]; [context] is added when it is a non-empty string. *)
Definition log_error (error : exn) (context : option string) (st : state) : state :=
  let error_log : entry :=
    {[ "type" := GPTResearcher.PyStr "error";
       "message" := GPTResearcher.PyStr (str_exn error);
       "done" := GPTResearcher.PyBool true;
       "error" := GPTResearcher.PyBool true;
       "timestamp" := GPTResearcher.PyStr now ]} in
  let error_log :=
    match context with
    | Some c => if decide (c = "") then error_log
                else <["context" := GPTResearcher.PyStr c]> error_log
    | None => error_log
    end in
  append_to "error_logs" error_log st.

(** [log_progress]; [done] is [progress >= 1.0]. *)
Definition log_progress (step : string) (progress : float) (message : option string)
    (st : state) : state :=
  let progress_log : entry :=
    {[ "type" := GPTResearcher.PyStr "progress";
       "step" := GPTResearcher.PyStr step;
       "progress" := GPTResearcher.PyFloat progress;
       "done" := GPTResearcher.PyBool (1 <=? progress)%float;
       "timestamp" := GPTResearcher.PyStr now ]} in
  let progress_log :=
    match message with
    | Some m => if decide (m = "") then progress_log
                else <["message" := GPTResearcher.PyStr m]> progress_log
    | None => progress_log
    end in
  append_to "progress_logs" progress_log st.

(** [log_result] *)
Definition log_result (result_type : string) (result : GPTResearcher.pyval)
    (st : state) : state :=
  append_to "result_logs"
    {[ "type" := GPTResearcher.PyStr "result";
       "result_type" := GPTResearcher.PyStr result_type;
       "result" := result;
       "done" := GPTResearcher.PyBool true;
       "timestamp" := GPTResearcher.PyStr now ]} st.

(** [stream_output]; [log_event] does not raise, so the
    [UnicodeEncodeError] handler is never entered. *)
Definition stream_output (type content output : string) (metadata : option entry)
    (st : state) : state :=
  if decide (type ≠ "images") then log_event "output" output metadata st
  else st.

End Functions.

(** The digits of a number, least significant first, with a comma after
    every third digit that is followed by another digit *)
Fixpoint group_thousands (digits : list ascii) : list ascii :=
  match digits with
  | a :: b :: c :: ((_ :: _) as rest) =>
      a :: b :: c :: ","%char :: group_thousands rest
  | _ => digits
  end.

(** [format_token_count]: [f"{count:,}"], the decimal digits of [count] in
    groups of three separated by commas, after the sign *)
Definition format_token_count (count : Z) : string :=
  let digits := String.list_ascii_of_string (pretty (Z.abs_N count)) in
  (if (count <? 0)%Z then "-" else "")
  +:+ String.string_of_list_ascii (reverse (group_thousands (reverse digits))).

End ActionsUtils.

(** ** [get_config_dict], [update_environment_variables]
    (backend/server/server_utils.py) *)

Module ServerUtils.





End ServerUtils.

(** ** [construct_subtopics] (utils/llm.py) *)

Module ConstructSubtopics.

(** The attributes of the configuration object the function reads *)
Record config := Config {
  smart_llm_provider : string;
  smart_llm_model : string;
  smart_token_limit : Z;
  max_subtopics : Z
}.

Section Functions.
(** The provider object [get_llm] returns *)
Variable provider : Type.
(** [PydanticOutputParser(...)] and [PromptTemplate(...)]: built, or an
    exception *)
Variable build_prompt : outcome unit.
(** [get_llm(config.smart_llm_provider, model=..., ...)]: the call resolves
    the provider name, and returns the provider or raises *)
Variable get_llm : string → config → outcome provider.
(** [provider.llm] and [prompt | model | parser] *)
Variable build_chain : provider → outcome unit.
(** [await call_model(prompt={...}, model=..., ...)] *)
Variable call_model : string → string → list string → config → outcome (list string).

(** [print(text)]: the state is the list of the texts printed *)
Definition print (text : string) : M (list string) unit :=
  modify (λ stdout, stdout ++ [text]).

Definition lift {A} (o : outcome A) : M (list string) A := λ stdout, (o, stdout).

(** [construct_subtopics(task, data, config, subtopics)]; [print] with two
    arguments writes them with a space between *)
Definition construct_subtopics (task data : string) (cfg : config)
    (subtopics : list string) : M (list string) (list string) :=
  try_except
    (lift build_prompt >>
     print (LF +:+ "🤖 Calling " +:+ smart_llm_model cfg +:+ "..." +:+ LF) >>
     let! provider := lift (get_llm (smart_llm_provider cfg) cfg) in
     lift (build_chain provider) >>
     let! output := lift (call_model task data subtopics cfg) in
     ret output)
    (λ e,
       print ("Exception in parsing subtopics : " +:+ " " +:+ str_exn e) >>
       ret subtopics).

End Functions.

End ConstructSubtopics.

(** ** Specification-side definitions *)

(** The elements of a list with every repetition after the first removed. *)
Fixpoint first_occurrences (l : list string) : list string :=
  match l with
  | [] => []
  | x :: l' => x :: filter (λ y, y ≠ x) (first_occurrences l')
  end.

(** The sub-query property as the specification words it, at one planner,
    query and state: the dispatched list is duplicate-free and contains the
    original query exactly when the report is not a sub-topic report. *)
Definition sub_queries_deduplicated
    (plan_research : string → M ResearchSkill.state (list string))
    (query : string) (st : ResearchSkill.state) : Prop :=
  ∃ l, (ResearchSkill.sub_queries_for plan_research query st).1 = Return l
       ∧ NoDup l
       ∧ (query ∈ l ↔ ResearchSkill.report_type st ≠ "subtopic_report").

(** The URLs the selection loop would take from [imgs] if it never stopped:
    those whose hash is a non-empty string not seen before and whose URL is
    not in the pre-existing list. *)
Fixpoint eligible_images (get_image_hash : string → option string)
    (current : list string) (imgs : list BrowserSkill.image)
    (seen : gset string) : list string :=
  match imgs with
  | [] => []
  | img :: rest =>
      match get_image_hash (BrowserSkill.url img) with
      | Some h =>
          if bool_decide (h ≠ "") && bool_decide (h ∉ seen)
             && bool_decide (BrowserSkill.url img ∉ current)
          then BrowserSkill.url img
               :: eligible_images get_image_hash current rest (seen ∪ {[h]})
          else eligible_images get_image_hash current rest seen
      | None => eligible_images get_image_hash current rest seen
      end
  end.

(** The size bound of the image selection as the specification words it. *)
Definition selection_within_bound (get_image_hash : string → option string)
    (st : BrowserSkill.state) (images : list BrowserSkill.image) (k : Z) : Prop :=
  (Z.of_nat (length (BrowserSkill.select_top_images get_image_hash st images k)) ≤ k)%Z.

(** The retriever names that [get_retriever] knows: the labels of its
    [case] clauses. *)
Definition supported_retrievers : gset string :=
  list_to_set
    ["google"; "searx"; "searchapi"; "serpapi"; "serper"; "duckduckgo"; "bing";
     "arxiv"; "tavily"; "exa"; "semantic_scholar"; "pubmed_central"; "custom"].

(** *** Binary64 arithmetic *)

(** Number of binary digits of a positive mantissa *)
Definition digits (p : positive) : Z := Zpos (digits2_pos p).

(** Floats that compare as at least [+0] *)
Definition SFnonneg (x : spec_float) : bool :=
  match x with
  | S754_zero _ => true
  | S754_infinity s | S754_finite s _ _ => negb s
  | S754_nan => false
  end.

(** The float an amount adds to the total when [add_costs] accepts it *)
Definition amount_value (cost : GPTResearcher.pyval) : option float :=
  match cost with
  | GPTResearcher.PyFloat c => Some c
  | GPTResearcher.PyInt n => GPTResearcher.float_of_int n
  | GPTResearcher.PyBool b => Some (if b then one else zero)
  | GPTResearcher.PyNone | GPTResearcher.PyStr _ => None
  end.

(** The sum [t ⊕ c₁ ⊕ ... ⊕ cₙ] of binary64 additions, left to right *)
Definition float_sum (t : float) (cs : list float) : float :=
  fold_left PrimFloat.add cs t.

(** A numeric amount that is not negative (any other value is rejected by
    [add_costs] and is not constrained) *)
Definition nonneg_amount (cost : GPTResearcher.pyval) : Prop :=
  match cost with
  | GPTResearcher.PyFloat c => (0 <=? c)%float = true
  | GPTResearcher.PyInt n => (0 ≤ n)%Z
  | _ => True
  end.

(** The cost-total invariant over one call: the total does not decrease
    and is not negative afterwards. *)
Definition cost_total_invariant (cost : GPTResearcher.pyval)
    (st : GPTResearcher.state) : Prop :=
  let st' := (GPTResearcher.add_costs cost st).2 in
  (GPTResearcher.costs st <=? GPTResearcher.costs st')%float = true
  ∧ (0 <=? GPTResearcher.costs st')%float = true.


(** What a writer of [report_generation.py] leaves in the optional state:
    the entries [evs] appended to ["writer_logs"], one emission for each,
    or no state at all when none was passed. *)
Definition writer_logged (w w' : ReportGeneration.world) (evs : list log_event) : Prop :=
  match ReportGeneration.state w with
  | Some s =>
      ∃ s', ReportGeneration.state w' = Some s'
            ∧ ReportGeneration.writer_logs s' = ReportGeneration.writer_logs s ++ evs
            ∧ ReportGeneration.emitted s' = ReportGeneration.emitted s + length evs
  | None => ReportGeneration.state w' = None
  end.

(** A writer that is fail-safe around one model call with [messages]: the
    call is made once; its text is returned, or the empty string after a
    failure, which is logged as an error entry and not raised. *)
Definition fail_safe_completion
    (create_chat_completion : nat → list chat_message → outcome string)
    (run : M ReportGeneration.world string) (messages : list chat_message)
    (starting finished failed : string) : Prop :=
  ∀ w : ReportGeneration.world,
    ReportGeneration.llm_calls (run w).2 = ReportGeneration.llm_calls w ++ [messages]
    ∧ ReportGeneration.stdout (run w).2 = ReportGeneration.stdout w
    ∧ match create_chat_completion (length (ReportGeneration.llm_calls w)) messages with
      | Return text =>
          (run w).1 = Return text
          ∧ writer_logged w (run w).2
              [LogEvent starting false false; LogEvent finished true false]
      | Raise e =>
          (run w).1 = Return ""
          ∧ writer_logged w (run w).2
              [LogEvent starting false false;
               LogEvent (failed +:+ str_exn e) true true]
      end.

(** The integration package each branch of [from_provider] checks with
    [_check_pkg] before it builds the model *)
Definition provider_package (provider : string) : option string :=
  if decide (provider = "openai") then Some "langchain_openai"
  else if decide (provider = "anthropic") then Some "langchain_anthropic"
  else if decide (provider = "azure_openai") then Some "langchain_openai"
  else if decide (provider = "cohere") then Some "langchain_cohere"
  else if decide (provider = "google_vertexai") then Some "langchain_google_vertexai"
  else if decide (provider = "google_genai") then Some "langchain_google_genai"
  else if decide (provider = "fireworks") then Some "langchain_fireworks"
  else if decide (provider = "ollama") then Some "langchain_community"
  else if decide (provider = "together") then Some "langchain_together"
  else if decide (provider = "mistralai") then Some "langchain_mistralai"
  else if decide (provider = "huggingface") then Some "langchain_huggingface"
  else if decide (provider = "groq") then Some "langchain_groq"
  else if decide (provider = "bedrock") then Some "langchain_aws"
  else if decide (provider = "dashscope") then Some "langchain_dashscope"
  else if decide (provider = "xai") then Some "langchain_xai"
  else if decide (provider = "deepseek") then Some "langchain_openai"
  else if decide (provider = "litellm") then Some "langchain_community"
  else if decide (provider = "gigachat") then Some "langchain_gigachat"
  else None.

(** The environment variable a branch of [from_provider] reads with
    [os.environ[...]] *)
Definition provider_variable (provider : string) : option string :=
  if decide (provider = "ollama") then Some "OLLAMA_BASE_URL"
  else if decide (provider = "deepseek") then Some "DEEPSEEK_API_KEY"
  else None.

(** The module and the class each branch of [from_provider] imports after
    the package check *)
Definition provider_import (provider : string) : option (string * string) :=
  if decide (provider = "openai") then Some ("langchain_openai", "ChatOpenAI")
  else if decide (provider = "anthropic") then
    Some ("langchain_anthropic", "ChatAnthropic")
  else if decide (provider = "azure_openai") then
    Some ("langchain_openai", "AzureChatOpenAI")
  else if decide (provider = "cohere") then Some ("langchain_cohere", "ChatCohere")
  else if decide (provider = "google_vertexai") then
    Some ("langchain_google_vertexai", "ChatVertexAI")
  else if decide (provider = "google_genai") then
    Some ("langchain_google_genai", "ChatGoogleGenerativeAI")
  else if decide (provider = "fireworks") then
    Some ("langchain_fireworks", "ChatFireworks")
  else if decide (provider = "ollama") then Some ("langchain_ollama", "ChatOllama")
  else if decide (provider = "together") then
    Some ("langchain_together", "ChatTogether")
  else if decide (provider = "mistralai") then
    Some ("langchain_mistralai", "ChatMistralAI")
  else if decide (provider = "huggingface") then
    Some ("langchain_huggingface", "ChatHuggingFace")
  else if decide (provider = "groq") then Some ("langchain_groq", "ChatGroq")
  else if decide (provider = "bedrock") then Some ("langchain_aws", "ChatBedrock")
  else if decide (provider = "dashscope") then
    Some ("langchain_dashscope", "ChatDashScope")
  else if decide (provider = "xai") then Some ("langchain_xai", "ChatXAI")
  else if decide (provider = "deepseek") then Some ("langchain_openai", "ChatOpenAI")
  else if decide (provider = "litellm") then
    Some ("langchain_community.chat_models.litellm", "ChatLiteLLM")
  else if decide (provider = "gigachat") then
    Some ("langchain_gigachat.chat_models", "GigaChat")
  else None.

(** The result of a constructor call: the model it was called for, or the
    exception it raised *)
Definition built (construct : GenericLLMProvider.chat_model → outcome unit)
    (llm : GenericLLMProvider.chat_model) : outcome GenericLLMProvider.chat_model :=
  match construct llm with
  | Return _ => Return llm
  | Raise e => Raise e
  end.

(** The notification [_get_new_urls] streams, in verbose mode, for a URL
    that it adds *)
Definition added_source_url (u : string) : ResearchSkill.stream_record :=
  ResearchSkill.Stream "logs" "added_source_url"
    ("✅ Added source url to research: " +:+ u +:+ LF).

(** A logger appends [item] to the list under [key], creating the list when
    the key is absent, leaves every other list as it is and emits the state
    once. *)
Definition appends_entry (key : string) (item : ActionsUtils.entry)
    (st st' : ActionsUtils.state) : Prop :=
  ActionsUtils.logs st' !! key
  = Some (default [] (ActionsUtils.logs st !! key) ++ [item])
  ∧ (∀ other, other ≠ key →
       ActionsUtils.logs st' !! other = ActionsUtils.logs st !! other)
  ∧ ActionsUtils.emitted st' = S (ActionsUtils.emitted st).

(** * Verified properties *)

Lemma first_occurrences_elem (l : list string) (u : string) :
  u ∈ first_occurrences l ↔ u ∈ l.
Proof.
  induction l as [|x l IH]; simpl; [done|].
  rewrite !elem_of_cons, list_elem_of_filter, IH.
  destruct (decide (u = x)); intuition congruence.
Qed.

Lemma first_occurrences_NoDup (l : list string) : NoDup (first_occurrences l).
Proof.
  induction l as [|x l IH]; simpl; constructor.
  - rewrite list_elem_of_filter. intros [? _]; congruence.
  - by apply NoDup_filter.
Qed.

Lemma first_occurrences_sublist (l : list string) : sublist (first_occurrences l) l.
Proof.
  induction l as [|x l IH]; simpl; [constructor|].
  constructor. etrans; [apply sublist_filter|done].
Qed.

Lemma filter_filter_comm {A} (P Q : A → Prop)
  `{∀ x, Decision (P x)} `{∀ x, Decision (Q x)} (l : list A) :
  filter P (filter Q l) = filter Q (filter P l).
Proof.
  rewrite !list_filter_filter. apply list_filter_iff.
  intros x. split; intros [? ?]; split; assumption.
Qed.

Lemma first_occurrences_filter (P : string → Prop) `{∀ x, Decision (P x)} (l : list string) :
  first_occurrences (filter P l) = filter P (first_occurrences l).
Proof.
  induction l as [|x l IH]; [done|].
  rewrite filter_cons. simpl. destruct (decide (P x)) as [HP|HP].
  - simpl. rewrite filter_cons_True by done. f_equal.
    rewrite IH. apply filter_filter_comm.
  - rewrite filter_cons_False by done. rewrite IH.
    rewrite list_filter_filter. apply list_filter_iff.
    intros y. split; [|intros [? _]; assumption].
    intros Hy. split; [done|congruence].
Qed.

Section ResearchSkillProofs.
Import ResearchSkill.
Variable py_str_list : list string → string.

(** The state reached by the loop differs from the initial one only in
    the visited set and in the stream of "added" notifications. *)
Lemma _get_new_urls_loop_spec (urls acc : list string) (st : state) :
  ∃ st',
    _get_new_urls_loop urls acc st =
      (Return (acc ++ first_occurrences (filter (λ u, u ∉ visited_urls st) urls)), st')
    ∧ visited_urls st' = visited_urls st ∪ list_to_set urls
    ∧ researcher_logs st' = researcher_logs st
    ∧ verbose st' = verbose st
    ∧ report_type st' = report_type st.
Proof.
  revert acc st. induction urls as [|url rest IH]; intros acc st.
  - exists st. simpl. unfold ret. rewrite app_nil_r. set_solver.
  - cbn [_get_new_urls_loop]. unfold bind at 1, get.
    rewrite filter_cons. destruct (decide (url ∉ visited_urls st)) as [Hnew|Hold].
    + set (st1 := set_visited (λ v, v ∪ {[url]}) st).
      assert (∃ st2, (when (verbose st)
                 (stream_output "logs" "added_source_url"
                    ("✅ Added source url to research: " +:+ url +:+ LF)) st1 = (Return tt, st2))
               ∧ visited_urls st2 = visited_urls st ∪ {[url]}
               ∧ researcher_logs st2 = researcher_logs st
               ∧ verbose st2 = verbose st
               ∧ report_type st2 = report_type st) as (st2 & Hw & Hv & Hl & Hvb & Hrt).
      { destruct (verbose st) eqn:Hvb; simpl; eexists; (split; [reflexivity|]);
          simpl; rewrite ?Hvb; done. }
      destruct (IH (acc ++ [url]) st2) as (st' & Hrun & Hv' & Hl' & Hvb' & Hrt').
      exists st'. unfold bind, modify. fold st1. rewrite Hw, Hrun.
      split; [|split; [|split; [|split]]]; try congruence.
      * f_equal. f_equal. rewrite <- app_assoc. simpl. do 2 f_equal.
        rewrite Hv. rewrite <- first_occurrences_filter.
        f_equal. rewrite list_filter_filter. apply list_filter_iff.
        intros y. set_solver.
      * rewrite Hv', Hv. set_solver.
    + destruct (IH acc st) as (st' & Hrun & Hv' & Hl' & Hvb' & Hrt').
      exists st'. rewrite Hrun. split; [done|].
      split; [|done]. rewrite Hv'. apply dec_stable in Hold. set_solver.
Qed.

Lemma _get_new_urls_run (B : list string) (st : state) :
  ∃ st',
    _get_new_urls py_str_list B st =
      (Return (first_occurrences (filter (λ u, u ∉ visited_urls st) B)), st')
    ∧ visited_urls st' = visited_urls st ∪ list_to_set B.
Proof.
  destruct (_get_new_urls_loop_spec B []
    (emit_state (append_log
       (LogEvent ("Getting new URLs from: " +:+ py_str_list B) false false) st)))
    as (st1 & Hrun & Hv & _).
  cbv [_get_new_urls _log_event try_except bind modify ret].
  rewrite Hrun. eexists. split; [reflexivity|]. exact Hv.
Qed.

(** C1. URL deduplication: for every visited set [V] (the value of
    [visited_urls] before the call) and every input batch [B],
    [_get_new_urls B] returns, without raising, exactly the URLs of [B]
    that are not in [V], each once, at the position of its first
    occurrence in [B]; afterwards the visited set is [V ∪ B]. *)
Theorem C1_get_new_urls_dedup (B : list string) (st : state) :
  let V := visited_urls st in
  let new_urls := first_occurrences (filter (λ u, u ∉ V) B) in
  (_get_new_urls py_str_list B st).1 = Return new_urls
  ∧ visited_urls (_get_new_urls py_str_list B st).2 = V ∪ list_to_set B
  ∧ NoDup new_urls
  ∧ (∀ u, u ∈ new_urls ↔ u ∈ B ∧ u ∉ V)
  ∧ new_urls `sublist_of` B.
Proof.
  intros V new_urls.
  destruct (_get_new_urls_run B st) as (st' & -> & Hv).
  split; [done|]. split; [done|].
  split; [apply first_occurrences_NoDup|].
  split.
  - intros u. unfold new_urls.
    rewrite first_occurrences_elem, list_elem_of_filter. tauto.
  - unfold new_urls. etrans; [apply first_occurrences_sublist|apply sublist_filter].
Qed.

(** X1. A URL is accepted at most once: a second call with the same batch
    returns nothing new. *)
Lemma _get_new_urls_twice (B : list string) (st : state) :
  (_get_new_urls py_str_list B (_get_new_urls py_str_list B st).2).1 = Return [].
Proof.
  destruct (_get_new_urls_run B st) as (st1 & -> & Hv1). simpl.
  destruct (_get_new_urls_run B st1) as (st2 & -> & _). simpl.
  replace (filter (λ u, u ∉ visited_urls st1) B) with (@nil string); [done|].
  symmetry. apply elem_of_nil_inv. intros u [Hu Hin]%list_elem_of_filter.
  apply Hu. rewrite Hv1. set_solver.
Qed.

Example _get_new_urls_example :
  let st := State {["a.com"; "b.com"]} false "research_report" [] 0 [] in
  (_get_new_urls py_str_list ["b.com"; "c.com"] st).1 = Return ["c.com"]
  ∧ visited_urls (_get_new_urls py_str_list ["b.com"; "c.com"] st).2
    = {["a.com"; "b.com"; "c.com"]}.
Proof.
  intros st.
  destruct (_get_new_urls_run ["b.com"; "c.com"] st) as (st' & -> & Hv).
  split; [reflexivity|]. simpl. rewrite Hv. set_solver.
Qed.

End ResearchSkillProofs.

(** C8 fails as stated: a planner that lists the query itself makes the
    dispatched list of a [research_report] task contain it twice. *)
Lemma C8_sub_queries_duplicate :
  ¬ sub_queries_deduplicated (λ q, ret ["solar cost"; q]) "solar power"
      (ResearchSkill.State ∅ false "research_report" [] 0 []).
Proof.
  intros (l & Hrun & Hnd & _). cbv in Hrun.
  injection Hrun as <-.
  apply NoDup_cons in Hnd as [_ Hnd]. apply NoDup_cons in Hnd as [Hin _].
  apply Hin. set_solver.
Qed.

(** C8, amended: the dispatched list is the planner's output, followed by
    the original query when the report type is not ["subtopic_report"] and
    left as it is otherwise.  Nothing is deduplicated: the list is
    duplicate-free exactly when the planner's output is duplicate-free and,
    for a report that is not a sub-topic report, does not already name the
    query. *)
Theorem C8_sub_queries_appended
    (plan_research : string → M ResearchSkill.state (list string))
    (query : string) (st st1 : ResearchSkill.state) (planned : list string)
    (Hplan : plan_research query st = (Return planned, st1)) :
  let l := if decide (ResearchSkill.report_type st1 ≠ "subtopic_report")
           then planned ++ [query] else planned in
  ResearchSkill.sub_queries_for plan_research query st = (Return l, st1)
  ∧ (ResearchSkill.report_type st1 ≠ "subtopic_report" → last l = Some query)
  ∧ (ResearchSkill.report_type st1 = "subtopic_report" → l = planned)
  ∧ (NoDup l ↔ NoDup planned
               ∧ (ResearchSkill.report_type st1 ≠ "subtopic_report" → query ∉ planned)).
Proof.
  intros l. unfold ResearchSkill.sub_queries_for, bind, get. rewrite Hplan. subst l.
  destruct (decide (ResearchSkill.report_type st1 ≠ "subtopic_report")) as [Hrt|Hrt].
  - split; [done|]. split; [intros _; apply last_snoc|].
    split; [congruence|].
    rewrite NoDup_app. split.
    + intros (Hnd & Hnot & _). split; [done|]. intros _ Hin.
      apply (Hnot _ Hin). set_solver.
    + intros [Hnd Hq]. split; [done|]. split; [|apply NoDup_singleton].
      intros x Hx Hx'. apply list_elem_of_singleton in Hx'. subst x. by apply Hq.
  - split; [done|]. split; [done|]. split; [done|]. tauto.
Qed.

Lemma C8_sub_queries_appended_witness :
  ResearchSkill.sub_queries_for (λ q, ret ["solar cost"; "wind cost"]) "energy prices"
      (ResearchSkill.State ∅ false "research_report" [] 0 [])
    = (Return ["solar cost"; "wind cost"; "energy prices"],
       ResearchSkill.State ∅ false "research_report" [] 0 []).
Proof.
  exact (proj1 (C8_sub_queries_appended
    (λ q, ret ["solar cost"; "wind cost"]) "energy prices"
    (ResearchSkill.State ∅ false "research_report" [] 0 [])
    (ResearchSkill.State ∅ false "research_report" [] 0 [])
    ["solar cost"; "wind cost"] eq_refl)).
Defined.

Section BrowserSkillProofs.
Import BrowserSkill.
Variable get_image_hash : string → option string.

(** Below the bound, the loop returns what it has plus the next eligible
    URLs, up to [k] in total. *)
Lemma select_loop_take (cur : list string) (k : Z) (imgs : list image)
    (unique : list string) (seen : gset string) :
  (Z.of_nat (length unique) < k)%Z →
  select_loop get_image_hash cur k imgs unique seen
  = unique ++ take (Z.to_nat k - length unique) (eligible_images get_image_hash cur imgs seen).
Proof.
  revert unique seen. induction imgs as [|img rest IH]; intros unique seen Hlt.
  - simpl. by rewrite take_nil, app_nil_r.
  - simpl. destruct (get_image_hash (url img)) as [h|]; [|by apply IH].
    destruct (bool_decide (h ≠ "") && bool_decide (h ∉ seen)
              && bool_decide (url img ∉ cur)); [|by apply IH].
    rewrite length_app. simpl.
    replace (Z.to_nat k - length unique) with (S (Z.to_nat k - length unique - 1)) by lia.
    simpl. case_bool_decide as Hk.
    + replace (Z.to_nat k - length unique - 1) with 0 by lia.
      by rewrite take_0.
    + rewrite IH by (rewrite length_app; simpl; lia).
      rewrite length_app, <- app_assoc. simpl.
      do 3 f_equal. lia.
Qed.

Lemma eligible_images_elem (cur : list string) (imgs : list image)
    (seen : gset string) (u : string) :
  u ∈ eligible_images get_image_hash cur imgs seen →
  (u ∉ cur) ∧ (∃ img, img ∈ imgs ∧ url img = u)
  ∧ (∃ h, get_image_hash u = Some h ∧ h ≠ "" ∧ h ∉ seen).
Proof.
  revert seen. induction imgs as [|img rest IH]; intros seen; simpl.
  - by intros ?%elem_of_nil.
  - assert (u ∈ eligible_images get_image_hash cur rest seen →
            (u ∉ cur) ∧ (∃ img0, img0 ∈ img :: rest ∧ url img0 = u)
            ∧ (∃ h, get_image_hash u = Some h ∧ h ≠ "" ∧ h ∉ seen)) as Hskip.
    { intros (? & (i & ? & ?) & ?)%IH. split; [done|]. split; [|done].
      exists i. split; [by right|done]. }
    destruct (get_image_hash (url img)) as [h|] eqn:Hh; [|done].
    destruct (bool_decide (h ≠ "")) eqn:H1; [|done].
    destruct (bool_decide (h ∉ seen)) eqn:H2; [|done].
    destruct (bool_decide (url img ∉ cur)) eqn:H3; [|done]. simpl.
    apply bool_decide_eq_true in H1, H2, H3.
    intros [->|Hin]%elem_of_cons.
    + split; [done|]. split; [exists img; split; [by left|done]|].
      by exists h.
    + apply IH in Hin as (? & (i & ? & ?) & (h' & ? & ? & Hn)).
      split; [done|]. split; [exists i; split; [by right|done]|].
      exists h'. split; [done|]. split; [done|]. set_solver.
Qed.

Lemma eligible_images_NoDup (cur : list string) (imgs : list image)
    (seen : gset string) :
  NoDup (get_image_hash <$> eligible_images get_image_hash cur imgs seen).
Proof.
  revert seen. induction imgs as [|img rest IH]; intros seen; simpl.
  - constructor.
  - destruct (get_image_hash (url img)) as [h|] eqn:Hh; [|done].
    destruct (bool_decide (h ≠ "") && bool_decide (h ∉ seen)
              && bool_decide (url img ∉ cur)); [|done].
    rewrite fmap_cons. constructor; [|done].
    rewrite Hh. intros (u & Hu & Hin)%list_elem_of_fmap.
    apply eligible_images_elem in Hin as (_ & _ & (h' & Hh' & _ & Hn)).
    rewrite Hh' in Hu. set_solver.
Qed.

Lemma eligible_images_app (cur : list string) (l1 l2 : list image)
    (seen : gset string) :
  eligible_images get_image_hash cur l1 seen `prefix_of` eligible_images get_image_hash cur (l1 ++ l2) seen.
Proof.
  revert seen. induction l1 as [|img rest IH]; intros seen; simpl.
  - apply prefix_nil.
  - destruct (get_image_hash (url img)) as [h|]; [|done].
    destruct (bool_decide (h ≠ "") && bool_decide (h ∉ seen)
              && bool_decide (url img ∉ cur)); [|done].
    by apply prefix_cons.
Qed.

Lemma select_top_images_take (st : state) (images : list image) (k : Z) :
  (1 ≤ k)%Z →
  select_top_images get_image_hash st images k
  = take (Z.to_nat k)
      (eligible_images get_image_hash (default [] (research_images st))
         (filter (λ img, 2 ≤ score img)%Z images ++ images) ∅).
Proof.
  intros Hk. unfold select_top_images.
  rewrite select_loop_take by (simpl; lia).
  simpl. by rewrite Nat.sub_0_r.
Qed.

(** C4, amended: for every image list and every [k ≥ 1],
    [select_top_images images k] returns at most [k] URLs; the hashes of
    the returned URLs are pairwise distinct; no returned URL is in the
    pre-existing [research_images] list; and the result starts with the
    URLs selected from the candidates of score at least 2, in their input
    order, before any other candidate is taken. *)
Theorem C4_select_top_images_bound (st : state) (images : list image) (k : Z)
    (Hk : (1 ≤ k)%Z) :
  let selected := select_top_images get_image_hash st images k in
  let current := default [] (research_images st) in
  let high_score_images := filter (λ img, 2 ≤ score img)%Z images in
  (Z.of_nat (length selected) ≤ k)%Z
  ∧ NoDup (get_image_hash <$> selected)
  ∧ (∀ u, u ∈ selected → u ∉ current)
  ∧ take (Z.to_nat k) (eligible_images get_image_hash current high_score_images ∅) `prefix_of` selected.
Proof.
  intros selected current high. subst selected.
  rewrite select_top_images_take by done. fold current high.
  split; [rewrite length_take; lia|].
  split.
  { eapply sublist_NoDup; [apply eligible_images_NoDup|].
    apply fmap_sublist, sublist_take. }
  split.
  { intros u Hu. eapply (eligible_images_elem current).
    eapply (sublist_subseteq (take (Z.to_nat k) _)); [apply sublist_take|exact Hu]. }
  destruct (eligible_images_app current high images ∅) as [rest ->].
  rewrite take_app. apply prefix_app_r. done.
Qed.

End BrowserSkillProofs.

(** C4 fails as stated at [k = 0]: the loop compares the length with [k]
    only after an append, so it never stops and one image is returned. *)
Lemma C4_select_top_images_zero :
  ¬ selection_within_bound (λ u, Some u) (BrowserSkill.State None [])
      [BrowserSkill.Image "https://example.org/a.png" 1] 0.
Proof. unfold selection_within_bound. vm_compute. intros H. by apply H. Qed.

(** The example of the specification: scores [3,1,3,0,2], distinct hashes,
    [k = 4]: the three candidates of score at least 2 come first, then the
    next candidate in input order. *)
Example select_top_images_example :
  BrowserSkill.select_top_images (λ u, Some u) (BrowserSkill.State (Some []) [])
    [BrowserSkill.Image "a.png" 3; BrowserSkill.Image "b.png" 1;
     BrowserSkill.Image "c.png" 3; BrowserSkill.Image "d.png" 0;
     BrowserSkill.Image "e.png" 2] 4
  = ["a.png"; "c.png"; "e.png"; "b.png"].
Proof. reflexivity. Qed.

Lemma C4_select_top_images_bound_witness :
  let images := [BrowserSkill.Image "a.png" 3; BrowserSkill.Image "b.png" 1;
                 BrowserSkill.Image "c.png" 3; BrowserSkill.Image "d.png" 0;
                 BrowserSkill.Image "e.png" 2] in
  let st := BrowserSkill.State (Some ["d.png"]) [] in
  (1 ≤ 4)%Z
  ∧ (Z.of_nat (length (BrowserSkill.select_top_images (λ u, Some u) st images 4)) ≤ 4)%Z.
Proof.
  intros images st. split; [lia|].
  apply (C4_select_top_images_bound (λ u, Some u) st images 4). lia.
Defined.

Section SourceCuratorProofs.
Import SourceCurator.
Variable create_chat_completion : list chat_message → outcome string.
Variable json_loads : string → outcome json.
Variable rank_sources_prompt : string → list json → Z → string.
Variable py_str : json → string.

(** C5. Curation fail-open: for every source list, if the curator's model
    call raises, or its output is rejected by [json.loads], then
    [curate_sources] returns the original source list unchanged, without
    raising, and the log gains an event with [error = true] for it. *)
Theorem C5_curate_sources_fail_open (self : researcher) (source_data : list json)
    (max_results : Z) (st : state) (e : exn)
    (Hfail :
       let messages :=
         [ChatMessage "system" (r_role self);
          ChatMessage "user"
            (rank_sources_prompt (r_query self) source_data max_results)] in
       create_chat_completion messages = Raise e
       ∨ (∃ response, create_chat_completion messages = Return response
                      ∧ json_loads response = Raise e)) :
  let run := curate_sources create_chat_completion json_loads
               rank_sources_prompt py_str self source_data max_results st in
  run.1 = Return (JArr source_data)
  ∧ research_logs run.2
    = research_logs st
      ++ [LogEvent "Evaluating and curating sources by credibility and relevance..."
                   false false;
          LogEvent ("Error curating sources: " +:+ str_exn e) true true]
  ∧ curated_sources run.2 = curated_sources st.
Proof.
  intros run. subst run. unfold curate_sources.
  destruct Hfail as [Hcall | (response & Hcall & Hparse)]; simpl in Hcall;
    rewrite Hcall.
  - unfold print, _log_event. unfold_py. simpl.
    rewrite <- app_assoc. done.
  - unfold print, _log_event, lift. unfold_py. rewrite Hparse. simpl.
    rewrite <- app_assoc. done.
Qed.

End SourceCuratorProofs.

Lemma C5_curate_sources_fail_open_witness :
  let llm := λ _ : list chat_message, Return "Here are the best sources: ..." in
  let loads := λ _ : string,
    Raise (Exn JSONDecodeError "Expecting value: line 1 column 1 (char 0)") in
  let sources := [SourceCurator.JObj [("url", SourceCurator.JStr "a.com")]] in
  (SourceCurator.curate_sources llm loads (λ _ _ _, "rank") (λ _, "")
     (SourceCurator.Researcher "role" "query") sources 10
     (SourceCurator.State [] None 0 [])).1
  = Return (SourceCurator.JArr sources).
Proof.
  intros llm loads sources.
  apply (C5_curate_sources_fail_open llm loads (λ _ _ _, "rank") (λ _, "")
           (SourceCurator.Researcher "role" "query") sources 10
           (SourceCurator.State [] None 0 [])
           (Exn JSONDecodeError "Expecting value: line 1 column 1 (char 0)")).
  right. eexists. split; reflexivity.
Defined.

Section ReportGenerationProofs.
Import ReportGeneration.
Variable create_chat_completion : nat → list chat_message → outcome string.
Variable generate_prompt : string → prompt_args → string.

(** C6. Report-generation degradation: if the structured two-message
    (system + user) model call fails, [generate_report] makes exactly one
    further call, whose only message is a user-role message holding the role
    prompt and the content; if that call fails too, it returns the empty
    string without raising, prints the failure and (when a state was passed)
    appends an error event to [writer_logs]. *)
Theorem C6_generate_report_degradation
    (query context agent_role_prompt report_type tone report_source : string)
    (cfg : config) (w : world) (e1 : exn) :
  let content :=
    if decide (report_type = "subtopic_report")
    then generate_prompt report_type (SubtopicArgs query context cfg tone)
    else generate_prompt report_type (ReportArgs query context report_source cfg tone) in
  let structured := [ChatMessage "system" agent_role_prompt;
                     ChatMessage "user" content] in
  let flattened := [ChatMessage "user" (agent_role_prompt +:+ LF +:+ LF +:+ content)] in
  let n := length (llm_calls w) in
  let run := generate_report create_chat_completion generate_prompt query context
               agent_role_prompt report_type tone report_source cfg w in
  create_chat_completion n structured = Raise e1 →
  llm_calls run.2 = llm_calls w ++ [structured; flattened]
  ∧ (∀ r, create_chat_completion (S n) flattened = Return r → run.1 = Return r)
  ∧ (∀ e2, create_chat_completion (S n) flattened = Raise e2 →
       run.1 = Return ""
       ∧ stdout run.2 = stdout w ++ ["Error in generate_report: " +:+ str_exn e2]
       ∧ (∀ s, state w = Some s →
            ∃ s', state run.2 = Some s'
                  ∧ writer_logs s'
                    = writer_logs s
                      ++ [LogEvent "Generating report..." false false;
                          LogEvent ("Error generating report: " +:+ str_exn e2)
                                   true true])).
Proof.
  intros content structured flattened n run Hfirst.
  assert (length (llm_calls w ++ [structured]) = S n) as Hlen
    by (rewrite length_app; simpl; unfold n; lia).
  subst run. unfold generate_report. fold content structured flattened.
  destruct w as [st out calls]. simpl in *.
  cbv [try_except bind call_model log_if_state modify print ret].
  destruct st as [s|]; simpl; fold n; rewrite Hfirst; simpl; rewrite Hlen;
    (destruct (create_chat_completion (S n) flattened) as [r|e2]; simpl;
     rewrite <- ?app_assoc; simpl;
     (split; [done|]); (split; [congruence|]);
     intros e2' [= <-] || (intros e2' ?; discriminate)).
  - split; [done|]. split; [done|]. intros s' [= <-]. eauto.
  - split; [done|]. split; [done|]. intros s' [=].
Qed.

End ReportGenerationProofs.

Lemma C6_generate_report_degradation_witness :
  let llm := λ (_ : nat) (_ : list chat_message),
    Raise (Exn RuntimeError "rate limit") in
  let prompt := λ (_ : string) (_ : ReportGeneration.prompt_args), "Write a report" in
  let cfg := ReportGeneration.Config "APA" 1000 "english" "gpt-4o" "openai" 4000 in
  let w := ReportGeneration.World
             (Some (ReportGeneration.AgentState [] 0)) [] [] in
  (ReportGeneration.generate_report llm prompt "query" "context" "role"
     "research_report" "objective" "web" cfg w).1 = Return "".
Proof.
  intros llm prompt cfg w.
  exact (proj1 (proj2 (proj2
    (C6_generate_report_degradation llm prompt "query" "context" "role"
       "research_report" "objective" "web" cfg w
       (Exn RuntimeError "rate limit") eq_refl))
    (Exn RuntimeError "rate limit") eq_refl)).
Defined.

Section ProviderRegistryProofs.
Import Retriever GenericLLMProvider.

Lemma get_retriever_unsupported (name : string) :
  name ∉ supported_retrievers → get_retriever name = None.
Proof.
  unfold supported_retrievers. rewrite elem_of_list_to_set.
  rewrite !not_elem_of_cons. intros Hne. unfold get_retriever.
  repeat (case_decide; [exfalso; tauto|]). done.
Qed.

Lemma get_retriever_supported (name : string) :
  name ∈ supported_retrievers → is_Some (get_retriever name).
Proof.
  unfold supported_retrievers. rewrite elem_of_list_to_set.
  rewrite !elem_of_cons, elem_of_nil. unfold get_retriever.
  intros Hin. repeat (case_decide; [by eexists|]). exfalso. tauto.
Qed.

(** C7 fails for retrievers: the unknown name ["my_search"], given in the
    request headers, is resolved without any error to the default adapter.
    It fails for LLM providers as well: [construct_subtopics] resolves the
    configured name while the pipeline runs, and whatever the resolution
    raises for the unknown name ["my_llm"] is printed and answered with the
    subtopics the caller passed. *)
Lemma C7_unknown_retriever_falls_back :
  ("my_search" ∉ supported_retrievers)
  ∧ get_retriever "my_search" = None
  ∧ get_retrievers {["retriever" := "my_search"]} (Retriever.Config [] "") = [TavilySearch]
  ∧ ("my_llm" ∉ _SUPPORTED_PROVIDERS)
  ∧ (∀ (get_llm : string → ConstructSubtopics.config → outcome chat_model) (e : exn),
       let cfg := ConstructSubtopics.Config "my_llm" "gpt-4o" 4000 5 in
       get_llm "my_llm" cfg = Raise e →
       ConstructSubtopics.construct_subtopics chat_model (Return tt) get_llm
         (λ _, Return tt) (λ _ _ _ _, Return ["History"; "Outlook"])
         "solar power" "context" cfg ["Introduction"] []
       = (Return ["Introduction"],
          [LF +:+ "🤖 Calling gpt-4o..." +:+ LF;
           "Exception in parsing subtopics :  " +:+ str_exn e])).
Proof.
  split; [|split; [reflexivity|split; [reflexivity|split]]].
  - unfold supported_retrievers. rewrite elem_of_list_to_set.
    rewrite !not_elem_of_cons. repeat (split; [discriminate|]). apply not_elem_of_nil.
  - unfold _SUPPORTED_PROVIDERS. rewrite elem_of_list_to_set.
    rewrite !not_elem_of_cons. repeat (split; [discriminate|]). apply not_elem_of_nil.
  - intros get_llm e cfg Hraise.
    unfold ConstructSubtopics.construct_subtopics, ConstructSubtopics.lift,
      ConstructSubtopics.print.
    unfold_py. simpl. subst cfg. by rewrite Hraise.
Qed.

(** C7, amended: called on an LLM provider name outside
    [_SUPPORTED_PROVIDERS], [from_provider] raises [ValueError]; called on a
    name inside it, it fails only with the [ImportError] of the package
    check, the [KeyError] of the environment lookup, or the exception of the
    import or of the constructor.  The name is resolved when the provider is
    asked for, not before: in [construct_subtopics] an exception of
    [get_llm] is caught, printed, and the subtopics passed in are returned.
    A retriever name that is not a label of [get_retriever] is not an error:
    [get_retriever] yields [None] for it and [get_retrievers] puts the
    default retriever, [TavilySearch], in its place. *)
Theorem C7_unsupported_names (find_spec : string → bool)
    (environ : gmap string string)
    (import_from : string → string → outcome unit)
    (construct : chat_model → outcome unit) :
  (∀ provider, provider ∉ _SUPPORTED_PROVIDERS →
     ∃ msg, from_provider find_spec environ import_from construct provider
            = Raise (Exn ValueError msg))
  ∧ (∀ provider e, provider ∈ _SUPPORTED_PROVIDERS →
       from_provider find_spec environ import_from construct provider = Raise e →
       (∃ msg, e = Exn ImportError msg) ∨ (∃ msg, e = Exn KeyError msg)
       ∨ (∃ module name, import_from module name = Raise e)
       ∨ (∃ llm, construct llm = Raise e))
  ∧ (∀ (provider_object : Type) (get_llm : string → ConstructSubtopics.config →
                                             outcome provider_object)
       build_chain call_model task data cfg subtopics stdout e,
       get_llm (ConstructSubtopics.smart_llm_provider cfg) cfg = Raise e →
       ConstructSubtopics.construct_subtopics provider_object (Return tt) get_llm
         build_chain call_model task data cfg subtopics stdout
       = (Return subtopics,
          stdout ++ [LF +:+ "🤖 Calling " +:+ ConstructSubtopics.smart_llm_model cfg
                     +:+ "..." +:+ LF]
                 ++ ["Exception in parsing subtopics :  " +:+ str_exn e]))
  ∧ (∀ name, name ∉ supported_retrievers → get_retriever name = None)
  ∧ (∀ headers cfg,
       length (get_retrievers headers cfg) = length (requested_retrievers headers cfg))
  ∧ (∀ headers cfg i name,
       requested_retrievers headers cfg !! i = Some name →
       name ∉ supported_retrievers →
       get_retrievers headers cfg !! i = Some TavilySearch).
Proof.
  split; [|split; [|split; [|split; [|split]]]].
  - intros provider. unfold _SUPPORTED_PROVIDERS. rewrite elem_of_list_to_set.
    rewrite !not_elem_of_cons. intros Hne. unfold from_provider.
    repeat (case_decide; [exfalso; tauto|]). eauto.
  - intros provider e. unfold _SUPPORTED_PROVIDERS. rewrite elem_of_list_to_set.
    rewrite !elem_of_cons, elem_of_nil. intros Hin.
    unfold from_provider, branch, _check_pkg, environ_get.
    repeat (case_decide;
            [repeat case_match; intros [= <-]; simplify_eq; eauto 10|]).
    exfalso. tauto.
  - intros provider_object get_llm build_chain call_model task data cfg subtopics
      stdout e Hraise.
    unfold ConstructSubtopics.construct_subtopics, ConstructSubtopics.lift,
      ConstructSubtopics.print.
    unfold_py. simpl. rewrite Hraise. by rewrite <- app_assoc.
  - apply get_retriever_unsupported.
  - intros headers cfg. unfold get_retrievers. apply length_fmap.
  - intros headers cfg i name Hi Hname. unfold get_retrievers.
    rewrite list_lookup_fmap, Hi. simpl.
    by rewrite get_retriever_unsupported.
Qed.

End ProviderRegistryProofs.

(** ** Binary64 addition of non-negative floats *)

Section Binary64.
Local Open Scope Z_scope.

Lemma digits2_pos_size (p : positive) : digits2_pos p = Pos.size p.
Proof. induction p; simpl; congruence. Qed.

Lemma digits_bounds (p : positive) :
  2 ^ (digits p - 1) ≤ Zpos p < 2 ^ digits p.
Proof.
  unfold digits. rewrite digits2_pos_size.
  pose proof (Pos.size_gt p) as Hgt. pose proof (Pos.size_le p) as Hle.
  apply Pos2Z.pos_lt_pos in Hgt. apply Pos2Z.pos_le_pos in Hle.
  rewrite Pos2Z.inj_pow in Hgt, Hle.
  split; [|exact Hgt].
  assert (0 < Zpos (Pos.size p)) by lia.
  replace (Zpos (Pos.size p)) with (Z.succ (Zpos (Pos.size p) - 1)) in Hle by lia.
  rewrite Z.pow_succ_r in Hle by lia. lia.
Qed.

Lemma digits_pos (p : positive) : 1 ≤ digits p.
Proof. unfold digits. lia. Qed.

Lemma digits_ge_shift (p q : positive) (k : Z) :
  0 ≤ k → Zpos p * 2 ^ k ≤ Zpos q → digits p + k ≤ digits q.
Proof.
  intros Hk Hle.
  destruct (digits_bounds p) as [Hp _]. destruct (digits_bounds q) as [_ Hq].
  pose proof (digits_pos p). pose proof (digits_pos q).
  assert (2 ^ (digits p - 1 + k) < 2 ^ digits q) as Hlt.
  { rewrite Z.pow_add_r by lia.
    eapply Z.le_lt_trans; [|exact Hq].
    etrans; [|exact Hle]. apply Z.mul_le_mono_nonneg_r; [|done].
    apply Z.pow_nonneg. lia. }
  apply Z.pow_lt_mono_r_iff in Hlt; lia.
Qed.

Lemma fexp_unfold (e : Z) : fexp prec emax e = Z.max (e - 53) (-1074).
Proof. reflexivity. Qed.

Lemma shr_1_m (mrs : shr_record) :
  0 ≤ shr_m mrs → shr_m (shr_1 mrs) = shr_m mrs / 2.
Proof.
  destruct mrs as [m r s]. simpl. intros Hm.
  rewrite <- Z.div2_div.
  destruct m as [|[p|p|]|p]; simpl; try reflexivity. lia.
Qed.

Lemma iter_pos_shr_m (n : positive) (mrs : shr_record) :
  0 ≤ shr_m mrs →
  shr_m (SpecFloat.iter_pos shr_1 n mrs) = shr_m mrs / 2 ^ Zpos n.
Proof.
  revert mrs. induction n as [n IH|n IH|]; intros mrs Hm; simpl SpecFloat.iter_pos.
  - assert (0 ≤ shr_m (shr_1 mrs)) as H1.
    { rewrite shr_1_m by done. apply Z.div_pos; lia. }
    assert (0 ≤ shr_m (SpecFloat.iter_pos shr_1 n (shr_1 mrs))) as H2.
    { rewrite IH by done. apply Z.div_pos; [done|]. apply Z.pow_pos_nonneg; lia. }
    rewrite IH by done. rewrite IH by done. rewrite shr_1_m by done.
    rewrite !Z.div_div by (try apply Z.pow_pos_nonneg; lia).
    f_equal. replace (Z.pos n~1) with (1 + Z.pos n + Z.pos n) by lia.
    rewrite !Z.pow_add_r by lia. change (2 ^ 1) with 2. ring.
  - assert (0 ≤ shr_m (SpecFloat.iter_pos shr_1 n mrs)) as H2.
    { rewrite IH by done. apply Z.div_pos; [done|]. apply Z.pow_pos_nonneg; lia. }
    rewrite IH by done. rewrite IH by done.
    rewrite !Z.div_div by (try apply Z.pow_pos_nonneg; lia).
    f_equal. rewrite <- !Z.pow_add_r by lia. f_equal. lia.
  - rewrite shr_1_m by done. reflexivity.
Qed.

Lemma round_nearest_even_ge (m : Z) (l : location) :
  m ≤ round_nearest_even m l.
Proof.
  destruct l as [|[]]; simpl; try lia. destruct (Z.even m); lia.
Qed.

(** Right shift to the canonical exponent: the exponent reached and the
    mantissa left *)
Lemma shr_fexp_exact (p : positive) (e : Z) :
  ∃ mrs,
    shr_fexp prec emax (Zpos p) e loc_Exact
      = (mrs, Z.max e (fexp prec emax (digits p + e)))
    ∧ shr_m mrs = Zpos p / 2 ^ (Z.max e (fexp prec emax (digits p + e)) - e).
Proof.
  unfold shr_fexp, shr. simpl Zdigits2. fold (digits p).
  destruct (fexp prec emax (digits p + e) - e) as [|n|n] eqn:Hn.
  - eexists. split; [f_equal; lia|]. simpl.
    replace (Z.max e (fexp prec emax (digits p + e)) - e) with 0 by lia.
    by rewrite Z.div_1_r.
  - eexists. split; [f_equal; lia|].
    rewrite iter_pos_shr_m by (simpl; lia). simpl shr_m.
    do 2 f_equal. lia.
  - eexists. split; [f_equal; lia|]. simpl.
    replace (Z.max e (fexp prec emax (digits p + e)) - e) with 0 by lia.
    by rewrite Z.div_1_r.
Qed.

Lemma shr_fexp_exact_pos (p : positive) (e : Z) :
  -1074 ≤ e →
  1 ≤ Zpos p / 2 ^ (Z.max e (fexp prec emax (digits p + e)) - e).
Proof.
  intros He. rewrite fexp_unfold.
  destruct (digits_bounds p) as [Hp _]. pose proof (digits_pos p).
  apply Z.div_le_lower_bound; [apply Z.pow_pos_nonneg; lia|].
  rewrite Z.mul_1_r. etrans; [|exact Hp].
  apply Z.pow_le_mono_r; lia.
Qed.

(** The outcome of rounding a positive mantissa *)
Lemma binary_round_aux_pos (p : positive) (e : Z) :
  -1074 ≤ e →
  let e1 := Z.max e (fexp prec emax (digits p + e)) in
  binary_round_aux prec emax false (Zpos p) e loc_Exact = S754_infinity false
  ∨ ∃ m3 e3,
      binary_round_aux prec emax false (Zpos p) e loc_Exact = S754_finite false m3 e3
      ∧ e1 ≤ e3
      ∧ (e3 = e1 → Zpos p / 2 ^ (e1 - e) ≤ Zpos m3).
Proof.
  intros He e1. unfold binary_round_aux.
  destruct (shr_fexp_exact p e) as (mrs1 & -> & Hm1). fold e1 in Hm1 |- *.
  pose proof (shr_fexp_exact_pos p e He) as Hpos. fold e1 in Hpos.
  pose proof (round_nearest_even_ge (shr_m mrs1) (loc_of_shr_record mrs1)) as Hge.
  destruct (round_nearest_even (shr_m mrs1) (loc_of_shr_record mrs1))
    as [|p2|p2] eqn:Hr; [lia| |lia].
  destruct (shr_fexp_exact p2 e1) as (mrs2 & -> & Hm2).
  assert (-1074 ≤ e1) as He1 by (subst e1; lia).
  pose proof (shr_fexp_exact_pos p2 e1 He1) as Hpos2.
  rewrite Hm2.
  destruct (Zpos p2 / 2 ^ (Z.max e1 (fexp prec emax (digits p2 + e1)) - e1))
    as [|m3|m3] eqn:Hm3; [lia| |lia].
  destruct (Z.max e1 (fexp prec emax (digits p2 + e1)) <=? emax - prec); [|by left].
  right. eexists _, _. split; [reflexivity|]. split; [lia|].
  intros Heq. rewrite Heq, Z.sub_diag, Z.div_1_r in Hm3. lia.
Qed.

Lemma iter_xO_pow (m d : positive) :
  Zpos (Pos.iter xO m d) = Zpos m * 2 ^ Zpos d.
Proof.
  induction d as [|d IH] using Pos.peano_ind.
  - simpl. lia.
  - rewrite Pos.iter_succ, Pos2Z.inj_xO, IH, Pos2Z.inj_succ, Z.pow_succ_r by lia.
    ring.
Qed.

Lemma shl_align_fst (mx : positive) (ex ez : Z) :
  ez ≤ ex → Zpos (fst (shl_align mx ex ez)) = Zpos mx * 2 ^ (ex - ez).
Proof.
  intros Hle. unfold shl_align.
  destruct (ez - ex) as [|d|d] eqn:Hd; simpl.
  - replace (ex - ez) with 0 by lia. simpl. lia.
  - lia.
  - rewrite iter_xO_pow. do 2 f_equal. lia.
Qed.

Lemma SFleb_zero (x : spec_float) : SFleb (S754_zero false) x = SFnonneg x.
Proof. by destruct x as [s|[]| |[] m e]. Qed.

Lemma SFleb_refl (x : spec_float) : SFnonneg x = true → SFleb x x = true.
Proof.
  destruct x as [s|[]| |[] m e]; try done. intros _.
  unfold SFleb, SFcompare. by rewrite Z.compare_refl, Pos.compare_cont_refl.
Qed.

Lemma canonical_exponent (m : positive) (e : Z) :
  bounded prec emax m e = true → e = fexp prec emax (digits m + e).
Proof.
  unfold bounded, canonical_mantissa. intros [Hc _]%andb_prop.
  apply Z.eqb_eq in Hc. unfold digits. lia.
Qed.

(** Adding a non-negative float does not make a non-negative float
    smaller. *)
Lemma SFadd_finite_ge (mx my : positive) (ex ey : Z) :
  bounded prec emax mx ex = true →
  bounded prec emax my ey = true →
  let r := SFadd prec emax (S754_finite false mx ex) (S754_finite false my ey) in
  SFleb (S754_finite false mx ex) r = true ∧ SFnonneg r = true.
Proof.
  intros Hx Hy r.
  pose proof (canonical_exponent _ _ Hx) as Hex.
  pose proof (canonical_exponent _ _ Hy) as Hey.
  rewrite fexp_unfold in Hex, Hey.
  set (ez := Z.min ex ey).
  assert (-1074 ≤ ez) as Hez by (subst ez; lia).
  pose proof (shl_align_fst mx ex ez ltac:(subst ez; lia)) as Hax.
  pose proof (shl_align_fst my ey ez ltac:(subst ez; lia)) as Hay.
  set (p := ((shl_align mx ex ez).1 + (shl_align my ey ez).1)%positive).
  assert (Zpos mx * 2 ^ (ex - ez) ≤ Zpos p) as Hp.
  { subst p. rewrite Pos2Z.inj_add, Hax. lia. }
  assert (digits mx + (ex - ez) ≤ digits p) as Hd
    by (apply digits_ge_shift; [subst ez; lia|done]).
  assert (ex ≤ fexp prec emax (digits p + ez)) as HE
    by (rewrite fexp_unfold; lia).
  assert (r = binary_round_aux prec emax false (Zpos p) ez loc_Exact) as ->.
  { subst r. unfold SFadd. cbv zeta. fold ez. simpl cond_Zopp.
    change (Z.pos (shl_align mx ex ez).1 + Z.pos (shl_align my ey ez).1)
      with (Z.pos p).
    unfold binary_normalize, binary_round. fold (digits p).
    unfold shl_align.
    destruct (fexp prec emax (digits p + ez) - ez) as [|d|d] eqn:Hsh;
      [done|done|subst ez; lia]. }
  destruct (binary_round_aux_pos p ez Hez) as [->|(m3 & e3 & -> & He3 & Hm3)];
    [done|].
  split; [|done].
  unfold SFleb, SFcompare.
  destruct (Z.compare_spec ex e3) as [Heq|Hlt|Hgt]; [|done|lia].
  subst e3.
  assert (ex = Z.max ez (fexp prec emax (digits p + ez))) as Heq by lia.
  specialize (Hm3 Heq). rewrite <- Heq in Hm3.
  assert (Zpos mx ≤ Zpos m3) as Hle.
  { etrans; [|exact Hm3].
    apply Z.div_le_lower_bound; [apply Z.pow_pos_nonneg; subst ez; lia|lia]. }
  rewrite Pos.compare_cont_spec. simpl.
  destruct (Pos.compare_spec mx m3); [done|done|lia].
Qed.

Lemma SFadd_nonneg_ge (x y : spec_float) :
  valid_binary x = true → valid_binary y = true →
  SFnonneg x = true → SFnonneg y = true →
  SFleb x (SFadd prec emax x y) = true ∧ SFnonneg (SFadd prec emax x y) = true.
Proof.
  intros Hvx Hvy Hx Hy.
  destruct x as [sx|sx| |sx mx ex]; destruct y as [sy|sy| |sy my ey];
    simpl in Hx, Hy; try discriminate;
    repeat match goal with s : bool |- _ => destruct s end;
    try discriminate; try (split; reflexivity).
  - split; [|done]. by apply SFleb_refl.
  - split; [|done]. by apply SFleb_refl.
  - by apply SFadd_finite_ge.
Qed.

Lemma shr_fexp_m_nonneg (m e : Z) :
  0 ≤ m → 0 ≤ shr_m (shr_fexp prec emax m e loc_Exact).1.
Proof.
  intros Hm. unfold shr_fexp, shr.
  destruct (fexp prec emax (Zdigits2 m + e) - e) as [|n|n]; simpl; try done.
  rewrite iter_pos_shr_m by done. simpl.
  apply Z.div_pos; [done|]. apply Z.pow_pos_nonneg; lia.
Qed.

Lemma binary_round_aux_nonneg (m e : Z) :
  0 ≤ m → SFnonneg (binary_round_aux prec emax false m e loc_Exact) = true.
Proof.
  intros Hm. unfold binary_round_aux.
  pose proof (shr_fexp_m_nonneg m e Hm) as H1.
  destruct (shr_fexp prec emax m e loc_Exact) as [mrs1 e1]. simpl in H1.
  pose proof (round_nearest_even_ge (shr_m mrs1) (loc_of_shr_record mrs1)) as Hge.
  pose proof (shr_fexp_m_nonneg
    (round_nearest_even (shr_m mrs1) (loc_of_shr_record mrs1)) e1 ltac:(lia)) as H2.
  destruct (shr_fexp prec emax _ e1 loc_Exact) as [mrs2 e2]. simpl in H2.
  destruct (shr_m mrs2) as [|m3|m3]; [done| |lia].
  by destruct (e2 <=? emax - prec).
Qed.

Lemma binary_round_nonneg (m : positive) (e : Z) :
  SFnonneg (binary_round prec emax false m e) = true.
Proof.
  unfold binary_round. destruct (shl_align m e _) as [mz ez].
  by apply binary_round_aux_nonneg.
Qed.

Lemma SFldexp_nonneg (x : spec_float) (e : Z) :
  SFnonneg x = true → SFnonneg (SFldexp prec emax x e) = true.
Proof.
  destruct x as [s|s| |[] m ex]; simpl; try done.
  intros _. apply binary_round_nonneg.
Qed.

End Binary64.

(** The same facts on primitive floats *)
Lemma float_add_nonneg_ge (x y : float) :
  (0 <=? x)%float = true → (0 <=? y)%float = true →
  (x <=? x + y)%float = true ∧ (0 <=? x + y)%float = true.
Proof.
  rewrite !leb_spec, add_spec.
  change (Prim2SF 0) with (S754_zero false). rewrite !SFleb_zero.
  intros Hx Hy. apply SFadd_nonneg_ge; auto using Prim2SF_valid.
Qed.

Lemma float_leb_refl (x : float) :
  (0 <=? x)%float = true → (x <=? x)%float = true.
Proof.
  rewrite !leb_spec. change (Prim2SF 0) with (S754_zero false).
  rewrite SFleb_zero. apply SFleb_refl.
Qed.

Lemma of_uint63_nonneg (i : PrimInt63.int) : (0 <=? of_uint63 i)%float = true.
Proof.
  rewrite leb_spec, of_uint63_spec.
  change (Prim2SF 0) with (S754_zero false). rewrite SFleb_zero.
  pose proof (Uint63.to_Z_bounded i) as [Hi _].
  destruct (Uint63Axioms.to_Z i) as [|m|m]; simpl; [done| |lia].
  apply binary_round_nonneg.
Qed.

Lemma ldexp_nonneg (f : float) (e : Z) :
  (0 <=? f)%float = true → (0 <=? Z.ldexp f e)%float = true.
Proof.
  unfold Z.ldexp. rewrite !leb_spec, ldshiftexp_spec.
  change (Prim2SF 0) with (S754_zero false). rewrite !SFleb_zero.
  apply SFldexp_nonneg.
Qed.

(** ** The cost ledger *)

Section CostLedgerProofs.
Import GPTResearcher.

Lemma float_of_int_nonneg (n : Z) (f : float) :
  (0 ≤ n)%Z → float_of_int n = Some f → (0 <=? f)%float = true.
Proof.
  intros Hn. unfold float_of_int.
  destruct (Z.ltb_spec n 0) as [?|_]; [lia|].
  destruct (is_infinity _); [done|]. intros [= <-].
  unfold float_of_nonneg. destruct (_ <=? 62)%Z.
  - apply of_uint63_nonneg.
  - apply ldexp_nonneg, of_uint63_nonneg.
Qed.

(** The conversion rounds to nearest, ties to even, and overflows above
    the largest finite float. *)
Example float_of_int_rounding :
  float_of_int (2 ^ 53 + 1) = Some 9007199254740992%float
  ∧ float_of_int (2 ^ 53 + 3) = Some 9007199254740996%float
  ∧ float_of_int (- 10 ^ 22) = Some (-1e22)%float
  ∧ float_of_int (2 ^ 1024 - 2 ^ 970 - 1) = Some 0x1.fffffffffffffp+1023%float
  ∧ float_of_int (2 ^ 1024 - 2 ^ 970) = None.
Proof. repeat split; reflexivity. Qed.

Lemma add_costs_rejected (cost : pyval) (st : state) :
  isinstance_float_int cost = false →
  add_costs cost st = (Raise (Exn ValueError "Cost must be an integer or float"), st).
Proof. intros H. unfold add_costs. by rewrite H. Qed.

Lemma add_costs_accepted (cost : pyval) (v : float) (st : state) :
  amount_value cost = Some v →
  costs (add_costs cost st).2 = (costs st + v)%float
  ∧ log_handler (add_costs cost st).2 = log_handler st.
Proof.
  intros Hv. unfold add_costs.
  assert (isinstance_float_int cost = true ∧ float_add (costs st) cost
          = Return (costs st + v)%float) as [-> Hadd].
  { destruct cost as [|b|n|f|s]; simpl in *; try done.
    - by injection Hv as <-.
    - by rewrite Hv.
    - by injection Hv as <-. }
  simpl. unfold lift. unfold_py. rewrite Hadd.
  destruct (log_handler st) as [[]|]; done.
Qed.

Lemma add_costs_not_accepted (cost : pyval) (st : state) :
  amount_value cost = None → (add_costs cost st).2 = st.
Proof.
  intros Hv. unfold add_costs.
  destruct cost as [|b|n|f|s]; simpl in *; try done.
  unfold lift. unfold_py. simpl. by rewrite Hv.
Qed.

Lemma add_costs_each_app (cs1 cs2 : list pyval) (st : state) :
  add_costs_each (cs1 ++ cs2) st = add_costs_each cs2 (add_costs_each cs1 st).
Proof. apply fold_left_app. Qed.

Example add_costs_three_floats :
  costs (add_costs_each [PyFloat 0.5; PyInt 2; PyFloat 0.25]
           (State 0 (Some false) [])) = 2.75%float.
Proof. reflexivity. Qed.

(** C9. Cost ledger arithmetic and atomicity: for every sequence of calls
    with valid amounts (floats, bools, and ints that have a float value)
    the resulting total is the starting total plus the amounts, summed in
    binary64 arithmetic in call order, so a ledger that starts at [0.0]
    holds their sum; and for every non-numeric amount [add_costs] raises
    [ValueError] and leaves the whole state, the total included, exactly as
    it was. *)
Theorem C9_cost_ledger_sum_and_rejection :
  (∀ (cs : list pyval) (vs : list float) (st : state),
     Forall2 (λ c v, amount_value c = Some v) cs vs →
     costs (add_costs_each cs st) = float_sum (costs st) vs)
  ∧ (∀ (cost : pyval) (st : state),
       isinstance_float_int cost = false →
       add_costs cost st
       = (Raise (Exn ValueError "Cost must be an integer or float"), st)).
Proof.
  split; [|apply add_costs_rejected].
  intros cs vs st Hall. revert st.
  induction Hall as [|c v cs vs Hc _ IH]; intros st; [done|].
  simpl. rewrite IH. unfold float_sum. simpl.
  by destruct (add_costs_accepted c v st Hc) as [-> _].
Qed.

(** C3 fails as stated: the negative amount [-1.0] is numeric, so the call
    is accepted, and the total drops from [0.0] to [-1.0]. *)
Lemma C3_negative_cost_accepted :
  (add_costs (PyFloat (-1)) (State 0 (Some false) [])).1 = Return tt
  ∧ ¬ cost_total_invariant (PyFloat (-1)) (State 0 (Some false) []).
Proof.
  split; [reflexivity|]. unfold cost_total_invariant.
  vm_compute. intros [H _]. discriminate H.
Qed.

Lemma add_costs_nonneg_step (cost : pyval) (st : state) :
  nonneg_amount cost → (0 <=? costs st)%float = true →
  cost_total_invariant cost st.
Proof.
  intros Hc Hst. unfold cost_total_invariant. cbv zeta.
  destruct (amount_value cost) as [v|] eqn:Hv.
  - destruct (add_costs_accepted cost v st Hv) as [-> _].
    apply float_add_nonneg_ge; [done|].
    destruct cost as [|b|n|f|s]; simpl in *; try done.
    + injection Hv as <-. by destruct b.
    + by apply (float_of_int_nonneg n).
    + by injection Hv as <-.
  - rewrite add_costs_not_accepted by done.
    split; [by apply float_leb_refl|done].
Qed.

(** C3, amended: [add_costs] makes no sign check: every numeric amount that
    has a float value, whatever its sign, is added to the total in binary64
    arithmetic, and the call raises only when the state has no log handler,
    after the addition.  But for every sequence of calls whose numeric
    amounts are all non-negative, on a ledger whose total is non-negative
    (as the initial [0.0] is), no call decreases the total and the total is
    never negative. *)
Theorem C3_cost_total_monotone (cs : list pyval) (st : state)
    (Hamounts : Forall nonneg_amount cs)
    (Hstart : (0 <=? costs st)%float = true) :
  (∀ cs1 c cs2, cs = cs1 ++ c :: cs2 →
     cost_total_invariant c (add_costs_each cs1 st))
  ∧ (0 <=? costs (add_costs_each cs st))%float = true
  ∧ (∀ (c : pyval) (v : float) (st0 : state),
       amount_value c = Some v →
       costs (add_costs c st0).2 = (costs st0 + v)%float
       ∧ (add_costs c st0).1
         = match log_handler st0 with
           | Some _ => Return tt
           | None => Raise (Exn KeyError "'log_handler'")
           end).
Proof.
  assert (∀ cs0 st0, Forall nonneg_amount cs0 →
            (0 <=? costs st0)%float = true →
            (0 <=? costs (add_costs_each cs0 st0))%float = true) as Hinv.
  { intros cs0. induction cs0 as [|c cs0 IH]; intros st0 Hall H0; [done|].
    apply Forall_cons in Hall as [Hc Hall]. simpl. apply IH; [done|].
    by apply (add_costs_nonneg_step c st0). }
  split; [|split; [by apply Hinv|]].
  - intros cs1 c cs2 ->. apply Forall_app in Hamounts as [H1 H2].
    apply Forall_cons in H2 as [Hc _].
    apply add_costs_nonneg_step; [done|]. by apply Hinv.
  - intros c v st0 Hv.
    split; [by destruct (add_costs_accepted c v st0 Hv)|].
    unfold add_costs.
    assert (isinstance_float_int c = true ∧ float_add (costs st0) c
            = Return (costs st0 + v)%float) as [-> Hadd].
    { destruct c as [|b|n|f|s]; simpl in *; try done.
      - by injection Hv as <-.
      - by rewrite Hv.
      - by injection Hv as <-. }
    simpl. unfold lift. unfold_py. rewrite Hadd.
    destruct (log_handler st0) as [[]|]; done.
Qed.

Lemma C3_cost_total_monotone_witness :
  (0 <=? costs (add_costs_each [PyFloat 0.5; PyInt 2; PyStr "n/a"; PyFloat 0.25]
                  (State 0 (Some false) [])))%float = true.
Proof.
  apply (λ Hamounts Hstart,
           proj1 (proj2 (C3_cost_total_monotone
                           [PyFloat 0.5; PyInt 2; PyStr "n/a"; PyFloat 0.25]
                           (State 0 (Some false) []) Hamounts Hstart))).
  - repeat constructor; simpl; lia.
  - reflexivity.
Defined.

End CostLedgerProofs.

(** ** The reviewer and the review-revise loop *)

Lemma str_app_cons (c : ascii) (s t : string) :
  String c s +:+ t = String c (s +:+ t).
Proof. reflexivity. Qed.

Lemma str_app_empty (t : string) : "" +:+ t = t.
Proof. reflexivity. Qed.

Lemma str_prefix_spec (needle haystack : string) :
  String.prefix needle haystack = true ↔ ∃ post, haystack = needle +:+ post.
Proof.
  revert haystack. induction needle as [|a needle IH]; intros haystack.
  - split; [intros _; by exists haystack|]. intros _. by destruct haystack.
  - destruct haystack as [|b haystack]; simpl; [split; [done|by intros [? ?]]|].
    destruct (Ascii.ascii_dec a b) as [->|Hne].
    + rewrite IH. split; intros [post Hp]; exists post;
        rewrite str_app_cons in *; congruence.
    + split; [done|]. intros [post Hp]. rewrite str_app_cons in Hp. congruence.
Qed.

Lemma str_contains_spec (needle haystack : string) :
  str_contains needle haystack = true
  ↔ ∃ pre post, haystack = pre +:+ needle +:+ post.
Proof.
  induction haystack as [|c haystack IH]; cbn [str_contains].
  - rewrite orb_false_r, str_prefix_spec. split.
    + intros [post Hp]. by exists "", post.
    + intros ([|? pre] & post & Hp); [by exists post|].
      by rewrite str_app_cons in Hp.
  - rewrite orb_true_iff, str_prefix_spec, IH. split.
    + intros [[post Hp]|(pre & post & Hp)].
      * by exists "", post.
      * exists (String c pre), post. by rewrite str_app_cons, Hp.
    + intros ([|c' pre] & post & Hp).
      * left. by exists post.
      * right. exists pre, post. rewrite str_app_cons in Hp. congruence.
Qed.

Section ReviewLoopProofs.
Import ReviewerAgent EditorAgent.
Variable call_model_impl : nat → list chat_message → outcome string.
Variable py_str_list : list string → string.

Lemma review_draft_returns (d : draft_state) (w : world) (response : string) :
  call_model_impl (length (llm_calls w))
    [ChatMessage "system" TEMPLATE; ChatMessage "user" (review_prompt d)]
  = Return response →
  ∃ w', review_draft call_model_impl d w
        = (Return (if str_contains "None" response then None else Some response), w')
        ∧ llm_calls w'
          = llm_calls w ++ [[ChatMessage "system" TEMPLATE;
                             ChatMessage "user" (review_prompt d)]].
Proof.
  intros Hcall. unfold review_draft.
  cbv [try_except bind log modify call_model when print_agent_output ret].
  simpl. rewrite Hcall.
  destruct (verbose (d_task d)), (str_contains "None" response);
    eexists; split; reflexivity.
Qed.

(** C10. Reviewer acceptance is substring-based: for every model response,
    [review_draft] returns [None] exactly when the text ["None"] occurs
    somewhere in the response, and otherwise returns the whole response as
    feedback; so a revision note that merely contains the word is taken as
    acceptance and routed to [END]. *)
Theorem C10_review_draft_substring :
  (∀ (d : draft_state) (w : world) (response : string),
     call_model_impl (length (llm_calls w))
       [ChatMessage "system" TEMPLATE; ChatMessage "user" (review_prompt d)]
     = Return response →
     let result := (review_draft call_model_impl d w).1 in
     (result = Return None
      ↔ ∃ pre post, response = pre +:+ "None" +:+ post)
     ∧ (result ≠ Return None → result = Return (Some response)))
  ∧ (let note := "None of the figures is wrong, but section 2 must cite its sources." in
     ∀ (d : draft_state) (w : world),
       call_model_impl (length (llm_calls w))
         [ChatMessage "system" TEMPLATE; ChatMessage "user" (review_prompt d)]
       = Return note →
       (review_draft call_model_impl d w).1 = Return None
       ∧ next_node Reviewer (merge d (Update None (Some None) None)) = END).
Proof.
  split.
  - intros d w response Hcall result. subst result.
    destruct (review_draft_returns d w response Hcall) as (w' & -> & _). simpl.
    rewrite <- str_contains_spec.
    destruct (str_contains "None" response); split; done.
  - intros note d w Hcall.
    destruct (review_draft_returns d w note Hcall) as (w' & -> & _).
    split; reflexivity.
Qed.

Lemma reviewer_run_returns (d : draft_state) (w : world) (response : string) :
  follow_guidelines (d_task d) = true →
  (∀ prompt, call_model_impl (length (llm_calls w)) prompt = Return response) →
  ∃ w', reviewer_run call_model_impl py_str_list d w
        = (Return (Update None
                     (Some (if str_contains "None" response then None
                            else Some response)) None), w')
        ∧ llm_calls w'
          = llm_calls w ++ [[ChatMessage "system" TEMPLATE;
                             ChatMessage "user" (review_prompt d)]].
Proof.
  intros Hfollow Hcall. unfold reviewer_run, run. rewrite Hfollow.
  set (w1 := ((print_agent_output "Reviewing draft..." "REVIEWER" >>
               when (verbose (d_task d))
                 (print_agent_output
                    ("Following guidelines " +:+ py_str_list (guidelines (d_task d))
                     +:+ "...") "REVIEWER")) w).2).
  assert (llm_calls w1 = llm_calls w) as Hcalls
    by (subst w1; cbv [bind print_agent_output modify when ret];
        by destruct (verbose (d_task d))).
  destruct (review_draft_returns d w1 response) as (w' & Hrun & Hc).
  { rewrite Hcalls. apply Hcall. }
  exists w'. split.
  - unfold bind at 1. unfold bind at 1.
    assert (print_agent_output "Reviewing draft..." "REVIEWER" w
            = (Return tt, (print_agent_output "Reviewing draft..." "REVIEWER" w).2))
      as -> by reflexivity.
    unfold bind at 1.
    assert (∀ w0, when (verbose (d_task d))
                    (print_agent_output
                       ("Following guidelines "
                        +:+ py_str_list (guidelines (d_task d)) +:+ "...")
                       "REVIEWER") w0
                  = (Return tt,
                     (when (verbose (d_task d))
                        (print_agent_output
                           ("Following guidelines "
                            +:+ py_str_list (guidelines (d_task d)) +:+ "...")
                           "REVIEWER") w0).2)) as ->
      by (intros w0; by destruct (verbose (d_task d))).
    change (review_draft call_model_impl d w1) with (review_draft call_model_impl d w1).
    replace (review_draft call_model_impl d _) with
      (review_draft call_model_impl d w1).
    + rewrite Hrun. reflexivity.
    + f_equal.
  - by rewrite Hc, Hcalls.
Qed.

Lemma invoke_from_step (researcher_node reviewer_node reviser_node :
      draft_state → M world update)
    (steps : nat) (n : node) (d : draft_state) (ran : list node)
    (w w' : world) (u : update) :
  n ≠ END →
  node_action researcher_node reviewer_node reviser_node n d w = (Return u, w') →
  invoke_from researcher_node reviewer_node reviser_node (S steps) n d ran w
  = invoke_from researcher_node reviewer_node reviser_node steps
      (next_node n (merge d u)) (merge d u) (ran ++ [n]) w'.
Proof.
  intros Hn Hact. destruct n; try done;
    cbn [invoke_from]; unfold bind; by rewrite Hact.
Qed.

Lemma review_loop_never_ends (researcher_stub reviser_stub : draft_state → update)
    (d : draft_state) (w : world) (steps : nat) :
  follow_guidelines (d_task d) = true →
  (∀ n, ∃ feedback, (∀ prompt, call_model_impl n prompt = Return feedback)
                    ∧ str_contains "None" feedback = false) →
  (invoke (λ d, ret (researcher_stub d))
          (reviewer_run call_model_impl py_str_list)
          (λ d, ret (reviser_stub d)) steps d w).1 = Return None.
Proof.
  intros Hfollow Hfeedback.
  assert (∀ steps d ran w, follow_guidelines (d_task d) = true →
            (invoke_from (λ d, ret (researcher_stub d))
               (reviewer_run call_model_impl py_str_list)
               (λ d, ret (reviser_stub d)) steps Reviewer d ran w).1 = Return None
            ∧ (invoke_from (λ d, ret (researcher_stub d))
                 (reviewer_run call_model_impl py_str_list)
                 (λ d, ret (reviser_stub d)) steps Reviser d ran w).1 = Return None)
    as Hloop.
  { clear d w steps Hfollow. intros steps.
    induction steps as [|steps IH]; intros d ran w Hfollow; [done|].
    split.
    - destruct (Hfeedback (length (llm_calls w))) as (feedback & Hcall & Hnone).
      destruct (reviewer_run_returns d w feedback Hfollow Hcall) as (w' & Hrun & _).
      rewrite Hnone in Hrun.
      rewrite (invoke_from_step _ _ _ _ Reviewer d ran w w' _ ltac:(done) Hrun).
      assert (next_node Reviewer (merge d (Update None (Some (Some feedback)) None))
              = Reviser) as -> by reflexivity.
      by apply IH.
    - rewrite (invoke_from_step _ _ _ _ Reviser d ran w w (reviser_stub d))
        by done.
      cbn [next_node]. by apply IH. }
  unfold invoke, entry_point. destruct steps as [|steps]; [done|].
  rewrite (invoke_from_step _ _ _ _ Researcher d [] w w (researcher_stub d))
    by done.
  cbn [next_node]. by apply Hloop.
Qed.


End ReviewLoopProofs.

(** A reviewer stub: feedback on the first call, acceptance afterwards. *)
Example review_loop_stub_run :
  let llm := λ (n : nat) (_ : list chat_message),
    match n with 0 => Return "Add citations to section 2." | _ => Return "None" end in
  let task := ReviewerAgent.Task "gpt-4o" ["cite sources"] true false in
  let d := ReviewerAgent.DraftState task "solar" "first draft" None None in
  let revise := λ d : ReviewerAgent.draft_state,
    EditorAgent.Update (Some "second draft") None (Some (Some "added citations")) in
  (EditorAgent.invoke (λ _, ret (EditorAgent.Update (Some "first draft") None None))
     (EditorAgent.reviewer_run llm (λ _, "")) (λ d, ret (revise d)) 25 d
     (ReviewerAgent.World [] 0 [] [])).1
  = Return (Some (ReviewerAgent.DraftState task "solar" "second draft" None
                    (Some "added citations"),
                  [EditorAgent.Researcher; EditorAgent.Reviewer;
                   EditorAgent.Reviser; EditorAgent.Reviewer])).
Proof. reflexivity. Qed.



(** ** URL deduplication: effects and composition *)

Lemma first_occurrences_app (l1 l2 : list string) :
  first_occurrences (l1 ++ l2)
  = first_occurrences l1 ++ filter (λ u, u ∉ l1) (first_occurrences l2).
Proof.
  induction l1 as [|x l1 IH]; simpl.
  - induction (first_occurrences l2) as [|y l IH]; [done|].
    rewrite filter_cons_True by apply not_elem_of_nil. by f_equal.
  - f_equal. rewrite IH, filter_app. f_equal.
    rewrite list_filter_filter. apply list_filter_iff.
    intros y. rewrite not_elem_of_cons. tauto.
Qed.

Section ResearchSkillEffects.
Import ResearchSkill.
Variable py_str_list : list string → string.

(** The loop changes the visited set and, in verbose mode, the stream; the
    final state is given in full. *)
Lemma _get_new_urls_loop_state (urls acc : list string) (st : state) :
  let new_urls := first_occurrences (filter (λ u, u ∉ visited_urls st) urls) in
  _get_new_urls_loop urls acc st
  = (Return (acc ++ new_urls),
     State (visited_urls st ∪ list_to_set urls) (verbose st) (report_type st)
           (researcher_logs st) (emitted st)
           (streamed st ++ if verbose st then added_source_url <$> new_urls else [])).
Proof.
  revert acc st. induction urls as [|url rest IH]; intros acc st new_urls; subst new_urls.
  - simpl. unfold ret. rewrite !app_nil_r. destruct st as [v vb rt l e s]; simpl.
    do 2 f_equal; [set_solver|by destruct vb; rewrite app_nil_r].
  - cbn [_get_new_urls_loop]. unfold bind at 1, get.
    rewrite filter_cons. destruct (decide (url ∉ visited_urls st)) as [Hnew|Hold].
    + unfold bind at 1, modify.
      assert (filter (λ u, u ∉ visited_urls st ∪ {[url]}) rest
              = filter (λ y, y ≠ url) (filter (λ u, u ∉ visited_urls st) rest)) as Hf.
      { rewrite list_filter_filter. apply list_filter_iff. intros y. set_solver. }
      destruct st as [v vb rt l e s]; simpl in *. destruct vb; simpl.
      * unfold bind at 1, stream_output, modify, append_stream. simpl.
        rewrite IH. simpl. rewrite Hf, <- first_occurrences_filter.
        rewrite <- !app_assoc. simpl. do 2 f_equal. set_solver.
      * unfold bind at 1, ret. rewrite IH. simpl.
        rewrite Hf, <- first_occurrences_filter.
        rewrite <- !app_assoc. simpl. do 2 f_equal. set_solver.
    + rewrite IH. apply dec_stable in Hold.
      destruct st as [v vb rt l e s]; simpl in *. do 2 f_equal. set_solver.
Qed.

(** X2. Effects of one call of [_get_new_urls]: two log entries are appended,
    the opening one and a closing one that lists the new URLs and is marked
    done, never an error entry; the state is emitted twice; in verbose mode
    one notification is streamed for each new URL, in the order of the
    result, and none otherwise. *)
Theorem get_new_urls_effects (B : list string) (st : state) :
  let new_urls := first_occurrences (filter (λ u, u ∉ visited_urls st) B) in
  let st' := (_get_new_urls py_str_list B st).2 in
  researcher_logs st'
  = researcher_logs st
    ++ [LogEvent ("Getting new URLs from: " +:+ py_str_list B) false false;
        LogEvent ("New URLs: " +:+ py_str_list new_urls) true false]
  ∧ emitted st' = emitted st + 2
  ∧ streamed st'
    = streamed st ++ (if verbose st then added_source_url <$> new_urls else [])
  ∧ verbose st' = verbose st
  ∧ report_type st' = report_type st.
Proof.
  intros new_urls st'. subst st' new_urls.
  cbv [_get_new_urls _log_event try_except bind modify ret].
  rewrite _get_new_urls_loop_state. destruct st as [v vb rt l e s]. simpl.
  rewrite <- app_assoc. simpl. repeat split; lia.
Qed.

(** X3. Batches compose: handling [B1] and then [B2] yields, concatenated, the
    URLs that one call on [B1 ++ B2] yields, and leaves the same visited
    set. *)
Theorem get_new_urls_batches_compose (B1 B2 : list string) (st : state) :
  let r1 := _get_new_urls py_str_list B1 st in
  let r2 := _get_new_urls py_str_list B2 r1.2 in
  let r := _get_new_urls py_str_list (B1 ++ B2) st in
  ∃ l1 l2, r1.1 = Return l1 ∧ r2.1 = Return l2 ∧ r.1 = Return (l1 ++ l2)
           ∧ visited_urls r2.2 = visited_urls r.2.
Proof.
  intros r1 r2 r. subst r1 r2 r.
  cbv [_get_new_urls _log_event try_except bind modify ret].
  rewrite !_get_new_urls_loop_state. simpl. rewrite ?_get_new_urls_loop_state. simpl.
  eexists _, _. split; [reflexivity|]. split; [reflexivity|].
  destruct st as [v vb rt l e s]. simpl. split.
  - f_equal. rewrite filter_app, first_occurrences_app. f_equal.
    rewrite <- first_occurrences_filter. f_equal.
    rewrite list_filter_filter. apply list_filter_iff. intros y.
    rewrite list_elem_of_filter. set_solver.
  - rewrite list_to_set_app_L. set_solver.
Qed.

End ResearchSkillEffects.
(** ** Image selection: soundness and exhaustiveness *)

Section BrowserSkillSelection.
Import BrowserSkill.
Variable get_image_hash : string → option string.

(** Once the result is as long as [k] or longer, the length test can no
    longer succeed and the loop takes every eligible image. *)
Lemma select_loop_all (cur : list string) (k : Z) (imgs : list image)
    (unique : list string) (seen : gset string) :
  (k ≤ Z.of_nat (length unique))%Z →
  select_loop get_image_hash cur k imgs unique seen
  = unique ++ eligible_images get_image_hash cur imgs seen.
Proof.
  revert unique seen. induction imgs as [|img rest IH]; intros unique seen Hk.
  - simpl. by rewrite app_nil_r.
  - simpl. destruct (get_image_hash (url img)) as [h|]; [|by apply IH].
    destruct (bool_decide (h ≠ "") && bool_decide (h ∉ seen)
              && bool_decide (url img ∉ cur)); [|by apply IH].
    case_bool_decide as Hlen; [rewrite length_app in Hlen; simpl in Hlen; lia|].
    rewrite IH by (rewrite length_app; simpl; lia).
    by rewrite <- app_assoc.
Qed.

Lemma eligible_images_complete (cur : list string) (imgs : list image)
    (seen : gset string) (img : image) (h : string) :
  img ∈ imgs → get_image_hash (url img) = Some h → h ≠ "" → h ∉ seen →
  url img ∉ cur →
  ∃ u, u ∈ eligible_images get_image_hash cur imgs seen ∧ get_image_hash u = Some h.
Proof.
  revert seen. induction imgs as [|i0 rest IH]; intros seen Hin Hh Hne Hseen Hcur.
  - by apply elem_of_nil in Hin.
  - simpl. destruct (get_image_hash (url i0)) as [h0|] eqn:Hh0.
    + destruct (bool_decide (h0 ≠ "") && bool_decide (h0 ∉ seen)
                && bool_decide (url i0 ∉ cur)) eqn:Hc.
      * destruct (decide (h0 = h)) as [->|Hdiff].
        { exists (url i0). split; [by left|done]. }
        apply elem_of_cons in Hin as [->|Hin]; [congruence|].
        destruct (IH (seen ∪ {[h0]}) Hin Hh Hne) as (u & Hu & Hhu);
          [set_solver|done|].
        exists u. split; [by right|done].
      * apply elem_of_cons in Hin as [->|Hin].
        { rewrite Hh in Hh0. injection Hh0 as <-.
          rewrite !andb_false_iff, !bool_decide_eq_false in Hc. tauto. }
        by apply IH.
    + apply elem_of_cons in Hin as [->|Hin]; [congruence|]. by apply IH.
Qed.

(** The images the loop runs over: the candidates of score at least 2,
    then all candidates. *)
Lemma select_top_images_cases (st : state) (images : list image) (k : Z) :
  let elig := eligible_images get_image_hash (default [] (research_images st))
                (filter (λ img, 2 ≤ score img)%Z images ++ images) ∅ in
  select_top_images get_image_hash st images k
  = if decide (1 ≤ k)%Z then take (Z.to_nat k) elig else elig.
Proof.
  intros elig. case_decide as Hk.
  - by apply select_top_images_take.
  - unfold select_top_images. rewrite select_loop_all by (simpl; lia). done.
Qed.

(** X4. Soundness of the selection, for every [k]: a selected URL is the URL of
    one of the given images, its hash is a non-empty string, it is not in
    the pre-existing [research_images] list, and no URL is selected twice
    (although every image of score at least 2 is met twice by the loop). *)
Theorem select_top_images_sound (st : state) (images : list image) (k : Z) :
  let selected := select_top_images get_image_hash st images k in
  (∀ u, u ∈ selected →
     (∃ img, img ∈ images ∧ url img = u)
     ∧ (∃ h, get_image_hash u = Some h ∧ h ≠ "")
     ∧ u ∉ default [] (research_images st))
  ∧ NoDup selected.
Proof.
  intros selected. subst selected. rewrite select_top_images_cases.
  set (elig := eligible_images _ _ _ _).
  assert (∀ u, u ∈ elig →
     (∃ img, img ∈ images ∧ url img = u)
     ∧ (∃ h, get_image_hash u = Some h ∧ h ≠ "")
     ∧ u ∉ default [] (research_images st)) as Helig.
  { intros u Hu. apply eligible_images_elem in Hu
      as (Hcur & (img & Hin & Hurl) & (h & Hh & Hne & _)).
    split; [|split; [by exists h|done]].
    exists img. split; [|done].
    apply elem_of_app in Hin as [Hin|Hin]; [|done].
    by apply list_elem_of_filter in Hin as [_ ?]. }
  assert (NoDup elig) as Hnd
    by (eapply NoDup_fmap_1, eligible_images_NoDup).
  case_decide.
  - split.
    + intros u Hu. apply Helig.
      eapply (sublist_subseteq (take (Z.to_nat k) _)); [apply sublist_take|exact Hu].
    + eapply sublist_NoDup; [exact Hnd|apply sublist_take].
  - done.
Qed.

(** X5. Exhaustiveness: the loop stops early only by reaching [k] entries.  If
    the result has fewer than [k] entries, or [k] is not positive, then
    every given image with a non-empty hash whose URL is not in the
    pre-existing list has its hash represented among the selected URLs. *)
Theorem select_top_images_exhaustive (st : state) (images : list image) (k : Z)
    (Hshort : (Z.of_nat (length (select_top_images get_image_hash st images k)) < k)%Z
              ∨ (k ≤ 0)%Z) :
  ∀ img h, img ∈ images → get_image_hash (url img) = Some h → h ≠ "" →
    url img ∉ default [] (research_images st) →
    ∃ u, u ∈ select_top_images get_image_hash st images k
         ∧ get_image_hash u = Some h.
Proof.
  intros img h Hin Hh Hne Hcur.
  rewrite select_top_images_cases in Hshort |- *.
  set (elig := eligible_images _ _ _ _) in *.
  assert (∃ u, u ∈ elig ∧ get_image_hash u = Some h) as Hall.
  { apply (eligible_images_complete _ _ _ img); [|done|done|set_solver|done].
    apply elem_of_app. by right. }
  case_decide as Hk; [|done].
  destruct Hshort as [Hlt|?]; [|lia].
  rewrite take_ge; [done|]. rewrite length_take in Hlt. lia.
Qed.

End BrowserSkillSelection.

Lemma select_top_images_exhaustive_witness :
  ∃ u, u ∈ BrowserSkill.select_top_images (λ u, Some u)
             (BrowserSkill.State (Some ["d.png"]) [])
             [BrowserSkill.Image "a.png" 3; BrowserSkill.Image "b.png" 1;
              BrowserSkill.Image "d.png" 2] 4
       ∧ Some u = Some "b.png".
Proof.
  apply (select_top_images_exhaustive (λ u, Some u)
           (BrowserSkill.State (Some ["d.png"]) [])
           [BrowserSkill.Image "a.png" 3; BrowserSkill.Image "b.png" 1;
            BrowserSkill.Image "d.png" 2] 4)
    with (img := BrowserSkill.Image "b.png" 1).
  - left. vm_compute. reflexivity.
  - set_solver.
  - reflexivity.
  - discriminate.
  - simpl. set_solver.
Defined.
(** ** Source curation: the success path and the remaining failure *)

Section SourceCuratorPaths.
Import SourceCurator.
Variable create_chat_completion : list chat_message → outcome string.
Variable json_loads : string → outcome json.
Variable rank_sources_prompt : string → list json → Z → string.
Variable py_str : json → string.

(** X6. Curation success: when the model answers and its text parses to a value
    that has a length, [curate_sources] returns the parsed value as it is,
    stores it under ["curated_sources"], and appends three log entries, none
    of them an error entry. *)
Theorem curate_sources_success (self : researcher) (source_data : list json)
    (max_results : Z) (st : state) (response : string) (curated : json) (n : nat)
    (Hcall : create_chat_completion
               [ChatMessage "system" (r_role self);
                ChatMessage "user"
                  (rank_sources_prompt (r_query self) source_data max_results)]
             = Return response)
    (Hparse : json_loads response = Return curated)
    (Hlen : py_len curated = Return n) :
  let run := curate_sources create_chat_completion json_loads
               rank_sources_prompt py_str self source_data max_results st in
  run.1 = Return curated
  ∧ curated_sources run.2 = Some curated
  ∧ research_logs run.2
    = research_logs st
      ++ [LogEvent "Evaluating and curating sources by credibility and relevance..."
                   false false;
          LogEvent ("Curated " +:+ pretty n +:+ " sources") true false;
          LogEvent ("Verified and ranked top " +:+ pretty n
                    +:+ " most reliable sources") false false]
  ∧ emitted run.2 = emitted st + 3.
Proof.
  intros run. subst run. unfold curate_sources. rewrite Hcall.
  unfold print, _log_event, lift. unfold_py. rewrite Hparse. simpl.
  rewrite Hlen. simpl.
  rewrite <- !app_assoc. simpl. repeat split; lia.
Qed.

(** X7. A parsed value without a length (a number, a boolean, [null]) is a
    failure like the others: the [TypeError] of [len] is caught, the
    original list is returned, ["curated_sources"] is left as it was and
    an error entry is logged, after the value was already printed as the
    final curated sources. *)
Theorem curate_sources_unsized_result (self : researcher) (source_data : list json)
    (max_results : Z) (st : state) (response : string) (curated : json) (e : exn)
    (Hcall : create_chat_completion
               [ChatMessage "system" (r_role self);
                ChatMessage "user"
                  (rank_sources_prompt (r_query self) source_data max_results)]
             = Return response)
    (Hparse : json_loads response = Return curated)
    (Hlen : py_len curated = Raise e) :
  let run := curate_sources create_chat_completion json_loads
               rank_sources_prompt py_str self source_data max_results st in
  run.1 = Return (JArr source_data)
  ∧ curated_sources run.2 = curated_sources st
  ∧ research_logs run.2
    = research_logs st
      ++ [LogEvent "Evaluating and curating sources by credibility and relevance..."
                   false false;
          LogEvent ("Error curating sources: " +:+ str_exn e) true true]
  ∧ stdout run.2
    = stdout st
      ++ [LF +:+ LF +:+ "Curating " +:+ pretty (length source_data) +:+ " sources: "
            +:+ py_str (JArr source_data);
          LF +:+ LF +:+ "Final Curated sources " +:+ pretty (length source_data)
            +:+ " sources: " +:+ py_str curated;
          "Error in curate_sources from LLM response: " +:+ response].
Proof.
  intros run. subst run. unfold curate_sources. rewrite Hcall.
  unfold print, _log_event, lift. unfold_py. rewrite Hparse. simpl.
  rewrite Hlen. simpl. rewrite <- !app_assoc. simpl. done.
Qed.

(** X8. [curate_sources] never raises, whatever the model call and the parser
    do: its result is the value parsed from the model's answer, or the
    list it was given. *)
Theorem curate_sources_never_raises (self : researcher) (source_data : list json)
    (max_results : Z) (st : state) :
  ∃ v, (curate_sources create_chat_completion json_loads rank_sources_prompt
          py_str self source_data max_results st).1 = Return v
       ∧ (v = JArr source_data
          ∨ ∃ response,
              create_chat_completion
                [ChatMessage "system" (r_role self);
                 ChatMessage "user"
                   (rank_sources_prompt (r_query self) source_data max_results)]
              = Return response
              ∧ json_loads response = Return v).
Proof.
  unfold curate_sources.
  destruct (create_chat_completion _) as [response|e] eqn:Hcall.
  - unfold print, _log_event, lift. unfold_py.
    destruct (json_loads response) as [v|e] eqn:Hparse; simpl.
    + destruct (py_len v) as [n|e] eqn:Hlen; simpl.
      * exists v. split; [done|]. right. by exists response.
      * eexists. split; [reflexivity|]. by left.
    + eexists. split; [reflexivity|]. by left.
  - unfold print, _log_event. unfold_py. simpl.
    eexists. split; [reflexivity|]. by left.
Qed.

End SourceCuratorPaths.

Lemma curate_sources_success_witness :
  let llm := λ _ : list chat_message, Return "[1]" in
  let loads := λ _ : string,
    Return (SourceCurator.JArr [SourceCurator.JInt 1]) in
  (SourceCurator.curate_sources llm loads (λ _ _ _, "rank") (λ _, "")
     (SourceCurator.Researcher "role" "query")
     [SourceCurator.JInt 1; SourceCurator.JInt 2] 10
     (SourceCurator.State [] None 0 [])).1
  = Return (SourceCurator.JArr [SourceCurator.JInt 1]).
Proof.
  intros llm loads.
  exact (proj1 (curate_sources_success llm loads (λ _ _ _, "rank") (λ _, "")
    (SourceCurator.Researcher "role" "query")
    [SourceCurator.JInt 1; SourceCurator.JInt 2] 10
    (SourceCurator.State [] None 0 []) "[1]"
    (SourceCurator.JArr [SourceCurator.JInt 1]) 1 eq_refl eq_refl eq_refl)).
Defined.

Lemma curate_sources_unsized_result_witness :
  let llm := λ _ : list chat_message, Return "3" in
  let loads := λ _ : string, Return (SourceCurator.JInt 3) in
  (SourceCurator.curate_sources llm loads (λ _ _ _, "rank") (λ _, "")
     (SourceCurator.Researcher "role" "query")
     [SourceCurator.JInt 1; SourceCurator.JInt 2] 10
     (SourceCurator.State [] None 0 [])).1
  = Return (SourceCurator.JArr [SourceCurator.JInt 1; SourceCurator.JInt 2]).
Proof.
  intros llm loads.
  exact (proj1 (curate_sources_unsized_result llm loads (λ _ _ _, "rank") (λ _, "")
    (SourceCurator.Researcher "role" "query")
    [SourceCurator.JInt 1; SourceCurator.JInt 2] 10
    (SourceCurator.State [] None 0 []) "3"
    (SourceCurator.JInt 3)
    (Exn TypeError "object of type 'int' has no len()") eq_refl eq_refl eq_refl)).
Defined.
(** ** Report generation: the other paths and the section writers *)

Lemma str_split_char_nonempty (sep : ascii) (s : string) :
  str_split_char sep s ≠ [].
Proof.
  destruct s as [|c rest]; simpl; [done|].
  destruct (Ascii.eqb c sep); [done|]. by destruct (str_split_char sep rest).
Qed.

Lemma str_join_split_char (sep : ascii) (s : string) :
  str_join (String sep "") (str_split_char sep s) = s.
Proof.
  induction s as [|c rest IH]; [done|]. simpl.
  destruct (Ascii.eqb_spec c sep) as [->|Hne].
  - destruct (str_split_char sep rest) as [|w ws] eqn:Hs;
      [by apply str_split_char_nonempty in Hs|].
    cbn [str_join]. cbn [str_join] in IH. by rewrite <- IH.
  - destruct (str_split_char sep rest) as [|w ws] eqn:Hs;
      [by apply str_split_char_nonempty in Hs|].
    rewrite <- IH. destruct ws; reflexivity.
Qed.

Section ReportGenerationPaths.
Import ReportGeneration.
Variable create_chat_completion : nat → list chat_message → outcome string.
Variable generate_prompt : string → prompt_args → string.
Variable generate_report_introduction : string → string → string → string.
Variable generate_report_conclusion : string → string → string → string.
Variable generate_draft_titles_prompt : string → string → string → string.

(** X9. Report generation, first path: when the structured call succeeds,
    [generate_report] returns its text after exactly that one model call,
    prints nothing, and (when a state was passed) logs the start and the
    completion. *)
Theorem generate_report_success
    (query context agent_role_prompt report_type tone report_source : string)
    (cfg : config) (w : world) (text : string) :
  let content :=
    if decide (report_type = "subtopic_report")
    then generate_prompt report_type (SubtopicArgs query context cfg tone)
    else generate_prompt report_type (ReportArgs query context report_source cfg tone) in
  let structured := [ChatMessage "system" agent_role_prompt;
                     ChatMessage "user" content] in
  let run := generate_report create_chat_completion generate_prompt query context
               agent_role_prompt report_type tone report_source cfg w in
  create_chat_completion (length (llm_calls w)) structured = Return text →
  run.1 = Return text
  ∧ llm_calls run.2 = llm_calls w ++ [structured]
  ∧ stdout run.2 = stdout w
  ∧ writer_logged w run.2 [LogEvent "Generating report..." false false;
                           LogEvent "Report generated" true false].
Proof.
  intros content structured run Hfirst. subst run.
  unfold generate_report. fold content structured.
  destruct w as [st out calls]. simpl in *.
  cbv [try_except bind call_model log_if_state modify print ret writer_logged].
  destruct st as [s|]; simpl; rewrite Hfirst; simpl; [|done].
  repeat split; try done. eexists. split; [reflexivity|]. simpl.
  rewrite <- app_assoc. split; [done|lia].
Qed.

(** X10. [generate_report] never raises and never makes more than two model
    calls, whatever the model does. *)
Theorem generate_report_never_raises
    (query context agent_role_prompt report_type tone report_source : string)
    (cfg : config) (w : world) :
  let run := generate_report create_chat_completion generate_prompt query context
               agent_role_prompt report_type tone report_source cfg w in
  (∃ report, run.1 = Return report)
  ∧ length (llm_calls w) < length (llm_calls run.2) ≤ length (llm_calls w) + 2.
Proof.
  intros run. subst run. unfold generate_report.
  destruct w as [st out calls].
  cbv [try_except bind call_model log_if_state modify print ret].
  destruct st as [s|]; simpl;
    destruct (create_chat_completion (length calls) _); simpl;
    try (split; [by eexists|rewrite length_app; simpl; lia]);
    destruct (create_chat_completion _ _); simpl;
    (split; [by eexists|rewrite !length_app; simpl; lia]).
Qed.

Ltac fail_safe_completion_tac :=
  intros [st out calls];
  cbv [try_except bind call_model log_if_state modify ret writer_logged];
  simpl;
  destruct st as [s|]; simpl;
  destruct (create_chat_completion (length calls) _); simpl;
  repeat split; try done;
  eexists; (split; [reflexivity|]); simpl;
  rewrite <- app_assoc; (split; [done|lia]).

(** X11. The section writers are fail-safe: [write_report_introduction],
    [write_conclusion] and [summarize_url] each make exactly one model call,
    return its text, and after a failure return the empty string without
    raising, the error being logged when a state was passed. *)
Theorem section_writers_fail_safe
    (query context agent_role_prompt url content role : string) (cfg : config) :
  fail_safe_completion create_chat_completion
    (write_report_introduction create_chat_completion generate_report_introduction
       query context agent_role_prompt cfg)
    [ChatMessage "system" agent_role_prompt;
     ChatMessage "user" (generate_report_introduction query context (language cfg))]
    "Generating report introduction..." "Report introduction generated"
    "Error generating report introduction: "
  ∧ fail_safe_completion create_chat_completion
      (write_conclusion create_chat_completion generate_report_conclusion
         query context agent_role_prompt cfg)
      [ChatMessage "system" agent_role_prompt;
       ChatMessage "user" (generate_report_conclusion query context (language cfg))]
      "Generating report conclusion..." "Report conclusion generated"
      "Error generating report conclusion: "
  ∧ fail_safe_completion create_chat_completion
      (summarize_url create_chat_completion url content role cfg)
      [ChatMessage "system" role;
       ChatMessage "user" ("Summarize the following content from " +:+ url +:+ ":"
                           +:+ LF +:+ LF +:+ content)]
      "Summarizing URL content..." "URL content summarized"
      "Error summarizing URL: ".
Proof.
  split; [|split].
  - unfold write_report_introduction. fail_safe_completion_tac.
  - unfold write_conclusion. fail_safe_completion_tac.
  - unfold summarize_url. fail_safe_completion_tac.
Qed.

(** X12. Draft section titles: the result is the model's text cut at its line
    feeds, so a successful call yields at least one title (possibly empty)
    and joining the titles with line feeds gives the text back; the empty
    list is returned exactly when the model call failed.  The function
    never raises. *)
Theorem generate_draft_section_titles_result
    (query current_subtopic context role : string) (cfg : config) (w : world) :
  let messages := [ChatMessage "system" role;
                   ChatMessage "user"
                     (generate_draft_titles_prompt current_subtopic query context)] in
  let run := generate_draft_section_titles create_chat_completion
               generate_draft_titles_prompt query current_subtopic context role cfg w in
  (∃ titles, run.1 = Return titles)
  ∧ (run.1 = Return []
     ↔ ∃ e, create_chat_completion (length (llm_calls w)) messages = Raise e)
  ∧ (∀ text, create_chat_completion (length (llm_calls w)) messages = Return text →
       ∃ titles, run.1 = Return titles ∧ titles ≠ [] ∧ str_join LF titles = text).
Proof.
  intros messages run. subst run. unfold generate_draft_section_titles.
  fold messages. destruct w as [st out calls].
  cbv [try_except bind call_model log_if_state modify ret]. simpl.
  destruct st as [s|]; simpl;
    destruct (create_chat_completion (length calls) messages) as [text|e] eqn:Hcall;
    simpl.
  all: split; [by eexists|]; split.
  all: try (split; [intros [= H]; by apply str_split_char_nonempty in H
                   |intros [? [=]]]).
  all: try (split; [by eexists|done]).
  all: try (intros ? [= <-]; eexists; split; [reflexivity|];
            split; [apply str_split_char_nonempty|apply str_join_split_char]).
  all: intros ? [=].
Qed.

End ReportGenerationPaths.

Lemma generate_report_success_witness :
  let llm := λ (_ : nat) (_ : list chat_message), Return "# Report" in
  let prompt := λ (_ : string) (_ : ReportGeneration.prompt_args), "Write a report" in
  let cfg := ReportGeneration.Config "APA" 1000 "english" "gpt-4o" "openai" 4000 in
  let w := ReportGeneration.World
             (Some (ReportGeneration.AgentState [] 0)) [] [] in
  (ReportGeneration.generate_report llm prompt "query" "context" "role"
     "research_report" "objective" "web" cfg w).1 = Return "# Report".
Proof.
  intros llm prompt cfg w.
  exact (proj1 (generate_report_success llm prompt "query" "context" "role"
                  "research_report" "objective" "web" cfg w "# Report" eq_refl)).
Defined.
(** ** Retriever resolution and provider construction *)

Section ProviderOutcomes.
Import Retriever GenericLLMProvider.

(** X13. [get_retrievers] never returns an empty list, so the first retriever
    (which the planner uses) always exists; names given in the request
    headers take precedence over the configuration, which is then not
    consulted; and the names read from the ["retrievers"] header are its
    comma-separated fields exactly: joined by commas they give the header
    back, nothing being trimmed or dropped. *)
Theorem get_retrievers_nonempty_and_precedence (headers : gmap string string) :
  (∀ cfg, get_retrievers headers cfg ≠ [])
  ∧ (∀ cfg cfg',
       is_Some (header headers "retrievers") ∨ is_Some (header headers "retriever") →
       get_retrievers headers cfg = get_retrievers headers cfg')
  ∧ (∀ cfg v, header headers "retrievers" = Some v →
       str_join "," (requested_retrievers headers cfg) = v).
Proof.
  split; [|split].
  - intros cfg Hnil. apply fmap_nil_inv in Hnil. revert Hnil.
    unfold requested_retrievers.
    destruct (header headers "retrievers"); [apply str_split_char_nonempty|].
    destruct (header headers "retriever"); [done|].
    destruct (retrievers cfg); [|done]. by case_decide.
  - intros cfg cfg' Hh. unfold get_retrievers, requested_retrievers.
    destruct (header headers "retrievers"); [done|].
    destruct (header headers "retriever"); [done|].
    destruct Hh as [[? [=]]|[? [=]]].
  - intros cfg v Hv. unfold requested_retrievers. rewrite Hv.
    apply str_join_split_char.
Qed.

Variable find_spec : string → bool.
Variable environ : gmap string string.
Variable import_from : string → string → outcome unit.
Variable construct : chat_model → outcome unit.

Lemma provider_package_supported (provider : string) :
  is_Some (provider_package provider) ↔ provider ∈ _SUPPORTED_PROVIDERS.
Proof.
  unfold _SUPPORTED_PROVIDERS. rewrite elem_of_list_to_set.
  rewrite !elem_of_cons, elem_of_nil. unfold provider_package.
  split.
  - intros Hsome. repeat (case_decide; [tauto|]). by destruct Hsome.
  - intros Hin. repeat (case_decide; [by eexists|]). exfalso. tauto.
Qed.

(** X14. A supported provider whose integration package is not installed fails
    with [ImportError], before any environment variable is read. *)
Theorem from_provider_missing_package (provider pkg : string)
    (Hpkg : provider_package provider = Some pkg)
    (Hmissing : find_spec pkg = false) :
  provider ∈ _SUPPORTED_PROVIDERS
  ∧ ∃ msg, from_provider find_spec environ import_from construct provider
           = Raise (Exn ImportError msg).
Proof.
  split; [apply provider_package_supported; by eexists|].
  revert Hpkg. unfold provider_package, from_provider, branch, _check_pkg.
  repeat (case_decide; [intros [= <-]; rewrite Hmissing; by eexists|]).
  done.
Qed.

(** X15. For a supported provider whose checked package is found,
    [from_provider] goes on to the import of the branch's class (for
    [ollama] from [langchain_ollama], which is not the package it checked)
    and raises what the import raises.  After the import, [ollama] and
    [deepseek] read their environment variable, failing with [KeyError] on
    the quoted name when it is unset, before the constructor is called.
    The result is then the model the constructor builds, with the
    variable's value in it, or the constructor's exception. *)
Theorem from_provider_installed (provider pkg module name : string)
    (Hpkg : provider_package provider = Some pkg)
    (Hfound : find_spec pkg = true)
    (Himport : provider_import provider = Some (module, name)) :
  let result := from_provider find_spec environ import_from construct provider in
  match import_from module name with
  | Raise e => result = Raise e
  | Return _ =>
      match provider_variable provider with
      | None => ∃ llm, result = built construct llm
      | Some var =>
          match environ !! var with
          | Some value =>
              result = built construct
                         (if decide (provider = "ollama") then ChatOllama value
                          else ChatOpenAI_deepseek value)
          | None => result = Raise (Exn KeyError ("'" +:+ var +:+ "'"))
          end
      end
  end.
Proof.
  revert Hpkg Himport. unfold provider_package, provider_import, from_provider.
  repeat (case_decide;
          [intros [= <-] [= <- <-]; subst provider;
           unfold branch, _check_pkg, environ_get, provider_variable, built;
           rewrite Hfound; repeat (case_decide; try congruence);
           destruct (import_from _ _); [|done];
           try (by eexists); by destruct (environ !! _)|]).
  done.
Qed.

End ProviderOutcomes.

Lemma from_provider_missing_package_witness :
  ∃ msg, GenericLLMProvider.from_provider (λ _, false) ∅
           (λ _ _, Return tt) (λ _, Return tt) "ollama"
         = Raise (Exn ImportError msg).
Proof.
  exact (proj2 (from_provider_missing_package (λ _, false) ∅
                  (λ _ _, Return tt) (λ _, Return tt) "ollama"
                  "langchain_community" eq_refl eq_refl)).
Defined.

Lemma from_provider_installed_witness :
  let environ : gmap string string :=
    {["OLLAMA_BASE_URL" := "http://localhost:11434"]} in
  let not_installed :=
    Exn (OtherError "ModuleNotFoundError") "No module named 'langchain_ollama'" in
  GenericLLMProvider.from_provider (λ _, true) environ
    (λ _ _, Return tt) (λ _, Return tt) "ollama"
  = Return (GenericLLMProvider.ChatOllama "http://localhost:11434")
  ∧ GenericLLMProvider.from_provider
      (λ pkg, bool_decide (pkg = "langchain_community")) environ
      (λ module _, if decide (module = "langchain_ollama") then Raise not_installed
                   else Return tt)
      (λ _, Return tt) "ollama"
    = Raise not_installed.
Proof.
  intros environ not_installed. split.
  - exact (from_provider_installed (λ _, true) environ
             (λ _ _, Return tt) (λ _, Return tt) "ollama"
             "langchain_community" "langchain_ollama" "ChatOllama"
             eq_refl eq_refl eq_refl).
  - exact (from_provider_installed
             (λ pkg, bool_decide (pkg = "langchain_community")) environ
             (λ module _, if decide (module = "langchain_ollama")
                          then Raise not_installed else Return tt)
             (λ _, Return tt) "ollama"
             "langchain_community" "langchain_ollama" "ChatOllama"
             eq_refl eq_refl eq_refl).
Defined.

(** ** The cost ledger: the missing handler *)

Section CostLedgerEffects.
Import GPTResearcher.

(** X16. When the state has no ["log_handler"] key, an accepted amount is still
    added to the total, and only then does [add_costs] fail, with
    [KeyError]; nothing is emitted.  The ledger has changed although the
    call raised. *)
Theorem add_costs_without_log_handler (cost : pyval) (v : float) (st : state)
    (Hamount : amount_value cost = Some v)
    (Hmissing : log_handler st = None) :
  add_costs cost st
  = (Raise (Exn KeyError "'log_handler'"),
     State (costs st + v)%float None (emitted st)).
Proof.
  unfold add_costs.
  assert (isinstance_float_int cost = true ∧ float_add (costs st) cost
          = Return (costs st + v)%float) as [-> Hadd].
  { destruct cost as [|b|n|f|s]; simpl in *; try done.
    - by injection Hamount as <-.
    - by rewrite Hamount.
    - by injection Hamount as <-. }
  simpl. unfold lift. unfold_py. rewrite Hadd. simpl. by rewrite Hmissing.
Qed.

End CostLedgerEffects.

Lemma add_costs_without_log_handler_witness :
  GPTResearcher.add_costs (GPTResearcher.PyFloat 0.5)
    (GPTResearcher.State 1 None [])
  = (Raise (Exn KeyError "'log_handler'"), GPTResearcher.State 1.5 None []).
Proof.
  exact (add_costs_without_log_handler (GPTResearcher.PyFloat 0.5) 0.5
           (GPTResearcher.State 1 None []) eq_refl eq_refl).
Defined.

(** ** The reviewer: opting out, failing, and never accepting *)

Section ReviewerPaths.
Import ReviewerAgent EditorAgent.
Variable call_model_impl : nat → list chat_message → outcome string.
Variable py_str_list : list string → string.

(** X18. A task that does not follow guidelines is never reviewed: [run] makes
    no model call and logs nothing, its review is [None], and the workflow,
    under a recursion limit of three or more, ends after the researcher
    and the reviewer, without any revision. *)
Theorem reviewer_skips_review_without_guidelines
    (researcher_stub reviser_stub : draft_state → update)
    (d : draft_state) (w : world) (steps : nat)
    (Hskip : follow_guidelines (d_task d) = false)
    (Hsteps : 3 ≤ steps) :
  run call_model_impl py_str_list d w
  = (Return None,
     World (research_logs w) (emitted w)
           (stdout w ++ ["REVIEWER: Ignoring guidelines..."]) (llm_calls w))
  ∧ ∃ w',
      invoke (λ d, ret (researcher_stub d))
             (reviewer_run call_model_impl py_str_list)
             (λ d, ret (reviser_stub d)) steps d w
      = (Return (Some (merge (merge d (researcher_stub d))
                         (Update None (Some None) None),
                       [Researcher; Reviewer])), w')
      ∧ llm_calls w' = llm_calls w
      ∧ research_logs w' = research_logs w.
Proof.
  split; [unfold run; by rewrite Hskip|].
  destruct steps as [|[|[|steps]]]; try lia.
  unfold invoke, entry_point.
  rewrite (invoke_from_step _ _ _ _ Researcher d [] w w (researcher_stub d))
    by done.
  cbn [next_node].
  set (d1 := merge d (researcher_stub d)).
  set (w1 := World (research_logs w) (emitted w)
               (stdout w ++ ["REVIEWER: Ignoring guidelines..."]) (llm_calls w)).
  assert (reviewer_run call_model_impl py_str_list d1 w
          = (Return (Update None (Some None) None), w1)) as Hrun
    by (unfold reviewer_run, run; simpl; by rewrite Hskip).
  exists w1.
  rewrite (invoke_from_step _ _ _ _ Reviewer d1 _ w w1 _ ltac:(done) Hrun).
  split; [reflexivity|]. split; reflexivity.
Qed.

(** X19. A failing model call is not absorbed by the reviewer: [review_draft]
    logs the start and an error entry, the exception leaves [run]
    unchanged, and a workflow that has reached the reviewer ends with that
    exception instead of reaching [END]. *)
Theorem review_failure_is_logged_and_raised
    (researcher_node reviser_node : draft_state → M world update)
    (d : draft_state) (w : world) (e : exn) (steps : nat) (ran : list node)
    (Hfollow : follow_guidelines (d_task d) = true)
    (Hcall : call_model_impl (length (llm_calls w))
               [ChatMessage "system" TEMPLATE; ChatMessage "user" (review_prompt d)]
             = Raise e) :
  let result := run call_model_impl py_str_list d w in
  result.1 = Raise e
  ∧ research_logs result.2
    = research_logs w
      ++ [LogEvent "Starting draft review..." false false;
          LogEvent ("Error during draft review: " +:+ str_exn e) true true]
  ∧ llm_calls result.2
    = llm_calls w ++ [[ChatMessage "system" TEMPLATE;
                       ChatMessage "user" (review_prompt d)]]
  ∧ (invoke_from researcher_node (reviewer_run call_model_impl py_str_list)
       reviser_node (S steps) Reviewer d ran w).1 = Raise e.
Proof.
  intros result. subst result.
  cbn [invoke_from node_action]. unfold reviewer_run, run. rewrite Hfollow.
  cbv [bind print_agent_output modify when ret review_draft try_except log
       call_model].
  destruct (verbose (d_task d)); simpl; rewrite Hcall; simpl;
    rewrite <- app_assoc; done.
Qed.

(** X20. The loop has no bound of its own: with a reviewer model that always
    answers with feedback (a text without ["None"]), no run reaches [END],
    however many steps the engine allows; every run is cut off by the step
    bound. *)
Theorem review_loop_has_no_bound
    (researcher_stub reviser_stub : draft_state → update)
    (d : draft_state) (w : world) (feedback : string) (steps : nat)
    (Hfollow : follow_guidelines (d_task d) = true)
    (Hfeedback : ∀ n prompt, call_model_impl n prompt = Return feedback)
    (Hnone : str_contains "None" feedback = false) :
  (invoke (λ d, ret (researcher_stub d))
          (reviewer_run call_model_impl py_str_list)
          (λ d, ret (reviser_stub d)) steps d w).1 = Return None.
Proof.
  apply review_loop_never_ends; [done|].
  intros n. exists feedback. split; [intros prompt; apply Hfeedback|done].
Qed.

End ReviewerPaths.

Lemma reviewer_skips_review_without_guidelines_witness :
  let task := ReviewerAgent.Task "gpt-4o" ["cite sources"] false false in
  let d := ReviewerAgent.DraftState task "solar" "first draft" None None in
  ReviewerAgent.run (λ _ _, Return "Add citations.") (λ _, "") d
    (ReviewerAgent.World [] 0 [] [])
  = (Return None,
     ReviewerAgent.World [] 0 ["REVIEWER: Ignoring guidelines..."] [])
  ∧ ∃ w',
      EditorAgent.invoke
        (λ d, ret (EditorAgent.Update (Some "first draft") None None))
        (EditorAgent.reviewer_run (λ _ _, Return "Add citations.") (λ _, ""))
        (λ d, ret (EditorAgent.Update (Some "second draft") None None)) 3 d
        (ReviewerAgent.World [] 0 [] [])
      = (Return (Some (ReviewerAgent.DraftState task "solar" "first draft" None None,
                       [EditorAgent.Researcher; EditorAgent.Reviewer])), w')
      ∧ ReviewerAgent.llm_calls w' = []
      ∧ ReviewerAgent.research_logs w' = [].
Proof.
  intros task d.
  exact (reviewer_skips_review_without_guidelines
    (λ _ _, Return "Add citations.") (λ _, "")
    (λ _, EditorAgent.Update (Some "first draft") None None)
    (λ _, EditorAgent.Update (Some "second draft") None None)
    d (ReviewerAgent.World [] 0 [] []) 3 eq_refl (le_n 3)).
Defined.

Lemma review_failure_is_logged_and_raised_witness :
  let task := ReviewerAgent.Task "gpt-4o" ["cite sources"] true false in
  let d := ReviewerAgent.DraftState task "solar" "first draft" None None in
  (ReviewerAgent.run (λ _ _, Raise (Exn RuntimeError "timeout")) (λ _, "") d
     (ReviewerAgent.World [] 0 [] [])).1
  = Raise (Exn RuntimeError "timeout").
Proof.
  intros task d.
  exact (proj1 (review_failure_is_logged_and_raised
    (λ _ _, Raise (Exn RuntimeError "timeout")) (λ _, "")
    (λ _, ret (EditorAgent.Update None None None))
    (λ _, ret (EditorAgent.Update None None None))
    d (ReviewerAgent.World [] 0 [] []) (Exn RuntimeError "timeout") 0 []
    eq_refl eq_refl)).
Defined.

Lemma review_loop_has_no_bound_witness :
  let task := ReviewerAgent.Task "gpt-4o" ["cite sources"] true false in
  let d := ReviewerAgent.DraftState task "solar" "first draft" None None in
  (EditorAgent.invoke (λ d, ret (EditorAgent.Update (Some "first draft") None None))
     (EditorAgent.reviewer_run (λ _ _, Return "Add citations.") (λ _, ""))
     (λ d, ret (EditorAgent.Update (Some "next draft") None None)) 25 d
     (ReviewerAgent.World [] 0 [] [])).1
  = Return None.
Proof.
  intros task d.
  exact (review_loop_has_no_bound (λ _ _, Return "Add citations.") (λ _, "")
    (λ _, EditorAgent.Update (Some "first draft") None None)
    (λ _, EditorAgent.Update (Some "next draft") None None)
    d (ReviewerAgent.World [] 0 [] []) "Add citations." 25
    eq_refl (λ _ _, eq_refl) eq_refl).
Defined.

(** ** Browsing: what [browse_urls] leaves in the state *)

Section BrowseUrlsProofs.
Import BrowseUrls.
Variable get_image_hash : string → option string.
Variable scrape_urls :
  list string → outcome (list SourceCurator.json * list BrowserSkill.image).

(** X21. Browsing success: [browse_urls] returns the scraped pages and stores
    them as ["research_sources"]; ["research_images"] is replaced, not
    extended: it becomes a list of at most four URLs, none of which was in
    the list stored before, so every image stored before is gone.  Two log
    entries are appended, neither an error. *)
Theorem browse_urls_replaces_images (urls : list string) (st : state)
    (pages : list SourceCurator.json) (images : list BrowserSkill.image)
    (Hscrape : scrape_urls urls = Return (pages, images)) :
  let run := browse_urls get_image_hash scrape_urls urls st in
  let previous := default [] (BrowserSkill.research_images (skill st)) in
  ∃ selected,
    run.1 = Return pages
    ∧ research_sources run.2 = Some pages
    ∧ BrowserSkill.research_images (skill run.2) = Some selected
    ∧ length selected ≤ 4
    ∧ (∀ u, u ∈ selected → u ∉ previous)
    ∧ BrowserSkill.research_logs (skill run.2)
      = BrowserSkill.research_logs (skill st)
        ++ [LogEvent ("Browsing " +:+ pretty (length urls) +:+ " URLs") false false;
            LogEvent ("Successfully extracted content from "
                      +:+ pretty (length urls) +:+ " URLs") true false]
    ∧ emitted run.2 = emitted st + 2.
Proof.
  intros run previous. subst run.
  unfold browse_urls, _scrape_urls, log, lift. unfold_py. rewrite Hscrape.
  destruct st as [[imgs logs] sources n]. simpl.
  eexists. split; [reflexivity|]. split; [reflexivity|]. split; [reflexivity|].
  rewrite select_top_images_cases. simpl.
  split; [rewrite length_take; lia|].
  split; [|split; [by rewrite <- app_assoc|lia]].
  intros u Hu. eapply (eligible_images_elem get_image_hash previous).
  eapply (sublist_subseteq (take 4 _)); [apply sublist_take|exact Hu].
Qed.

(** X22. Browsing failure: when the scraper raises, the exception is logged
    twice, by [_scrape_urls] and by [browse_urls], and raised again;
    ["research_images"] and ["research_sources"] stay as they were. *)
Theorem browse_urls_failure (urls : list string) (st : state) (e : exn)
    (Hscrape : scrape_urls urls = Raise e) :
  browse_urls get_image_hash scrape_urls urls st
  = (Raise e,
     State (BrowserSkill.State (BrowserSkill.research_images (skill st))
              (BrowserSkill.research_logs (skill st)
               ++ [LogEvent ("Browsing " +:+ pretty (length urls) +:+ " URLs")
                            false false;
                   LogEvent ("Error scraping URLs: " +:+ str_exn e) true true;
                   LogEvent ("Error browsing URLs: " +:+ str_exn e) true true]))
           (research_sources st) (emitted st + 3)).
Proof.
  unfold browse_urls, _scrape_urls, log, lift. unfold_py. rewrite Hscrape.
  destruct st as [[imgs logs] sources n]. simpl.
  rewrite <- !app_assoc. simpl. do 3 f_equal. lia.
Qed.

End BrowseUrlsProofs.

Lemma browse_urls_replaces_images_witness :
  (BrowseUrls.browse_urls (λ u, Some u)
     (λ _, Return ([SourceCurator.JStr "page"], [BrowserSkill.Image "a.png" 3]))
     ["https://example.org"]
     (BrowseUrls.State (BrowserSkill.State (Some ["old.png"]) []) None 0)).1
  = Return [SourceCurator.JStr "page"].
Proof.
  destruct (browse_urls_replaces_images (λ u, Some u)
     (λ _, Return ([SourceCurator.JStr "page"], [BrowserSkill.Image "a.png" 3]))
     ["https://example.org"]
     (BrowseUrls.State (BrowserSkill.State (Some ["old.png"]) []) None 0)
     [SourceCurator.JStr "page"] [BrowserSkill.Image "a.png" 3] eq_refl)
    as (selected & Hrun & _).
  exact Hrun.
Defined.

Lemma browse_urls_failure_witness :
  (BrowseUrls.browse_urls (λ u, Some u)
     (λ _, Raise (Exn RuntimeError "connection refused"))
     ["https://example.org"]
     (BrowseUrls.State (BrowserSkill.State (Some ["old.png"]) []) None 0)).1
  = Raise (Exn RuntimeError "connection refused").
Proof.
  exact (f_equal fst (browse_urls_failure (λ u, Some u)
     (λ _, Raise (Exn RuntimeError "connection refused"))
     ["https://example.org"]
     (BrowseUrls.State (BrowserSkill.State (Some ["old.png"]) []) None 0)
     (Exn RuntimeError "connection refused") eq_refl)).
Defined.
(** ** Editing a draft: the three stages *)

Section EditDraftProofs.
Import EditDraft.
Variable analysis : Type.
Variable analyze_draft : string → outcome analysis.
Variable improve_draft : string → analysis → outcome string.
Variable final_review : string → outcome string.

(** X23. [edit_draft] runs its three stages in order, each on the result of the
    one before.  A run that returns has passed all three and has logged
    eight entries, none an error; a run that raises has stopped at the
    first failing stage, whose exception it raises unchanged after logging
    it twice, once by the stage and once by [edit_draft], as the last two
    entries and the only error entries it added. *)
Theorem edit_draft_outcomes (draft : string) (st : state) :
  let run := edit_draft analysis analyze_draft improve_draft final_review draft st in
  ∃ added,
    editor_logs run.2 = editor_logs st ++ added
    ∧ emitted run.2 = emitted st + length added
    ∧ match run.1 with
      | Return final_draft =>
          (∃ a improved,
             analyze_draft draft = Return a
             ∧ improve_draft draft a = Return improved
             ∧ final_review improved = Return final_draft)
          ∧ added
            = [LogEvent "Starting to edit draft..." false false;
               LogEvent "Analyzing draft..." false false;
               LogEvent "Draft analysis completed" true false;
               LogEvent "Improving draft..." false false;
               LogEvent "Draft improvements completed" true false;
               LogEvent "Performing final review..." false false;
               LogEvent "Final review completed" true false;
               LogEvent "Draft editing completed" true false]
      | Raise e =>
          ∃ before stage,
            added
            = before
              ++ [LogEvent (stage +:+ str_exn e) true true;
                  LogEvent ("Error editing draft: " +:+ str_exn e) true true]
            ∧ Forall (λ ev, error ev = false) before
            ∧ (analyze_draft draft = Raise e
               ∨ (∃ a, analyze_draft draft = Return a
                       ∧ (improve_draft draft a = Raise e
                          ∨ ∃ improved, improve_draft draft a = Return improved
                                        ∧ final_review improved = Raise e)))
      end.
Proof.
  intros run. subst run.
  unfold edit_draft, _analyze_draft, _improve_draft, _final_review, log, lift.
  unfold_py. destruct st as [logs n]. simpl.
  destruct (analyze_draft draft) as [a|e] eqn:Ha; simpl.
  - destruct (improve_draft draft a) as [improved|e] eqn:Hi; simpl.
    + destruct (final_review improved) as [final|e] eqn:Hf; simpl.
      * eexists. rewrite <- !app_assoc. simpl. split; [reflexivity|].
        split; [simpl; lia|]. split; [|done]. by exists a, improved.
      * exists [LogEvent "Starting to edit draft..." false false;
                LogEvent "Analyzing draft..." false false;
                LogEvent "Draft analysis completed" true false;
                LogEvent "Improving draft..." false false;
                LogEvent "Draft improvements completed" true false;
                LogEvent "Performing final review..." false false;
                LogEvent ("Error in final review: " +:+ str_exn e) true true;
                LogEvent ("Error editing draft: " +:+ str_exn e) true true].
        rewrite <- !app_assoc. simpl. split; [done|]. split; [lia|].
        exists [LogEvent "Starting to edit draft..." false false;
                LogEvent "Analyzing draft..." false false;
                LogEvent "Draft analysis completed" true false;
                LogEvent "Improving draft..." false false;
                LogEvent "Draft improvements completed" true false;
                LogEvent "Performing final review..." false false],
               "Error in final review: ".
        split; [done|]. split; [by repeat constructor|].
        right. exists a. split; [done|]. right. by exists improved.
    + exists [LogEvent "Starting to edit draft..." false false;
              LogEvent "Analyzing draft..." false false;
              LogEvent "Draft analysis completed" true false;
              LogEvent "Improving draft..." false false;
              LogEvent ("Error improving draft: " +:+ str_exn e) true true;
              LogEvent ("Error editing draft: " +:+ str_exn e) true true].
      rewrite <- !app_assoc. simpl. split; [done|]. split; [lia|].
      exists [LogEvent "Starting to edit draft..." false false;
              LogEvent "Analyzing draft..." false false;
              LogEvent "Draft analysis completed" true false;
              LogEvent "Improving draft..." false false],
             "Error improving draft: ".
      split; [done|]. split; [by repeat constructor|].
      right. exists a. split; [done|]. by left.
  - exists [LogEvent "Starting to edit draft..." false false;
            LogEvent "Analyzing draft..." false false;
            LogEvent ("Error analyzing draft: " +:+ str_exn e) true true;
            LogEvent ("Error editing draft: " +:+ str_exn e) true true].
    rewrite <- !app_assoc. simpl. split; [done|]. split; [lia|].
    exists [LogEvent "Starting to edit draft..." false false;
            LogEvent "Analyzing draft..." false false],
           "Error analyzing draft: ".
    split; [done|]. split; [by repeat constructor|]. by left.
Qed.

End EditDraftProofs.
(** ** The search path of the research skill *)

Section ConductResearchProofs.
Import ConductResearch.
Variable retrievers : list (string → outcome (list search_result)).
Variable browser : option (string → outcome string).
Variable llm : option (string → outcome SourceCurator.json).

Lemma _perform_search_loop_spec (rs : list (string → outcome (list search_result)))
    (query : string) (acc : list search_result) (st : state) :
  (∃ results, _perform_search_loop rs query acc st = (Return results, st))
  ∨ (∃ e search, _perform_search_loop rs query acc st = (Raise e, st)
                 ∧ search ∈ rs ∧ search query = Raise e).
Proof.
  revert acc. induction rs as [|search rest IH]; intros acc; simpl.
  - left. by eexists.
  - unfold bind, lift. destruct (search query) as [results|e] eqn:Hs.
    + destruct (IH (acc ++ results)) as [[r Hr]|(e & s & Hr & Hin & Hraise)].
      * left. by exists r.
      * right. exists e, s. split; [done|]. split; [by right|done].
    + right. exists e, search. split; [done|]. split; [by left|done].
Qed.

(** [_perform_search] leaves the research state as it is. *)
Lemma _perform_search_spec (query : string) (st : state) :
  ∃ o st', _perform_search retrievers query st = (o, st')
           ∧ research_state st' = research_state st
           ∧ match o with
             | Return _ => True
             | Raise e => ∃ search, search ∈ retrievers ∧ search query = Raise e
             end.
Proof.
  unfold _perform_search, _log_event. unfold_py.
  destruct (_perform_search_loop_spec retrievers query []
              (State (researcher_logs st ++
                        [LogEvent "Searching for relevant sources..." false false])
                 (S (emitted st)) (research_state st) (max_research_depth st)))
    as [[r Hr]|(e & s & Hr & Hin & Hraise)]; rewrite Hr; simpl.
  - by eexists _, _.
  - eexists _, _. split; [reflexivity|]. split; [done|]. by exists s.
Qed.

(** Without a visited set, the processing loop can only handle the empty
    list. *)
Lemma _process_search_results_no_visited (results : list search_result)
    (st : state) (rs : research_state_dict) :
  research_state st = Some rs → rs_visited_urls rs = None →
  ∃ o st', _process_search_results browser llm results st = (o, st')
           ∧ research_state st' = research_state st
           ∧ match o with
             | Return processed => processed = []
             | Raise e => exn_class_of e = KeyError
             end.
Proof.
  intros Hrs Hv. unfold _process_search_results, _log_event. unfold_py.
  destruct results as [|result rest]; simpl.
  - by eexists _, _.
  - unfold subscript, visited_urls. unfold_py. simpl.
    destruct (result !! "url") as [url|]; simpl.
    + rewrite Hrs. simpl. rewrite Hv. simpl. by eexists _, _.
    + by eexists _, _.
Qed.

(** X24. A skill whose state got its ["research_state"] from the constructor
    cannot complete [conduct_research]: the constructor stores an empty
    dictionary, so [conduct_research] finds the key and does not fill it
    in, and the run ends with an exception, whatever the retrievers, the
    browser and the model do.  The exception is a [KeyError] unless a
    retriever raised one of its own, and it is logged as the last entry. *)
Theorem conduct_research_after_constructor (query : string) (st : state)
    (Hfresh : research_state st = None) :
  let run := conduct_research retrievers browser llm query (__init__ st) in
  ∃ e, run.1 = Raise e
       ∧ (exn_class_of e = KeyError
          ∨ ∃ search, search ∈ retrievers ∧ search query = Raise e)
       ∧ last (researcher_logs run.2)
         = Some (LogEvent ("Error during research: " +:+ str_exn e) true true).
Proof.
  intros run. subst run. unfold __init__. rewrite Hfresh. simpl.
  set (st0 := State (researcher_logs st) (emitted st)
                (Some (ResearchState None None None None None))
                (max_research_depth st)).
  cut (∃ e st', conduct_research retrievers browser llm query st0 = (Raise e, st')
                ∧ (exn_class_of e = KeyError
                   ∨ ∃ search, search ∈ retrievers ∧ search query = Raise e)
                ∧ last (researcher_logs st')
                  = Some (LogEvent ("Error during research: " +:+ str_exn e) true true)).
  { intros (e & st' & -> & He & Hlast). by exists e. }
  unfold conduct_research.
  unfold try_except, bind at 1. unfold _log_event at 1, modify.
  set (st1 := State (researcher_logs st0 ++ _) _ _ _).
  unfold bind at 1, get. unfold bind at 1. simpl.
  unfold ret at 1. unfold bind at 1.
  destruct (_perform_search_spec query st1) as (o & st2 & -> & Hrs2 & Ho).
  destruct o as [results|e].
  - unfold bind at 1.
    destruct (_process_search_results_no_visited results st2
                (ResearchState None None None None None))
      as (o & st3 & -> & Hrs3 & Ho3); [by rewrite Hrs2|done|].
    destruct o as [processed|e].
    + unfold bind at 1, get. unfold bind at 1. rewrite Hrs3, Hrs2. simpl.
      unfold raise, _log_event. unfold_py. simpl.
      eexists _, _. split; [reflexivity|]. split; [by left|].
      simpl. by rewrite last_snoc.
    + unfold _log_event. unfold_py. simpl.
      eexists e, _. split; [done|]. split; [by left|].
      simpl. by rewrite last_snoc.
  - unfold _log_event. unfold_py. simpl.
    eexists e, _. split; [done|]. split; [by right|].
    simpl. by rewrite last_snoc.
Qed.

End ConductResearchProofs.

Lemma conduct_research_after_constructor_witness :
  ∃ e, (ConductResearch.conduct_research
          [λ _, Return [{["url" := "https://example.org"]}]] None None "solar"
          (ConductResearch.__init__ (ConductResearch.State [] 0 None None))).1
       = Raise e.
Proof.
  destruct (conduct_research_after_constructor
              [λ _, Return [{["url" := "https://example.org"]}]] None None "solar"
              (ConductResearch.State [] 0 None None) eq_refl)
    as (e & Hrun & _).
  by exists e.
Defined.
Section ProcessSearchResultsProofs.
Import ConductResearch.
(** A browser and a model that do not fail *)
Variable browse : option (string → string).
Variable analyze : option (string → SourceCurator.json).

Lemma _extract_content_total (u : string) (st : state) :
  _extract_content ((λ f u, Return (f u)) <$> browse) u st
  = (Return (from_option (λ f, f u) "" browse), st).
Proof. by destruct browse. Qed.

Lemma _analyze_content_total (c : string) (st : state) :
  _analyze_content ((λ f c, Return (f c)) <$> analyze) c st
  = (Return (from_option (λ f, f c) (SourceCurator.JObj []) analyze), st).
Proof. by destruct analyze. Qed.

Lemma _process_search_results_loop_spec (results : list search_result)
    (urls : list string) (acc : list processed_result)
    (logs : list log_event) (n : nat) (q : option string) (V : gset string)
    (summary : option (list processed_result)) (depth max_depth limit : option Z) :
  let content u := from_option (λ f, f u) "" browse in
  let analysis c := from_option (λ f, f c) (SourceCurator.JObj []) analyze in
  Forall2 (λ r u, r !! "url" = Some u) results urls →
  _process_search_results_loop ((λ f u, Return (f u)) <$> browse)
    ((λ f c, Return (f c)) <$> analyze) results acc
    (State logs n (Some (ResearchState q (Some V) summary depth max_depth)) limit)
  = (Return (acc ++ ((λ u, Processed u (content u) (analysis (content u)))
                       <$> first_occurrences (filter (λ u, u ∉ V) urls))),
     State logs n
       (Some (ResearchState q (Some (V ∪ list_to_set urls)) summary depth max_depth))
       limit).
Proof.
  intros content analysis Hurls. revert acc V.
  induction Hurls as [|r u results urls Hu _ IH]; intros acc V.
  - simpl. unfold ret. by rewrite app_nil_r, union_empty_r_L.
  - cbn [_process_search_results_loop]. rewrite Hu.
    unfold subscript at 1. unfold bind at 1, ret at 1.
    unfold visited_urls, subscript. unfold bind at 1. unfold_py. simpl.
    rewrite filter_cons. destruct (decide (u ∈ V)) as [Hold|Hnew].
    + rewrite decide_False by (intros H; by apply H).
      rewrite IH. simpl.
      replace (V ∪ ({[u]} ∪ list_to_set urls)) with (V ∪ list_to_set urls)
        by set_solver. done.
    + rewrite decide_True by done.
      assert (filter (λ y, y ∉ V ∪ {[u]}) urls
              = filter (λ y, y ≠ u) (filter (λ y, y ∉ V) urls)) as Hf.
      { rewrite list_filter_filter. apply list_filter_iff. intros y. set_solver. }
      rewrite _extract_content_total. cbv beta iota.
      rewrite _analyze_content_total. simpl. unfold set_research_state. simpl.
      rewrite IH, Hf, <- first_occurrences_filter, <- app_assoc. simpl.
      by rewrite (assoc_L (∪)).
Qed.

(** X25. On a state whose research state has its visited set, and with results
    that all carry a URL, [_process_search_results] processes each URL that
    was not visited before exactly once, at its first occurrence, skips the
    others, and adds every URL it met to the visited set; the content and
    the analysis of an entry are what the browser and the model give (the
    empty string and [{}] when there is none). *)
Theorem process_search_results_skips_visited (results : list search_result)
    (urls : list string) (st : state) (rs : research_state_dict) (V : gset string)
    (Hstate : research_state st = Some rs)
    (Hvisited : rs_visited_urls rs = Some V)
    (Hurls : Forall2 (λ r u, r !! "url" = Some u) results urls) :
  let content u := from_option (λ f, f u) "" browse in
  let analysis c := from_option (λ f, f c) (SourceCurator.JObj []) analyze in
  let run := _process_search_results ((λ f u, Return (f u)) <$> browse)
               ((λ f c, Return (f c)) <$> analyze) results st in
  run.1 = Return ((λ u, Processed u (content u) (analysis (content u)))
                    <$> first_occurrences (filter (λ u, u ∉ V) urls))
  ∧ research_state run.2
    = Some (ResearchState (rs_query rs) (Some (V ∪ list_to_set urls))
              (rs_research_summary rs) (rs_research_depth rs) (rs_max_depth rs))
  ∧ researcher_logs run.2
    = researcher_logs st
      ++ [LogEvent "Processing sources..." false false;
          LogEvent "Source processing completed" true false].
Proof.
  intros content analysis run. subst run.
  destruct st as [logs n ors limit]. simpl in Hstate. subst ors.
  destruct rs as [q v summary depth max_depth]. simpl in Hvisited. subst v.
  unfold _process_search_results, _log_event. unfold_py. simpl.
  rewrite (_process_search_results_loop_spec results urls) by done. simpl.
  rewrite <- app_assoc. done.
Qed.

End ProcessSearchResultsProofs.

Lemma process_search_results_skips_visited_witness :
  (ConductResearch._process_search_results None None
     [{["url" := "a.com"]}; {["url" := "b.com"]}; {["url" := "b.com"]}]
     (ConductResearch.State [] 0
        (Some (ConductResearch.ResearchState None (Some {["a.com"]}) (Some [])
                 None None)) None)).1
  = Return [ConductResearch.Processed "b.com" "" (SourceCurator.JObj [])].
Proof.
  refine (proj1 (process_search_results_skips_visited None None
     [{["url" := "a.com"]}; {["url" := "b.com"]}; {["url" := "b.com"]}]
     ["a.com"; "b.com"; "b.com"]
     (ConductResearch.State [] 0
        (Some (ConductResearch.ResearchState None (Some {["a.com"]}) (Some [])
                 None None)) None)
     (ConductResearch.ResearchState None (Some {["a.com"]}) (Some []) None None)
     {["a.com"]} eq_refl eq_refl _)).
  repeat constructor.
Defined.
(** ** Context from URLs: only new URLs are scraped *)

Section ContextByUrlsProofs.
Import ResearchSkill ContextByUrls.
Variable py_str_list : list string → string.
Variable scraped context : Type.
Variable len_scraped : scraped → outcome nat.
Variable len_context : context → outcome nat.
Variable browse_urls : list string → outcome scraped.
Variable vector_store : option (scraped → outcome unit).
Variable get_similar_content_by_query : string → scraped → outcome context.
Variable query : string.

Lemma _get_new_urls_state (B : list string) (st : state) :
  let new_urls := first_occurrences (filter (λ u, u ∉ visited_urls st) B) in
  _get_new_urls py_str_list B st
  = (Return new_urls,
     State (visited_urls st ∪ list_to_set B) (verbose st) (report_type st)
       (researcher_logs st
        ++ [LogEvent ("Getting new URLs from: " +:+ py_str_list B) false false;
            LogEvent ("New URLs: " +:+ py_str_list new_urls) true false])
       (emitted st + 2)
       (streamed st ++ if verbose st then added_source_url <$> new_urls else [])).
Proof.
  intros new_urls. subst new_urls.
  cbv [_get_new_urls _log_event try_except bind modify ret].
  rewrite (_get_new_urls_loop_state py_str_list). destruct st as [v vb rt l e s].
  unfold emit_state, append_log. simpl.
  rewrite <- app_assoc. simpl. do 2 f_equal. lia.
Qed.

(** X26. URLs are marked as visited before they are scraped: when the scraper
    fails on the new URLs, [_get_context_by_urls] logs the error and raises
    it again, but every URL of the batch stays in the visited set, so
    calling again with the same URLs finds nothing new to scrape. *)
Theorem get_context_by_urls_failed_scrape_keeps_urls_visited
    (urls : list string) (st : state) (e : exn)
    (Hscrape : browse_urls
                 (first_occurrences (filter (λ u, u ∉ visited_urls st) urls))
               = Raise e) :
  let run := _get_context_by_urls py_str_list scraped context len_scraped
               len_context browse_urls vector_store get_similar_content_by_query
               query urls st in
  run.1 = Raise e
  ∧ visited_urls run.2 = visited_urls st ∪ list_to_set urls
  ∧ last (researcher_logs run.2)
    = Some (LogEvent ("Error getting context from URLs: " +:+ str_exn e) true true)
  ∧ (_get_new_urls py_str_list urls run.2).1 = Return [].
Proof.
  intros run.
  assert (∃ st', run = (Raise e, st')
                 ∧ visited_urls st' = visited_urls st ∪ list_to_set urls
                 ∧ last (researcher_logs st')
                   = Some (LogEvent ("Error getting context from URLs: "
                                     +:+ str_exn e) true true))
    as (st' & -> & Hv & Hlast).
  { subst run. unfold _get_context_by_urls.
    unfold bind at 1. unfold _log_event at 1. unfold bind at 1, modify at 1 2.
    unfold try_except, bind at 1. rewrite _get_new_urls_state. cbv zeta.
    unfold bind at 1, lift at 1. simpl. rewrite Hscrape.
    unfold _log_event. unfold_py. simpl.
    eexists. split; [reflexivity|]. simpl. split; [done|]. by rewrite last_snoc. }
  simpl. split; [done|]. split; [done|]. split; [done|].
  rewrite _get_new_urls_state. simpl. f_equal.
  replace (filter (λ u, u ∉ visited_urls st') urls) with (@nil string); [done|].
  symmetry. apply elem_of_nil_inv. intros u [Hu Hin]%list_elem_of_filter.
  apply Hu. rewrite Hv. set_solver.
Qed.

(** X27. When every collaborator succeeds, the scraper is given exactly the URLs
    of the batch that were not visited before, each once, and the context
    returned is the one computed from the pages it scraped. *)
Theorem get_context_by_urls_scrapes_new_urls_only
    (urls : list string) (st : state) (pages : scraped) (k n : nat) (ctx : context)
    (Hscrape : browse_urls
                 (first_occurrences (filter (λ u, u ∉ visited_urls st) urls))
               = Return pages)
    (Hpages : len_scraped pages = Return k)
    (Hload : ∀ load, vector_store = Some load → load pages = Return tt)
    (Hcontext : get_similar_content_by_query query pages = Return ctx)
    (Hlen : len_context ctx = Return n) :
  let new_urls := first_occurrences (filter (λ u, u ∉ visited_urls st) urls) in
  let run := _get_context_by_urls py_str_list scraped context len_scraped
               len_context browse_urls vector_store get_similar_content_by_query
               query urls st in
  run.1 = Return ctx
  ∧ visited_urls run.2 = visited_urls st ∪ list_to_set urls
  ∧ researcher_logs run.2
    = researcher_logs st
      ++ [LogEvent ("Getting context from URLs: " +:+ py_str_list urls) false false;
          LogEvent ("Getting new URLs from: " +:+ py_str_list urls) false false;
          LogEvent ("New URLs: " +:+ py_str_list new_urls) true false;
          LogEvent ("Generated context length: " +:+ pretty n) true false].
Proof.
  intros new_urls run.
  assert (∃ st', run = (Return ctx, st')
                 ∧ visited_urls st' = visited_urls st ∪ list_to_set urls
                 ∧ researcher_logs st'
                   = researcher_logs st
                     ++ [LogEvent ("Getting context from URLs: " +:+ py_str_list urls)
                                  false false;
                         LogEvent ("Getting new URLs from: " +:+ py_str_list urls)
                                  false false;
                         LogEvent ("New URLs: " +:+ py_str_list new_urls) true false;
                         LogEvent ("Generated context length: " +:+ pretty n)
                                  true false])
    as (st' & -> & Hv & Hlogs); [|done].
  subst run. unfold _get_context_by_urls.
  unfold bind at 1. unfold _log_event at 1. unfold bind at 1, modify at 1 2.
  unfold try_except, bind at 1. rewrite _get_new_urls_state. cbv zeta.
  fold new_urls. unfold bind at 1, lift at 1. simpl. rewrite Hscrape.
  unfold bind at 1, lift at 1. rewrite Hpages.
  unfold bind at 1.
  assert (∀ s, (match vector_store with
                | Some load => lift (load pages)
                | None => ret tt
                end) s = (Return tt, s)) as ->.
  { intros s. destruct vector_store as [load|]; [|done].
    unfold lift. by rewrite (Hload load). }
  unfold lift, _log_event. unfold_py. rewrite Hcontext, Hlen. simpl.
  unfold emit_state, append_log. simpl.
  eexists. split; [reflexivity|]. simpl. split; [done|].
  by rewrite <- !app_assoc.
Qed.

End ContextByUrlsProofs.

Lemma get_context_by_urls_failed_scrape_keeps_urls_visited_witness :
  let st := ResearchSkill.State {["a.com"]} false "research_report" [] 0 [] in
  let run := ContextByUrls._get_context_by_urls (λ _, "") (list string) string
               (λ p, Return (length p)) (λ c, Return (str_len c))
               (λ _, Raise (Exn RuntimeError "timeout")) None
               (λ _ _, Return "") "solar" ["a.com"; "b.com"] st in
  run.1 = Raise (Exn RuntimeError "timeout")
  ∧ ResearchSkill.visited_urls run.2 = {["a.com"]} ∪ list_to_set ["a.com"; "b.com"].
Proof.
  intros st run.
  destruct (get_context_by_urls_failed_scrape_keeps_urls_visited (λ _, "")
              (list string) string (λ p, Return (length p)) (λ c, Return (str_len c))
              (λ _, Raise (Exn RuntimeError "timeout")) None
              (λ _ _, Return "") "solar" ["a.com"; "b.com"] st
              (Exn RuntimeError "timeout") eq_refl)
    as (Hrun & Hv & _).
  split; assumption.
Defined.

Lemma get_context_by_urls_scrapes_new_urls_only_witness :
  let st := ResearchSkill.State {["a.com"]} false "research_report" [] 0 [] in
  (ContextByUrls._get_context_by_urls (λ _, "") (list string) string
     (λ p, Return (length p)) (λ c, Return (str_len c))
     (λ new, Return new) None
     (λ _ pages, Return (str_join " " pages)) "solar" ["a.com"; "b.com"; "c.com"] st).1
  = Return "b.com c.com".
Proof.
  intros st.
  refine (proj1 (get_context_by_urls_scrapes_new_urls_only (λ _, "")
              (list string) string (λ p, Return (length p)) (λ c, Return (str_len c))
              (λ new, Return new) None
              (λ _ pages, Return (str_join " " pages)) "solar"
              ["a.com"; "b.com"; "c.com"] st ["b.com"; "c.com"] 2 11 "b.com c.com"
              _ eq_refl _ eq_refl eq_refl)).
  - vm_compute. reflexivity.
  - intros load [=].
Defined.

(** ** Server configuration: the environment round trip *)

Section ServerUtilsProofs.
Import ServerUtils.



End ServerUtilsProofs.
(** ** The state loggers *)

Section ActionsUtilsProofs.
Import ActionsUtils GPTResearcher.
Variable now : string.

Lemma append_to_appends (key : string) (item : entry) (st : ActionsUtils.state) :
  appends_entry key item st (append_to key item st).
Proof.
  unfold appends_entry, append_to. simpl. split; [by rewrite lookup_insert_eq|].
  split; [|done]. intros other Hne. by rewrite lookup_insert_ne.
Qed.

(** X29. Each logger writes to a list of its own, [log_event] to
    ["event_logs"], [log_error] to ["error_logs"], [log_progress] to
    ["progress_logs"] and [log_result] to ["result_logs"]: one entry is
    appended, the list is created when the key is absent, and the other
    lists are not touched.  In an event the fields given as metadata
    override the built-in ones; a progress entry is done exactly when the
    progress is at least [1.0]; and [stream_output] logs an ["output"]
    event for every type but ["images"], for which it changes nothing. *)
Theorem loggers_write_their_own_list (st : ActionsUtils.state) :
  (∀ event_type message metadata,
     ∃ item, appends_entry "event_logs" item st
               (log_event now event_type message metadata st)
             ∧ (∀ m field value, metadata = Some m → m !! field = Some value →
                  item !! field = Some value)
             ∧ (default ∅ metadata !! "type" = None →
                  item !! "type" = Some (PyStr event_type))
             ∧ (default ∅ metadata !! "message" = None →
                  item !! "message" = Some (PyStr message)))
  ∧ (∀ error context,
       ∃ item, appends_entry "error_logs" item st (log_error now error context st)
               ∧ item !! "message" = Some (PyStr (str_exn error))
               ∧ item !! "error" = Some (PyBool true))
  ∧ (∀ step progress message,
       ∃ item, appends_entry "progress_logs" item st
                 (log_progress now step progress message st)
               ∧ (item !! "done" = Some (PyBool true)
                  ↔ (1 <=? progress)%float = true))
  ∧ (∀ result_type result,
       ∃ item, appends_entry "result_logs" item st
                 (log_result now result_type result st)
               ∧ item !! "result" = Some result)
  ∧ (∀ type content output metadata,
       (type = "images" → stream_output now type content output metadata st = st)
       ∧ (type ≠ "images" →
            stream_output now type content output metadata st
            = log_event now "output" output metadata st)).
Proof.
  split; [|split; [|split; [|split]]].
  - intros event_type message metadata. eexists.
    split; [apply append_to_appends|]. split; [|split].
    + intros m field value -> Hm. by apply lookup_union_Some_l.
    + destruct metadata as [m|]; simpl; intros Hm.
      * apply lookup_union_Some_raw. right. split; [done|]. by simplify_map_eq.
      * by simplify_map_eq.
    + destruct metadata as [m|]; simpl; intros Hm.
      * apply lookup_union_Some_raw. right. split; [done|]. by simplify_map_eq.
      * by simplify_map_eq.
  - intros error context. eexists. split; [apply append_to_appends|].
    destruct context as [c|]; [destruct (decide (c = ""))|];
      split; by simplify_map_eq.
  - intros step progress message. eexists. split; [apply append_to_appends|].
    assert (∀ b : bool, Some (PyBool b) = Some (PyBool true) ↔ b = true) as Hb
      by (intros []; split; congruence).
    destruct message as [m|]; [destruct (decide (m = ""))|];
      simplify_map_eq; apply Hb.
  - intros result_type result. eexists. split; [apply append_to_appends|].
    by simplify_map_eq.
  - intros type content output metadata. unfold stream_output.
    split; intros Htype; case_decide; done.
Qed.

End ActionsUtilsProofs.
(** ** Token counts with thousands separators *)

Section TokenFormatProofs.
Import ActionsUtils.

Example format_token_count_examples :
  format_token_count 0 = "0"
  ∧ format_token_count 999 = "999"
  ∧ format_token_count 1000 = "1,000"
  ∧ format_token_count 1234567 = "1,234,567"
  ∧ format_token_count (-12345) = "-12,345".
Proof. repeat split; reflexivity. Qed.

Lemma filter_all {A} (P : A → Prop) `{∀ x, Decision (P x)} (l : list A) :
  Forall P l → filter P l = l.
Proof.
  induction 1 as [|x l Hx _ IH]; [done|].
  by rewrite filter_cons_True, IH.
Qed.

Lemma group_thousands_filter (digits : list ascii) :
  Forall (λ c, c ≠ ","%char) digits →
  filter (λ c, c ≠ ","%char) (group_thousands digits) = digits.
Proof.
  induction digits as [digits IH] using (induction_ltof1 _ length).
  unfold ltof in IH. intros Hd.
  destruct digits as [|a [|b [|c [|d rest]]]]; try (by apply filter_all).
  change (group_thousands (a :: b :: c :: d :: rest))
    with (a :: b :: c :: ","%char :: group_thousands (d :: rest)).
  apply Forall_cons in Hd as [Ha Hd]. apply Forall_cons in Hd as [Hb Hd].
  apply Forall_cons in Hd as [Hc Hd].
  rewrite !filter_cons_True by done.
  rewrite filter_cons_False by (intros H; by apply H).
  rewrite IH; [done|simpl; lia|done].
Qed.

Lemma pretty_N_char_digit (x : N) : pretty_N_char x ≠ ","%char.
Proof. unfold pretty_N_char. repeat case_match; discriminate. Qed.

Lemma pretty_N_go_digits (x : N) (s : string) :
  Forall (λ c, c ≠ ","%char) (String.list_ascii_of_string s) →
  Forall (λ c, c ≠ ","%char) (String.list_ascii_of_string (pretty_N_go x s)).
Proof.
  revert s. induction (N.lt_wf_0 x) as [x _ IH]; intros s Hs.
  destruct (decide (x = 0)%N) as [->|Hx]; [by rewrite pretty_N_go_0|].
  rewrite pretty_N_go_step by lia. apply IH.
  - apply N.div_lt; lia.
  - simpl. constructor; [apply pretty_N_char_digit|done].
Qed.

Lemma pretty_N_digits (x : N) :
  Forall (λ c, c ≠ ","%char) (String.list_ascii_of_string (pretty x)).
Proof.
  unfold pretty, pretty_N. case_decide.
  - repeat constructor. discriminate.
  - apply pretty_N_go_digits. constructor.
Qed.

Lemma list_ascii_of_string_app (s t : string) :
  String.list_ascii_of_string (s +:+ t) = String.list_ascii_of_string s ++ String.list_ascii_of_string t.
Proof. induction s as [|c s IH]; [done|]. simpl. by rewrite <- IH. Qed.

(** X30. Formatting a token count only inserts commas: deleting the commas
    from [format_token_count count] gives the decimal representation of
    [count] back, for every integer, and a count below one thousand in
    absolute value is formatted without any comma. *)
Theorem format_token_count_round_trip (count : Z) :
  String.string_of_list_ascii
    (filter (λ c, c ≠ ","%char) (String.list_ascii_of_string (format_token_count count)))
  = pretty count
  ∧ ((Z.abs count < 1000)%Z → format_token_count count = pretty count).
Proof.
  assert (∀ sign : string,
            Forall (λ c, c ≠ ","%char) (String.list_ascii_of_string sign) →
            String.string_of_list_ascii
              (filter (λ c, c ≠ ","%char)
                 (String.list_ascii_of_string
                    (sign +:+ String.string_of_list_ascii
                       (reverse (group_thousands
                          (reverse (String.list_ascii_of_string (pretty (Z.abs_N count))))))))) 
            = sign +:+ pretty (Z.abs_N count)) as Hround.
  { intros sign Hsign.
    rewrite list_ascii_of_string_app, String.list_ascii_of_string_of_list_ascii.
    rewrite filter_app, filter_reverse, group_thousands_filter, reverse_involutive.
    - rewrite filter_all by done.
      rewrite <- (String.string_of_list_ascii_of_string (sign +:+ _)).
      by rewrite list_ascii_of_string_app.
    - apply Forall_reverse, pretty_N_digits. }
  split.
  - unfold format_token_count. cbv zeta.
    destruct count as [|p|p]; simpl (_ <? _)%Z; cbv iota.
    + reflexivity.
    + rewrite Hround by constructor. reflexivity.
    + rewrite Hround by (repeat constructor; discriminate). reflexivity.
  - intros Hsmall. unfold format_token_count. cbv zeta.
    assert (group_thousands (reverse (String.list_ascii_of_string (pretty (Z.abs_N count))))
            = reverse (String.list_ascii_of_string (pretty (Z.abs_N count)))) as ->.
    { assert (length (reverse (String.list_ascii_of_string (pretty (Z.abs_N count)))) ≤ 3)
        as Hlen.
      { rewrite length_reverse.
        assert (Z.abs_N count < 1000)%N as Hn by lia.
        clear Hround. revert Hn. generalize (Z.abs_N count). intros n Hn.
        assert (forallb (λ k, length (String.list_ascii_of_string
                                        (pretty (N.of_nat k))) <=? 3)
                  (seq 0 1000) = true) as Hall by (vm_compute; reflexivity).
        rewrite forallb_forall in Hall.
        specialize (Hall (N.to_nat n)). rewrite N2Nat.id in Hall.
        apply Nat.leb_le, Hall, in_seq. lia. }
      revert Hlen.
      generalize (reverse (String.list_ascii_of_string (pretty (Z.abs_N count)))).
      intros [|a [|b [|c [|d rest]]]] Hlen; try done. simpl in Hlen. lia. }
    rewrite reverse_involutive, String.string_of_list_ascii_of_string.
    by destruct count.
Qed.

End TokenFormatProofs.
